(** * Bolt Card emulator: SDM cryptography, NDEF builder and APDU state machine

    A shallow embedding of the TypeScript sources

      - [src/crypto/utils.ts], [src/crypto/aes.ts], [src/crypto/cmac.ts],
        [src/crypto/sessionKeys.ts]
      - [src/services/SDMService.ts], [src/services/StorageService.ts],
        [src/services/NTAG424Service.ts]
      - [src/apdu/APDUParser.ts], [src/apdu/APDUBuilder.ts],
        [src/apdu/commands.ts], [src/apdu/handlers/SelectHandler.ts],
        [src/apdu/handlers/ReadHandler.ts]

    Conventions.
      - A [Uint8Array] is a [list Z]; its elements are bytes, which the
        predicate [is_bytes] records where a proof needs it.
      - A JavaScript string is a Rocq [string] holding its UTF-8 encoding, so
        [TextEncoder.encode] is the list of character codes.  The string
        operations the sources use (anchored replacement of an ASCII prefix,
        [endsWith('/')], [slice(0,-1)] after such a test, concatenation)
        commute with that encoding.
      - A function that can [throw] returns a [result]; [try]/[catch] is a
        match on it.
      - Mutable object state is passed explicitly; a promise that is started
        and not awaited is a task in a queue that the event loop runs after
        the synchronous caller has returned. *)

From Stdlib Require Import ZArith String Ascii List Bool Lia Arith.
From Stdlib Require Import DecimalString.
Import ListNotations.

Open Scope Z_scope.

(* ===================================================================== *)
(** ** Exceptions *)

Inductive result (A : Type) : Type :=
| Ok (a : A)
| Throw (msg : string).

Arguments Ok {A} a.
Arguments Throw {A} msg.

Definition bind {A B : Type} (r : result A) (k : A -> result B) : result B :=
  match r with
  | Ok a => k a
  | Throw m => Throw m
  end.

Notation "x <- e ;; k" := (bind e (fun x => k))
  (at level 61, e at next level, right associativity).

Definition is_ok {A : Type} (r : result A) : bool :=
  match r with Ok _ => true | Throw _ => false end.

(* ===================================================================== *)
(** ** Byte arrays *)

Definition Uint8Array := list Z.

Definition is_byte (b : Z) : Prop := 0 <= b < 256.
Definition is_bytes (l : Uint8Array) : Prop := Forall is_byte l.

(** [new Uint8Array(n)]: [n] zero bytes. *)
Definition zeros (n : nat) : Uint8Array := repeat 0 n.

(** [a.slice(i, j)] for [0 <= i], [0 <= j]. *)
Definition slice (a : Uint8Array) (i j : nat) : Uint8Array :=
  firstn (j - i) (skipn i a).

(** Storing a number into a [Uint8Array] keeps its low eight bits. *)
Definition to_uint8 (n : Z) : Z := n mod 256.

(* ===================================================================== *)
(** ** [src/crypto/utils.ts] *)

Module Utils.

(** Lower-case hexadecimal digit of [n], as [Number.prototype.toString(16)]
    prints a value below sixteen. *)
Definition hex_digit (n : Z) : ascii :=
  nth (Z.to_nat n)
      ["0";"1";"2";"3";"4";"5";"6";"7";"8";"9";"a";"b";"c";"d";"e";"f"]%char
      "0"%char.

(** [String.prototype.toUpperCase] on one ASCII character. *)
Definition upper_char (c : ascii) : ascii :=
  let n := nat_of_ascii c in
  if (andb (97 <=? n) (n <=? 122))%nat then ascii_of_nat (n - 32) else c.

Fixpoint toUpperCase (s : string) : string :=
  match s with
  | EmptyString => EmptyString
  | String c r => String (upper_char c) (toUpperCase r)
  end.

(** [/[0-9A-Fa-f]/] on one character. *)
Definition is_hex_char (c : ascii) : bool :=
  let n := nat_of_ascii c in
  (((48 <=? n) && (n <=? 57)) || ((65 <=? n) && (n <=? 70))
   || ((97 <=? n) && (n <=? 102)))%nat.

(** Value of a hexadecimal digit, as [parseInt(_, 16)] reads it. *)
Definition hex_value (c : ascii) : Z :=
  let n := nat_of_ascii c in
  if ((48 <=? n) && (n <=? 57))%nat then Z.of_nat (n - 48)
  else if ((65 <=? n) && (n <=? 70))%nat then Z.of_nat (n - 55)
  else Z.of_nat (n - 87).

(** [hex.replace(/[^0-9A-Fa-f]/g, '')] *)
Fixpoint strip_non_hex (s : string) : string :=
  match s with
  | EmptyString => EmptyString
  | String c r =>
      if is_hex_char c then String c (strip_non_hex r) else strip_non_hex r
  end.

(** The loop [for (i = 0; i < hex.length; i += 2) bytes[i/2] =
    parseInt(hex.substring(i, i+2), 16)] on a string of hexadecimal digits. *)
Fixpoint parse_hex_pairs (s : string) : list Z :=
  match s with
  | String c1 (String c2 r) =>
      (16 * hex_value c1 + hex_value c2) :: parse_hex_pairs r
  | String c1 EmptyString => [hex_value c1]
  | EmptyString => []
  end.

(** [hexToBytes] *)
Definition hexToBytes (hex : string) : result Uint8Array :=
  let hex := strip_non_hex hex in
  if negb (Nat.eqb (Nat.modulo (String.length hex) 2) 0)
  then Throw "Hex string must have even length"
  else Ok (parse_hex_pairs hex).

(** [b.toString(16).padStart(2, '0')] for an element [b] of a [Uint8Array]. *)
Definition byte_to_hex (b : Z) : string :=
  String (hex_digit (b / 16)) (String (hex_digit (b mod 16)) EmptyString).

(** [bytesToHex] *)
Definition bytesToHex (bytes : Uint8Array) : string :=
  toUpperCase (String.concat "" (map byte_to_hex bytes)).

(** [xor]; also the private [xorBytes] of [aes.ts], which has the same body. *)
Definition xor (a b : Uint8Array) : result Uint8Array :=
  if negb (Nat.eqb (length a) (length b))
  then Throw "Arrays must be same length for XOR"
  else Ok (map (fun p => Z.lxor (fst p) (snd p)) (combine a b)).

(** [leftShift]; also the private [leftShiftOne] of [aes.ts], which has the
    same body.  The loop runs from the last index down to 0, threading
    [carry]; the accumulator pairs the bytes already written with the carry. *)
Definition leftShift_step (d : Z) (acc : list Z * Z) : list Z * Z :=
  let '(out, carry) := acc in
  let newCarry := Z.shiftr (Z.land d 128) 7 in
  (Z.land (Z.lor (Z.shiftl d 1) carry) 255 :: out, newCarry).

Definition leftShift (data : Uint8Array) : Uint8Array :=
  fst (fold_right leftShift_step ([], 0) data).

(** [concat(...arrays)] *)
Definition concat (arrays : list Uint8Array) : Uint8Array :=
  List.concat arrays.

(** JavaScript's [ToInt32], applied by [&] and [>>] to their operands. *)
Definition toInt32 (n : Z) : Z :=
  let m := n mod 4294967296 in
  if m <? 2147483648 then m else m - 4294967296.

(** [numberToBytes(num, byteLength)]: the loop fills the array from the last
    index to the first; [go k num] returns the [k] leading bytes. *)
Fixpoint numberToBytes_go (k : nat) (num : Z) (acc : list Z) : list Z :=
  match k with
  | O => acc
  | S k' =>
      numberToBytes_go k' (Z.shiftr (toInt32 num) 8)
                       (Z.land (toInt32 num) 255 :: acc)
  end.

Definition numberToBytes (num : Z) (byteLength : nat) : Uint8Array :=
  numberToBytes_go byteLength num [].

(** [bytesToNumber]: [num = (num << 8) | bytes[i]] on 32-bit integers. *)
Definition bytesToNumber (bytes : Uint8Array) : Z :=
  fold_left (fun num b => toInt32 (Z.lor (Z.shiftl (toInt32 num) 8) b)) bytes 0.

(** [incrementCounter]: from the least significant byte, a byte [0xFF]
    becomes [0x00] and the loop goes on; any other byte is incremented and
    the loop breaks.  [go] takes the bytes last-first. *)
Fixpoint incrementCounter_go (rev_bytes : list Z) : list Z :=
  match rev_bytes with
  | [] => []
  | b :: r =>
      if b =? 255 then 0 :: incrementCounter_go r
      else to_uint8 (b + 1) :: r
  end.

Definition incrementCounter (counter : Uint8Array) : Uint8Array :=
  rev (incrementCounter_go (rev counter)).

(** [pad], for a positive [blockSize]: PKCS#7 padding.  The padding bytes
    are stored into a [Uint8Array], hence modulo 256. *)
Definition pad (data : Uint8Array) (blockSize : nat) : Uint8Array :=
  let paddingLength := (blockSize - Nat.modulo (length data) blockSize)%nat in
  data ++ repeat (to_uint8 (Z.of_nat paddingLength)) paddingLength.

(** [unpad].  On an empty array [data[data.length - 1]] is [undefined], the
    loop does not run and [slice(0, NaN)] is empty.  Otherwise the loop
    starts at [data.length - paddingLength]; at a negative index [data[i]]
    is [undefined], which differs from [paddingLength]. *)
Definition unpad (data : Uint8Array) : result Uint8Array :=
  match nth_error data (length data - 1) with
  | None => Ok []
  | Some paddingLength =>
      let start := Z.of_nat (length data) - paddingLength in
      if start <? 0 then Throw "Invalid PKCS#7 padding"
      else if forallb (fun b => b =? paddingLength)
                      (skipn (Z.to_nat start) data)
      then Ok (slice data 0 (Z.to_nat start))
      else Throw "Invalid PKCS#7 padding"
  end.

End Utils.

(* ===================================================================== *)
(** ** The [crypto-js] dependency

    [aes.ts] delegates the block cipher and its modes to the [crypto-js]
    package.  What follows is that package's behaviour on the calls the
    sources make: a [WordArray] is modelled by its significant bytes, the
    cipher is FIPS-197 AES with the 128-bit key schedule (the wrappers only
    pass 16-byte keys), and the modes follow [BlockCipher._process] with
    [NoPadding]. *)

Module CryptoJS.

(** Multiplication by [x] in GF(2^8) modulo [x^8+x^4+x^3+x+1]. *)
Definition xtime (b : Z) : Z :=
  Z.lxor (Z.land (Z.shiftl b 1) 255) (if Z.testbit b 7 then 27 else 0).

Fixpoint gf_mul_go (n : nat) (a b : Z) : Z :=
  match n with
  | O => 0
  | S n' =>
      Z.lxor (if Z.odd b then a else 0)
             (gf_mul_go n' (xtime a) (Z.shiftr b 1))
  end.

Definition gf_mul (a b : Z) : Z := gf_mul_go 8 a b.

Fixpoint gf_pow (a : Z) (n : nat) : Z :=
  match n with
  | O => 1
  | S n' => gf_mul a (gf_pow a n')
  end.

(** Multiplicative inverse in GF(2^8), with [0] sent to [0]. *)
Definition gf_inv (a : Z) : Z := gf_pow a 254.

Definition rotl8 (b : Z) (k : Z) : Z :=
  Z.land (Z.lor (Z.shiftl b k) (Z.shiftr b (8 - k))) 255.

Definition sbox_affine (b : Z) : Z :=
  Z.lxor b (Z.lxor (rotl8 b 1) (Z.lxor (rotl8 b 2)
    (Z.lxor (rotl8 b 3) (Z.lxor (rotl8 b 4) 99)))).

(** The S-box table of FIPS-197, figure 7. *)
Definition SBOX : list Z :=
  Eval vm_compute in
    map (fun n => sbox_affine (gf_inv (Z.of_nat n))) (seq 0 256).

Definition sub_byte (b : Z) : Z := nth (Z.to_nat b) SBOX 0.

(** The state and the round keys are 16 bytes in input order: byte [r + 4c]
    is row [r] of column [c]. *)
Definition idx16 : list nat := seq 0 16.

Definition subBytes (s : list Z) : list Z := map sub_byte s.

Definition shiftRows (s : list Z) : list Z :=
  map (fun i => nth (i mod 4 + 4 * ((i / 4 + i mod 4) mod 4))%nat s 0) idx16.

Definition mix_byte (s : list Z) (i : nat) : Z :=
  let c := (4 * (i / 4))%nat in
  let a := fun k => nth (c + (i mod 4 + k) mod 4)%nat s 0 in
  Z.lxor (xtime (a 0%nat))
    (Z.lxor (Z.lxor (xtime (a 1%nat)) (a 1%nat))
       (Z.lxor (a 2%nat) (a 3%nat))).

Definition mixColumns (s : list Z) : list Z := map (mix_byte s) idx16.

Definition addRoundKey (s k : list Z) : list Z :=
  map (fun i => Z.lxor (nth i s 0) (nth i k 0)) idx16.

(** One step of the key expansion: the next four words from the last four. *)
Definition next_round_key (rcon : Z) (k : list Z) : list Z :=
  let b := fun i => nth i k 0 in
  let t0 := Z.lxor (sub_byte (b 13%nat)) rcon in
  let t1 := sub_byte (b 14%nat) in
  let t2 := sub_byte (b 15%nat) in
  let t3 := sub_byte (b 12%nat) in
  let w0 := [Z.lxor (b 0%nat) t0; Z.lxor (b 1%nat) t1;
             Z.lxor (b 2%nat) t2; Z.lxor (b 3%nat) t3] in
  let w1 := map (fun i => Z.lxor (b (4 + i)%nat) (nth i w0 0)) (seq 0 4) in
  let w2 := map (fun i => Z.lxor (b (8 + i)%nat) (nth i w1 0)) (seq 0 4) in
  let w3 := map (fun i => Z.lxor (b (12 + i)%nat) (nth i w2 0)) (seq 0 4) in
  w0 ++ w1 ++ w2 ++ w3.

Definition RCON : list Z := [1; 2; 4; 8; 16; 32; 64; 128; 27; 54].

(** Rounds 1 to [Nr]: every round but the last mixes the columns. *)
Fixpoint rounds (rcons : list Z) (k s : list Z) : list Z :=
  match rcons with
  | [] => s
  | rc :: rest =>
      let k' := next_round_key rc k in
      let s1 := shiftRows (subBytes s) in
      let s2 := match rest with [] => s1 | _ => mixColumns s1 end in
      rounds rest k' (addRoundKey s2 k')
  end.

(** [cipher.encryptBlock] for a 16-byte key. *)
Definition encryptBlock (key block : list Z) : list Z :=
  rounds RCON key (addRoundKey block key).

(** [CryptoJS.enc.Hex.parse] *)
Definition Hex_parse (hexStr : string) : list Z :=
  Utils.parse_hex_pairs hexStr.

(** [CryptoJS.enc.Hex.stringify]: of each byte, masked with [0xff], the high
    and the low nibble. *)
Definition Hex_stringify (bytes : list Z) : string :=
  String.concat ""
    (map (fun b =>
            let bite := Z.land b 255 in
            String (Utils.hex_digit (Z.shiftr bite 4))
              (String (Utils.hex_digit (Z.land bite 15)) EmptyString))
       bytes).

(** Number of blocks [_process] handles on a flush: [ceil(sigBytes / 16)]. *)
Definition nBlocksReady (sigBytes : nat) : nat := ((sigBytes + 15) / 16)%nat.

(** [CryptoJS.AES.encrypt(data, key, {mode: ECB, padding: NoPadding})
    .ciphertext]: every block is encrypted in place (missing words of the
    last block read as zero); the first [sigBytes] bytes are significant. *)
Definition AES_encrypt_ECB (data key : list Z) : list Z :=
  firstn (length data)
    (flat_map (fun i => encryptBlock key (firstn 16 (skipn (16 * i) data)))
       (seq 0 (nBlocksReady (length data)))).

(** The counter block of [CryptoJS.mode.CTR] for block number [i]: the IV
    with [i] added to its last 32-bit word, modulo 2^32. *)
Definition ctr_block (iv : list Z) (i : nat) : list Z :=
  let last := Utils.bytesToNumber (skipn 12 iv) in
  firstn 12 iv ++ Utils.numberToBytes (last + Z.of_nat i) 4.

(** [CryptoJS.AES.encrypt(data, key, {iv, mode: CTR, padding: NoPadding})
    .ciphertext]: block [i] of the data is XORed with the encryption of
    counter block [i]; the first [sigBytes] bytes are significant. *)
Definition AES_encrypt_CTR (data key iv : list Z) : list Z :=
  map (fun p => Z.lxor (fst p) (snd p))
    (combine data
       (flat_map (fun i => encryptBlock key (ctr_block iv i))
          (seq 0 (nBlocksReady (length data))))).

End CryptoJS.

(* ===================================================================== *)
(** ** [src/crypto/aes.ts] *)

Module Aes.

(** [aesEncryptECB] *)
Definition aesEncryptECB (key data : Uint8Array) : result Uint8Array :=
  if negb (Nat.eqb (length key) 16)
  then Throw "Key must be 16 bytes for AES-128"
  else if negb (Nat.eqb (Nat.modulo (length data) 16) 0)
  then Throw "Data must be multiple of 16 bytes for ECB mode"
  else
    let keyWords := CryptoJS.Hex_parse (Utils.bytesToHex key) in
    let dataWords := CryptoJS.Hex_parse (Utils.bytesToHex data) in
    let ciphertext := CryptoJS.AES_encrypt_ECB dataWords keyWords in
    Utils.hexToBytes (CryptoJS.Hex_stringify ciphertext).

(** [aesEncryptCTR] *)
Definition aesEncryptCTR (key iv data : Uint8Array) : result Uint8Array :=
  if negb (Nat.eqb (length key) 16)
  then Throw "Key must be 16 bytes for AES-128"
  else if negb (Nat.eqb (length iv) 16)
  then Throw "IV must be 16 bytes for CTR mode"
  else
    let keyWords := CryptoJS.Hex_parse (Utils.bytesToHex key) in
    let dataWords := CryptoJS.Hex_parse (Utils.bytesToHex data) in
    let ivWords := CryptoJS.Hex_parse (Utils.bytesToHex iv) in
    let ciphertext := CryptoJS.AES_encrypt_CTR dataWords keyWords ivWords in
    result <- Utils.hexToBytes (CryptoJS.Hex_stringify ciphertext) ;;
    Ok (slice result 0 (length data)).

(** [aesDecryptCTR] *)
Definition aesDecryptCTR (key iv data : Uint8Array) : result Uint8Array :=
  aesEncryptCTR key iv data.

(** [aesEncryptBlock] *)
Definition aesEncryptBlock (key block : Uint8Array) : result Uint8Array :=
  if negb (Nat.eqb (length block) 16)
  then Throw "Block must be exactly 16 bytes"
  else aesEncryptECB key block.

(** The constant [Rb]: sixteen zero bytes with [Rb[15] = 0x87]. *)
Definition Rb : Uint8Array := repeat 0 15 ++ [135].

(** [generateCMACSubkeys]; the result is the pair [(K1, K2)]. *)
Definition generateCMACSubkeys (key : Uint8Array)
  : result (Uint8Array * Uint8Array) :=
  let zeroBlock := zeros 16 in
  L <- aesEncryptBlock key zeroBlock ;;
  let K1 := Utils.leftShift L in
  K1 <- (if negb (Z.land (nth 0 L 0) 128 =? 0) then Utils.xor K1 Rb
         else Ok K1) ;;
  let K2 := Utils.leftShift K1 in
  K2 <- (if negb (Z.land (nth 0 K1 0) 128 =? 0) then Utils.xor K2 Rb
         else Ok K2) ;;
  Ok (K1, K2).

End Aes.

(* ===================================================================== *)
(** ** [src/crypto/cmac.ts] *)

Module Cmac.

Definition blockSize : nat := 16.

(** [padded = new Uint8Array(16); padded.set(lastBlockData);
    padded[lastBlockData.length] = 0x80] for fewer than 16 bytes. *)
Definition pad_last (lastBlockData : Uint8Array) : Uint8Array :=
  lastBlockData ++ [128] ++ zeros (blockSize - length lastBlockData - 1).

(** The loop over all blocks except the last:
    [mac = aesEncryptBlock(key, xor(mac, message.slice(16 i, 16 (i+1))))]
    for the indices [i] in [idxs]. *)
Fixpoint cbc_loop (key message : Uint8Array) (idxs : list nat)
                  (mac : Uint8Array) : result Uint8Array :=
  match idxs with
  | [] => Ok mac
  | i :: rest =>
      let block := slice message (i * blockSize) ((i + 1) * blockSize) in
      xored <- Utils.xor mac block ;;
      mac' <- Aes.aesEncryptBlock key xored ;;
      cbc_loop key message rest mac'
  end.

(** [cmac] *)
Definition cmac (key message : Uint8Array) : result Uint8Array :=
  if negb (Nat.eqb (length key) 16)
  then Throw "Key must be 16 bytes for AES-128 CMAC"
  else
    subkeys <- Aes.generateCMACSubkeys key ;;
    let '(K1, K2) := subkeys in
    let numBlocks :=
      if Nat.eqb (length message) 0 then 1%nat
      else ((length message + blockSize - 1) / blockSize)%nat in
    let lastBlockComplete :=
      if Nat.eqb (length message) 0 then false
      else Nat.eqb (Nat.modulo (length message) blockSize) 0 in
    let lastBlockStart := ((numBlocks - 1) * blockSize)%nat in
    lastBlock <-
      (if lastBlockComplete
       then Utils.xor (skipn lastBlockStart message) K1
       else Utils.xor (pad_last (skipn lastBlockStart message)) K2) ;;
    mac <- cbc_loop key message (seq 0 (numBlocks - 1)) (zeros blockSize) ;;
    xored <- Utils.xor mac lastBlock ;;
    Aes.aesEncryptBlock key xored.

(** [cmacSDM] *)
Definition cmacSDM (key message : Uint8Array) : result Uint8Array :=
  fullCmac <- cmac key message ;;
  Ok (slice fullCmac 0 8).

(** [cmacPRF] *)
Definition cmacPRF (key data : Uint8Array) : result Uint8Array :=
  cmac key data.

(** [verifyCMAC]: [diff |= calculatedTag[i] ^ tag[i]] over all indices. *)
Definition verifyCMAC (key message tag : Uint8Array) : result bool :=
  calculatedTag <- cmac key message ;;
  if negb (Nat.eqb (length calculatedTag) (length tag)) then Ok false
  else
    let diff :=
      fold_left (fun diff p => Z.lor diff (Z.lxor (fst p) (snd p)))
                (combine calculatedTag tag) 0 in
    Ok (diff =? 0).

End Cmac.

(* ===================================================================== *)
(** ** [src/crypto/sessionKeys.ts] *)

Module SessionKeys.

Record SDMSessionKeys : Type := {
  KSesSDMFileReadMAC : Uint8Array;
  KSesSDMFileEnc : Uint8Array
}.

(** [new TextEncoder().encode(s)] *)
Definition encode (s : string) : Uint8Array :=
  map (fun c => Z.of_nat (nat_of_ascii c)) (list_ascii_of_string s).

(** [deriveKey] *)
Definition deriveKey (masterKey sv label : Uint8Array) : result Uint8Array :=
  if negb (Nat.eqb (length masterKey) 16)
  then Throw "Master key must be 16 bytes"
  else if negb (Nat.eqb (length sv) 16)
  then Throw "Session vector must be 16 bytes"
  else
    let counter := [0; 1] in
    let separator := [0] in
    let length := [0; 128] in
    let input := Utils.concat [counter; label; separator; sv; length] in
    Cmac.cmacPRF masterKey input.

(** [deriveSDMSessionKeys]; the optional argument [sv] is an [option]. *)
Definition deriveSDMSessionKeys (K1 K2 : Uint8Array) (sv : option Uint8Array)
  : result SDMSessionKeys :=
  let sessionVector := match sv with Some v => v | None => zeros 16 end in
  let labelFileEnc := encode "SDMENCFileData" in
  let labelFileReadMAC := encode "SDMFileReadMAC" in
  enc <- deriveKey K1 sessionVector labelFileEnc ;;
  mac <- deriveKey K2 sessionVector labelFileReadMAC ;;
  Ok {| KSesSDMFileReadMAC := mac; KSesSDMFileEnc := enc |}.

Record AuthSessionKeys : Type := {
  aKSesAuth : Uint8Array;
  aKSesSDMFileReadMAC : Uint8Array;
  aKSesSDMFileEnc : Uint8Array
}.

(** [deriveAuthSessionKeys] *)
Definition deriveAuthSessionKeys (K0 K1 K2 sv : Uint8Array)
  : result AuthSessionKeys :=
  let labelAuth := encode "SDMSesAuthENC" in
  let labelFileEnc := encode "SDMENCFileData" in
  let labelFileReadMAC := encode "SDMFileReadMAC" in
  auth <- deriveKey K0 sv labelAuth ;;
  enc <- deriveKey K1 sv labelFileEnc ;;
  mac <- deriveKey K2 sv labelFileReadMAC ;;
  Ok {| aKSesAuth := auth; aKSesSDMFileReadMAC := mac;
        aKSesSDMFileEnc := enc |}.

(** [generateZeroSV] *)
Definition generateZeroSV : Uint8Array := zeros 16.

End SessionKeys.

(* ===================================================================== *)
(** ** [src/constants/apdu.ts], [src/constants/ntag424.ts] *)

Module SW.
Definition SUCCESS : Z := 0x9000.
Definition SECURITY_STATUS_NOT_SATISFIED : Z := 0x6982.
Definition FILE_NOT_FOUND : Z := 0x6A82.
Definition WRONG_PARAMETERS : Z := 0x6A86.
Definition INSTRUCTION_NOT_SUPPORTED : Z := 0x6D00.
Definition UNKNOWN_ERROR : Z := 0x6F00.
End SW.

Module INS.
Definition SELECT : Z := 0xA4.
Definition READ_BINARY : Z := 0xB0.
End INS.

Module P1_SELECT.
Definition BY_FILE_ID : Z := 0x00.
Definition BY_DF_NAME : Z := 0x04.
End P1_SELECT.

Module FILE_ID.
Definition CC : Z := 0x01.
Definition NDEF : Z := 0x02.
Definition PROPRIETARY : Z := 0x03.
End FILE_ID.

Module MEMORY.
Definition PICC_DATA_SIZE : nat := 10.
End MEMORY.

Module NDEF.
Definition RTD_URI : Z := 0x55.
Definition URI_PREFIX_NONE : Z := 0x00.
Definition URI_PREFIX_HTTPS : Z := 0x04.
Definition TLV_NDEF_MESSAGE : Z := 0x03.
Definition TLV_TERMINATOR : Z := 0xFE.
End NDEF.

Definition NTAG424_AID : Uint8Array := [0xD2; 0x76; 0x00; 0x00; 0x85; 0x01; 0x01].

(* ===================================================================== *)
(** ** [src/services/SDMService.ts] *)

Module SDMService.

Record SDMConfig : Type := {
  cfg_piccData : Uint8Array;
  encKey : Uint8Array;
  macKey : Uint8Array;
  counter : Uint8Array;
  uid : Uint8Array
}.

Record SDMMessage : Type := {
  encPiccData : string;
  cmac : string;
  piccData : Uint8Array
}.

(** [generateSDM] *)
Definition generateSDM (config : SDMConfig) : result SDMMessage :=
  let piccData := Utils.concat [uid config; counter config] in
  if negb (Nat.eqb (length piccData) MEMORY.PICC_DATA_SIZE)
  then Throw "PICCData must be 10 bytes"
  else
    sessionKeys <-
      SessionKeys.deriveSDMSessionKeys (encKey config) (macKey config) None ;;
    let iv := zeros 16 in
    encryptedPiccData <-
      Aes.aesEncryptCTR (SessionKeys.KSesSDMFileEnc sessionKeys) iv piccData ;;
    cmac <-
      Cmac.cmacSDM (SessionKeys.KSesSDMFileReadMAC sessionKeys) piccData ;;
    Ok {| encPiccData := Utils.bytesToHex encryptedPiccData;
          cmac := Utils.bytesToHex cmac;
          piccData := piccData |}.

(** [s.endsWith('/')] *)
Fixpoint endsWith_slash (s : string) : bool :=
  match s with
  | EmptyString => false
  | String c EmptyString => Ascii.eqb c "/"
  | String _ r => endsWith_slash r
  end.

(** [s.slice(0, -1)] *)
Fixpoint drop_last (s : string) : string :=
  match s with
  | EmptyString => EmptyString
  | String _ EmptyString => EmptyString
  | String c r => String c (drop_last r)
  end.

(** [buildLNURL] *)
Definition buildLNURL (baseUrl cardId : string) (sdmMessage : SDMMessage)
  : string :=
  let base := if endsWith_slash baseUrl then drop_last baseUrl else baseUrl in
  (base ++ "/" ++ cardId ++ "?p=" ++ encPiccData sdmMessage
        ++ "&c=" ++ cmac sdmMessage)%string.

(** The rest of [s] after the prefix [p], when [s] starts with [p]. *)
Fixpoint strip_prefix (p s : string) : option string :=
  match p with
  | EmptyString => Some s
  | String a p' =>
      match s with
      | String b s' => if Ascii.eqb a b then strip_prefix p' s' else None
      | EmptyString => None
      end
  end.

(** [s.replace(/^p/, r)] for a literal prefix [p]. *)
Definition replace_prefix (p r s : string) : string :=
  match strip_prefix p s with
  | Some rest => (r ++ rest)%string
  | None => s
  end.

(** [buildNDEFMessage]; [new Uint8Array([n])] stores [n] modulo 256. *)
Definition buildNDEFMessage (lnurlUrl : string) : Uint8Array :=
  let uri := replace_prefix "lnurlw://" "https://" lnurlUrl in
  let flags := 0xD1 in
  let recordType := [to_uint8 NDEF.RTD_URI] in
  let uriIdentifier := [to_uint8 NDEF.URI_PREFIX_HTTPS] in
  let uriWithoutPrefix :=
    SessionKeys.encode (replace_prefix "https://" "" uri) in
  let fullPayload := Utils.concat [uriIdentifier; uriWithoutPrefix] in
  let ndefRecord :=
    Utils.concat [ [to_uint8 flags];
                   [to_uint8 (Z.of_nat (length recordType))];
                   [to_uint8 (Z.of_nat (length fullPayload))];
                   recordType;
                   fullPayload ] in
  Utils.concat [ [to_uint8 NDEF.TLV_NDEF_MESSAGE];
                 [to_uint8 (Z.of_nat (length ndefRecord))];
                 ndefRecord;
                 [to_uint8 NDEF.TLV_TERMINATOR] ].

(** [generateNDEFWithSDM] *)
Definition generateNDEFWithSDM (uid counter encKey macKey : Uint8Array)
                               (lnurlBase cardId : string)
  : result Uint8Array :=
  sdmMessage <-
    generateSDM {| uid := uid; counter := counter; encKey := encKey;
                   macKey := macKey;
                   cfg_piccData := Utils.concat [uid; counter] |} ;;
  let lnurlUrl := buildLNURL lnurlBase cardId sdmMessage in
  Ok (buildNDEFMessage lnurlUrl).

End SDMService.

(* ===================================================================== *)
(** ** [src/services/StorageService.ts]

    The persistent store holds at most one configuration under
    [STORAGE_KEY].  Each [AsyncStorage] call can fail; [loadConfig] turns a
    failure into [null], [saveConfig] rethrows it. *)

Module StorageService.

Record HexKeys : Type := {
  hK0 : string; hK1 : string; hK2 : string; hUID : string
}.

Record AppConfig : Type := {
  keys : option HexKeys;
  lnurlBase : string;
  cardId : string;
  counter : Z;
  enabled : bool
}.

(** [Partial<AppConfig>] *)
Record PartialConfig : Type := {
  p_keys : option HexKeys;
  p_lnurlBase : option string;
  p_cardId : option string;
  p_counter : option Z;
  p_enabled : option bool
}.

Definition Store := option AppConfig.

(** [DEFAULT_CONFIG] of [config.types.ts]; it has no [keys]. *)
Definition DEFAULT_CONFIG : AppConfig :=
  {| keys := None;
     lnurlBase := "https://lnbits.com/boltcards/api/v1/scan";
     cardId := "";
     counter := 0;
     enabled := false |}.

(** Which of the three storage calls of one [incrementCounter] succeed: the
    [getItem] of its own [loadConfig], the [getItem] of [updateConfig]'s
    [loadConfig], and the [setItem] of [saveConfig]. *)
Record Outcome : Type := {
  load_ok : bool;
  reload_ok : bool;
  save_ok : bool
}.

Definition all_ok : Outcome :=
  {| load_ok := true; reload_ok := true; save_ok := true |}.

(** [loadConfig] *)
Definition loadConfig (ok : bool) (store : Store) : option AppConfig :=
  if ok then store else None.

(** [saveConfig]: the new store, or the rethrown failure. *)
Definition saveConfig (ok : bool) (config : AppConfig) : result Store :=
  if ok then Ok (Some config) else Throw "Failed to save config".

Definition or_else {A : Type} (o : option A) (d : A) : A :=
  match o with Some a => a | None => d end.

(** [{ ...DEFAULT_CONFIG, ...existing, ...partial }] *)
Definition merge (existing : option AppConfig) (partial : PartialConfig)
  : AppConfig :=
  let base := or_else existing DEFAULT_CONFIG in
  {| keys := match p_keys partial with Some k => Some k | None => keys base end;
     lnurlBase := or_else (p_lnurlBase partial) (lnurlBase base);
     cardId := or_else (p_cardId partial) (cardId base);
     counter := or_else (p_counter partial) (counter base);
     enabled := or_else (p_enabled partial) (enabled base) |}.

(** [updateConfig] *)
Definition updateConfig (load_ok save_ok : bool) (partial : PartialConfig)
                        (store : Store) : result (Store * AppConfig) :=
  let existing := loadConfig load_ok store in
  let updated := merge existing partial in
  store' <- saveConfig save_ok updated ;;
  Ok (store', updated).

Definition counter_only (n : Z) : PartialConfig :=
  {| p_keys := None; p_lnurlBase := None; p_cardId := None;
     p_counter := Some n; p_enabled := None |}.

(** [config?.counter || 0] *)
Definition counter_or_zero (config : option AppConfig) : Z :=
  match config with Some c => counter c | None => 0 end.

(** [getCounter] *)
Definition getCounter (ok : bool) (store : Store) : Z :=
  counter_or_zero (loadConfig ok store).

(** [incrementCounter].  The stored counter is a JS number; the model holds
    it as an integer, and its [+ 1] is the one of the code as long as the
    counter is an integer within 2^53, where the sum is exact. *)
Definition incrementCounter (o : Outcome) (store : Store)
  : result (Store * Z) :=
  let config := loadConfig (load_ok o) store in
  let newCounter := counter_or_zero config + 1 in
  r <- updateConfig (reload_ok o) (save_ok o) (counter_only newCounter) store ;;
  Ok (fst r, newCounter).

(** [clearConfig]: [removeItem] succeeds, or its failure is rethrown. *)
Definition clearConfig (ok : bool) : result Store :=
  if ok then Ok None else Throw "Failed to clear config".

(** [setCounter] *)
Definition setCounter (load_ok save_ok : bool) (value : Z) (store : Store)
  : result Store :=
  r <- updateConfig load_ok save_ok (counter_only value) store ;;
  Ok (fst r).

End StorageService.

(* ===================================================================== *)
(** ** [src/types/apdu.types.ts], [src/apdu/APDUParser.ts],
       [src/apdu/APDUBuilder.ts], [src/apdu/commands.ts] *)

Module Apdu.

Record APDUCommand : Type := {
  CLA : Z;
  INS : Z;
  P1 : Z;
  P2 : Z;
  Lc : option Z;
  data : option Uint8Array;
  Le : option Z
}.

Record APDUResponse : Type := {
  rdata : option Uint8Array;
  SW1 : Z;
  SW2 : Z
}.

Definition byte_at (bytes : Uint8Array) (i : nat) : Z := nth i bytes 0.

(** A number in a template literal: its decimal digits. *)
Definition decimal (n : Z) : string := NilZero.string_of_int (Z.to_int n).

(** [parseAPDU] *)
Definition parseAPDU (bytes : Uint8Array) : result APDUCommand :=
  if (length bytes <? 4)%nat
  then Throw ("Invalid APDU: too short ("
              ++ decimal (Z.of_nat (length bytes)) ++ " bytes)")
  else
    let command (lc : option Z) (d : option Uint8Array) (le : option Z) :=
      {| CLA := byte_at bytes 0; INS := byte_at bytes 1;
         P1 := byte_at bytes 2; P2 := byte_at bytes 3;
         Lc := lc; data := d; Le := le |} in
    if Nat.eqb (length bytes) 4 then Ok (command None None None)
    else if Nat.eqb (length bytes) 5
    then Ok (command None None (Some (byte_at bytes 4)))
    else
      let Lc := byte_at bytes 4 in
      if (length bytes <? 5 + Z.to_nat Lc)%nat
      then Throw ("Invalid APDU: Lc=" ++ decimal Lc ++ " but only "
                  ++ decimal (Z.of_nat (length bytes) - 5) ++ " data bytes")
      else
        let d := if 0 <? Lc then Some (slice bytes 5 (5 + Z.to_nat Lc))
                 else None in
        let le := if (5 + Z.to_nat Lc <? length bytes)%nat
                  then Some (byte_at bytes (5 + Z.to_nat Lc)) else None in
        Ok (command (Some Lc) d le).

(** [buildSuccessResponse] *)
Definition buildSuccessResponse (data : option Uint8Array) : APDUResponse :=
  {| rdata := data;
     SW1 := Z.land (Z.shiftr SW.SUCCESS 8) 255;
     SW2 := Z.land SW.SUCCESS 255 |}.

(** [buildErrorResponse] *)
Definition buildErrorResponse (statusWord : Z) : APDUResponse :=
  {| rdata := None;
     SW1 := Z.land (Z.shiftr statusWord 8) 255;
     SW2 := Z.land statusWord 255 |}.

(** [serializeResponse] *)
Definition serializeResponse (response : APDUResponse) : Uint8Array :=
  let swBytes := [to_uint8 (SW1 response); to_uint8 (SW2 response)] in
  match rdata response with
  | Some d => if (0 <? length d)%nat then d ++ swBytes else swBytes
  | None => swBytes
  end.

(** [isSelectCommand] *)
Definition isSelectCommand (command : APDUCommand) : bool :=
  INS command =? INS.SELECT.

(** [isSelectByAID] *)
Definition isSelectByAID (command : APDUCommand) : bool :=
  isSelectCommand command && (P1 command =? P1_SELECT.BY_DF_NAME).

(** [isSelectByFileID] *)
Definition isSelectByFileID (command : APDUCommand) : bool :=
  isSelectCommand command && (P1 command =? P1_SELECT.BY_FILE_ID).

(** [isReadBinaryCommand] *)
Definition isReadBinaryCommand (command : APDUCommand) : bool :=
  INS command =? INS.READ_BINARY.

(** [getReadOffset] *)
Definition getReadOffset (command : APDUCommand) : result Z :=
  if negb (isReadBinaryCommand command)
  then Throw "Not a READ BINARY command"
  else Ok (Z.lor (Z.shiftl (P1 command) 8) (P2 command)).

(** [getReadLength] *)
Definition getReadLength (command : APDUCommand) : result Z :=
  if negb (isReadBinaryCommand command)
  then Throw "Not a READ BINARY command"
  else Ok (match Le command with
           | Some le => if le =? 0 then 256 else le
           | None => 0
           end).

(** [getSelectAID] *)
Definition getSelectAID (command : APDUCommand) : option Uint8Array :=
  if negb (isSelectByAID command) then None else data command.

(** [getSelectFileID] *)
Definition getSelectFileID (command : APDUCommand) : option Z :=
  if negb (isSelectByFileID command) then None
  else
    match data command with
    | None => None
    | Some d =>
        if Nat.eqb (length d) 0 then None
        else if Nat.eqb (length d) 1 then Some (nth 0 d 0)
        else Some (Z.lor (Z.shiftl (nth 0 d 0) 8) (nth 1 d 0))
    end.

(** [bytesEqual] *)
Definition bytesEqual (a b : Uint8Array) : bool :=
  if negb (Nat.eqb (length a) (length b)) then false
  else forallb (fun p => fst p =? snd p) (combine a b).

(** [serializeAPDU]; [new Uint8Array(parts)] stores every part modulo
    256. *)
Definition serializeAPDU (command : APDUCommand) : Uint8Array :=
  let header := [CLA command; INS command; P1 command; P2 command] in
  let body :=
    match data command with
    | Some d => if (0 <? length d)%nat then Z.of_nat (length d) :: d else []
    | None => []
    end in
  let trailer := match Le command with Some le => [le] | None => [] end in
  map to_uint8 (header ++ body ++ trailer).

(** [buildResponse] *)
Definition buildResponse (data : option Uint8Array) (statusWord : Z)
  : APDUResponse :=
  {| rdata := data;
     SW1 := Z.land (Z.shiftr statusWord 8) 255;
     SW2 := Z.land statusWord 255 |}.

(** [parseResponse] *)
Definition parseResponse (bytes : Uint8Array) : result APDUResponse :=
  if (length bytes <? 2)%nat then Throw "Invalid APDU response: too short"
  else
    Ok {| rdata := if (2 <? length bytes)%nat
                   then Some (slice bytes 0 (length bytes - 2)) else None;
          SW1 := byte_at bytes (length bytes - 2);
          SW2 := byte_at bytes (length bytes - 1) |}.

(** [getStatusWord] *)
Definition getStatusWord (response : APDUResponse) : Z :=
  Z.lor (Z.shiftl (SW1 response) 8) (SW2 response).

(** [statusWordToBytes] of [constants/apdu.ts] *)
Definition statusWordToBytes (sw : Z) : Uint8Array :=
  [to_uint8 (Z.land (Z.shiftr sw 8) 255); to_uint8 (Z.land sw 255)].

(** [bytesToStatusWord] of [constants/apdu.ts] *)
Definition bytesToStatusWord (sw1 sw2 : Z) : Z :=
  Z.lor (Z.shiftl sw1 8) sw2.

End Apdu.

(* ===================================================================== *)
(** ** [src/apdu/handlers/SelectHandler.ts],
       [src/apdu/handlers/ReadHandler.ts]

    The handlers receive callbacks that close over the service object; here
    a callback is a function on the caller's state [S], which the handler
    threads through. *)

Module Handlers.
Import Apdu.

(** [handleSelectByAID] *)
Definition handleSelectByAID (aid : Uint8Array) : APDUResponse :=
  if bytesEqual aid NTAG424_AID then buildSuccessResponse None
  else buildErrorResponse SW.FILE_NOT_FOUND.

(** [handleSelectByFileID] *)
Definition handleSelectByFileID (fileId : Z) : APDUResponse :=
  let validFileIds := [FILE_ID.CC; FILE_ID.NDEF; FILE_ID.PROPRIETARY] in
  if negb (existsb (Z.eqb fileId) validFileIds)
  then buildErrorResponse SW.FILE_NOT_FOUND
  else buildSuccessResponse None.

(** The capability container of [handleReadCC]. *)
Definition cc : Uint8Array := [0xE1; 0x40; 0x00; 0x40; 0x00; 0x00].

(** The common tail of [handleReadCC] and [handleReadNDEF]: the requested
    portion of a file. *)
Definition read_portion (file : Uint8Array) (offset len : Z) : APDUResponse :=
  let endOffset := Z.min (offset + len) (Z.of_nat (length file)) in
  if Z.of_nat (length file) <=? offset
  then buildSuccessResponse (Some [])
  else buildSuccessResponse
         (Some (slice file (Z.to_nat offset) (Z.to_nat endOffset))).

(** [handleReadCC] *)
Definition handleReadCC (offset len : Z) : APDUResponse :=
  read_portion cc offset len.

Section WithState.
Context {S : Type}.

(** [handleSelect] *)
Definition handleSelect (command : APDUCommand)
                        (onFileSelected : option (Z -> S -> S)) (st : S)
  : S * APDUResponse :=
  match getSelectAID command with
  | Some aid => (st, handleSelectByAID aid)
  | None =>
      match getSelectFileID command with
      | Some fileId =>
          let response := handleSelectByFileID fileId in
          let st' :=
            match onFileSelected with
            | Some notify =>
                if (SW1 response =? 0x90) && (SW2 response =? 0x00)
                then notify fileId st else st
            | None => st
            end in
          (st', response)
      | None => (st, buildErrorResponse SW.WRONG_PARAMETERS)
      end
  end.

(** [handleReadNDEF] *)
Definition handleReadNDEF (offset len : Z)
                          (getNDEFData : S -> result Uint8Array) (st : S)
  : result APDUResponse :=
  ndefData <- getNDEFData st ;;
  Ok (read_portion ndefData offset len).

(** [handleReadBinary] *)
Definition handleReadBinary (command : APDUCommand)
                            (selectedFileId : option Z)
                            (getNDEFData : S -> result Uint8Array)
                            (onCounterIncrement : option (S -> S)) (st : S)
  : S * result APDUResponse :=
  match selectedFileId with
  | None => (st, Ok (buildErrorResponse SW.SECURITY_STATUS_NOT_SATISFIED))
  | Some fileId =>
      match getReadOffset command with
      | Throw m => (st, Throw m)
      | Ok offset =>
          match getReadLength command with
          | Throw m => (st, Throw m)
          | Ok len =>
              if fileId =? FILE_ID.CC
              then (st, Ok (handleReadCC offset len))
              else if fileId =? FILE_ID.NDEF
              then
                let st' :=
                  match onCounterIncrement with
                  | Some increment => if offset =? 0 then increment st else st
                  | None => st
                  end in
                (st', handleReadNDEF offset len getNDEFData st')
              else (st, Ok (buildErrorResponse SW.FILE_NOT_FOUND))
          end
      end
  end.

End WithState.

End Handlers.

(* ===================================================================== *)
(** ** [src/services/NTAG424Service.ts]

    [World] is what a call of the service can read or change: the fields of
    the service object, the persistent store, and the number of
    [incrementStorageCounter()] promises that were started and not awaited.
    Such a promise suspends at its first [await]: its first [getItem] is
    issued, and nothing is written, when [processAPDU], which is
    synchronous, returns; [run_pending] is the event loop completing one of
    them.  A task is completed as a whole, reading the store as it is then:
    this is the code when a started task is completed before the next one
    is started, as in the runs of the statements below.  Two tasks started
    before either is completed both get the stored counter of before in
    the code, so that one increment is lost; such runs are outside this
    model.  Logging through the optional [onLog] callback has no effect on
    the state and is left out; the [files] map of the state is neither read
    nor written. *)

Module NTAG424Service.
Import Apdu.

Record NTAG424Keys : Type := {
  K0 : Uint8Array;
  K1 : Uint8Array;
  K2 : Uint8Array;
  UID : Uint8Array
}.

Record NTAG424State : Type := {
  selectedFileId : option Z;
  authenticated : bool;
  counter : Uint8Array
}.

Record World : Type := {
  state : NTAG424State;
  keys : NTAG424Keys;
  lnurlBase : string;
  cardId : string;
  pending : nat;
  store : StorageService.Store
}.

(** The constructor, for a process with the given store and no promise in
    flight. *)
Definition new (keys : NTAG424Keys) (lnurlBase cardId : string)
               (counterValue : Z) (store : StorageService.Store) : World :=
  {| state := {| selectedFileId := None;
                 authenticated := false;
                 counter := Utils.numberToBytes counterValue 3 |};
     keys := keys; lnurlBase := lnurlBase; cardId := cardId;
     pending := 0; store := store |}.

Definition set_state (w : World) (s : NTAG424State) : World :=
  {| state := s; keys := keys w; lnurlBase := lnurlBase w;
     cardId := cardId w; pending := pending w; store := store w |}.

(** The callback of [handleSelectCommand]:
    [this.state.selectedFileId = fileId]. *)
Definition select_file (fileId : Z) (w : World) : World :=
  set_state w {| selectedFileId := Some fileId;
                 authenticated := authenticated (state w);
                 counter := counter (state w) |}.

(** [handleSelectCommand] *)
Definition handleSelectCommand (command : APDUCommand) (w : World)
  : World * APDUResponse :=
  Handlers.handleSelect command (Some select_file) w.

(** [generateNDEFData] *)
Definition generateNDEFData (w : World) : result Uint8Array :=
  SDMService.generateNDEFWithSDM
    (UID (keys w)) (counter (state w)) (K1 (keys w)) (K2 (keys w))
    (lnurlBase w) (cardId w).

(** [handleCounterIncrement]: the counter in memory is incremented and
    [incrementStorageCounter()] is started, not awaited. *)
Definition handleCounterIncrement (w : World) : World :=
  let s := {| selectedFileId := selectedFileId (state w);
              authenticated := authenticated (state w);
              counter := Utils.incrementCounter (counter (state w)) |} in
  {| state := s; keys := keys w; lnurlBase := lnurlBase w;
     cardId := cardId w; pending := S (pending w); store := store w |}.

(** [handleReadCommand] *)
Definition handleReadCommand (command : APDUCommand) (w : World)
  : World * result APDUResponse :=
  Handlers.handleReadBinary command (selectedFileId (state w))
    generateNDEFData (Some handleCounterIncrement) w.

(** [processAPDU] *)
Definition processAPDU (w : World) (commandBytes : Uint8Array)
  : World * Uint8Array :=
  let failed := serializeResponse (buildErrorResponse SW.UNKNOWN_ERROR) in
  match parseAPDU commandBytes with
  | Throw _ => (w, failed)
  | Ok command =>
      let '(w', r) :=
        if isSelectCommand command
        then let '(w', response) := handleSelectCommand command w in
             (w', Ok response)
        else if isReadBinaryCommand command
        then handleReadCommand command w
        else (w, Ok (buildErrorResponse SW.INSTRUCTION_NOT_SUPPORTED)) in
      match r with
      | Ok response => (w', serializeResponse response)
      | Throw _ => (w', failed)
      end
  end.

(** [updateCounter] *)
Definition updateCounter (counterValue : Z) (w : World) : World :=
  set_state w {| selectedFileId := selectedFileId (state w);
                 authenticated := authenticated (state w);
                 counter := Utils.numberToBytes counterValue 3 |}.

(** The event loop completes one started [incrementStorageCounter()]: on
    success the store is replaced; on failure the [.catch] handler only
    logs.  Started promises are completed one after the other, each before
    the next one is started. *)
Definition run_pending (o : StorageService.Outcome) (w : World) : World :=
  match pending w with
  | O => w
  | S n =>
      let store' :=
        match StorageService.incrementCounter o (store w) with
        | Ok r => fst r
        | Throw _ => store w
        end in
      {| state := state w; keys := keys w; lnurlBase := lnurlBase w;
         cardId := cardId w; pending := n; store := store' |}
  end.

(** [updateKeys] *)
Definition updateKeys (k : NTAG424Keys) (w : World) : World :=
  {| state := state w; keys := k; lnurlBase := lnurlBase w;
     cardId := cardId w; pending := pending w; store := store w |}.

(** [updateLNURL] *)
Definition updateLNURL (base cid : string) (w : World) : World :=
  {| state := state w; keys := keys w; lnurlBase := base;
     cardId := cid; pending := pending w; store := store w |}.

End NTAG424Service.

(* ===================================================================== *)
(** ** [src/services/CryptoService.ts]

    [generateKeys] and [generateCardId] draw random bytes and are not
    modelled. *)

Module CryptoService.
Import NTAG424Service.

Record HexKeys : Type := {
  hK0 : string; hK1 : string; hK2 : string; hUID : string
}.

(** [exportKeysToHex] *)
Definition exportKeysToHex (k : NTAG424Keys) : HexKeys :=
  {| hK0 := Utils.bytesToHex (K0 k); hK1 := Utils.bytesToHex (K1 k);
     hK2 := Utils.bytesToHex (K2 k); hUID := Utils.bytesToHex (UID k) |}.

(** [importKeysFromHex]; the fields are evaluated in the order K0, K1,
    K2, UID. *)
Definition importKeysFromHex (hexKeys : HexKeys) : result NTAG424Keys :=
  k0 <- Utils.hexToBytes (hK0 hexKeys) ;;
  k1 <- Utils.hexToBytes (hK1 hexKeys) ;;
  k2 <- Utils.hexToBytes (hK2 hexKeys) ;;
  uid <- Utils.hexToBytes (hUID hexKeys) ;;
  Ok {| K0 := k0; K1 := k1; K2 := k2; UID := uid |}.

(** [validateKeys] *)
Definition validateKeys (k : NTAG424Keys) : bool :=
  Nat.eqb (length (K0 k)) 16 && Nat.eqb (length (K1 k)) 16
  && Nat.eqb (length (K2 k)) 16 && Nat.eqb (length (UID k)) 7.

End CryptoService.

(* ===================================================================== *)
(** * Definitions for the statements *)

(** ** Byte arrays as numbers *)

(** The 256 bytes. *)
Definition all_bytes : list Z := Eval vm_compute in map Z.of_nat (seq 0 256).

(** [is_bytes], decided. *)
Definition is_bytesb (l : list Z) : bool :=
  forallb (fun b => (0 <=? b) && (b <? 256)) l.

Module Bytes.

Definition xor_block (a b : list Z) : list Z :=
  map (fun p => Z.lxor (fst p) (snd p)) (combine a b).

(** The value of a byte array read as a big-endian number. *)
Fixpoint be_value (b : list Z) : Z :=
  match b with
  | [] => 0
  | x :: r => x * 256 ^ Z.of_nat (length r) + be_value r
  end.

End Bytes.

(** ** Facts about one byte, decided on all 256 bytes *)

Module Checks.
Import Utils.

Definition upper_pair_ok (b : Z) : bool :=
  let h := upper_char (hex_digit (b / 16)) in
  let l := upper_char (hex_digit (b mod 16)) in
  is_hex_char h && is_hex_char l && (16 * hex_value h + hex_value l =? b).

Definition lower_pair_ok (b : Z) : bool :=
  let h := hex_digit (Z.shiftr b 4) in
  let l := hex_digit (Z.land b 15) in
  is_hex_char h && is_hex_char l && (16 * hex_value h + hex_value l =? b).

Definition shift_byte_ok (d : Z) : bool :=
  forallb (fun c =>
             (Z.land (Z.lor (Z.shiftl d 1) c) 255 =? (2 * d + c) mod 256)
             && (Z.shiftr (Z.land d 128) 7 =? (2 * d + c) / 256))
          [0; 1].

Definition msb_byte_ok (b : Z) : bool :=
  Bool.eqb (Z.odd (b / 128)) (negb (Z.land b 128 =? 0)).

End Checks.

(** ** What the wrappers of [aes.ts] compute on byte arrays *)

Module AesModel.
Import CryptoJS.

(** The block cipher as the wrappers see it: the output of [crypto-js],
    read back byte by byte. *)
Definition aes_block (key block : list Z) : list Z :=
  map (fun b => Z.land b 255) (encryptBlock key block).

(** The key stream of [n] counter blocks. *)
Definition keystream (key iv : list Z) (n : nat) : list Z :=
  flat_map (fun i => encryptBlock key (ctr_block iv i)) (seq 0 n).

(** The bytes that [aesEncryptCTR] returns. *)
Definition ctr_output (data ks : list Z) : list Z :=
  map (fun b => Z.land b 255)
      (map (fun p => Z.lxor (fst p) (snd p)) (combine data ks)).

End AesModel.

(** ** CMAC as NIST SP 800-38B words it

    The subkeys are stated on 128-bit numbers, the tag on the message cut
    into blocks.  [E] is the block cipher under the key. *)

Module NIST.
Import Bytes.

Definition R_b : Z := 0x87.

Definition MSB (x : Z) : bool := Z.testbit x 127.

(** [x << 1] on 128 bits. *)
Definition shl1 (x : Z) : Z := Z.shiftl x 1 mod 2 ^ 128.

(** [K1] from [L], and [K2] from [K1]. *)
Definition next_subkey (x : Z) : Z :=
  if MSB x then Z.lxor (shl1 x) R_b else shl1 x.

(** The message cut into 16-byte blocks; the last one may be shorter. *)
Fixpoint partition (fuel : nat) (M : list Z) : list (list Z) :=
  match fuel with
  | O => []
  | S fuel' =>
      match M with
      | [] => []
      | _ => firstn 16 M :: partition fuel' (skipn 16 M)
      end
  end.

(** Padding with [0x80] and then zero bytes up to 16 bytes. *)
Definition pad (block : list Z) : list Z :=
  block ++ [0x80] ++ repeat 0 (15 - length block).

Section Tag.
Variable E : list Z -> list Z.

(** CBC chaining from [prev] over the blocks before the last, then over
    [M_last]. *)
Fixpoint cbc (prev : list Z) (blocks : list (list Z)) (M_last : list Z)
  : list Z :=
  match blocks with
  | [] => E (xor_block prev M_last)
  | block :: rest => cbc (E (xor_block prev block)) rest M_last
  end.

Definition tag (K1 K2 M : list Z) : list Z :=
  match rev (partition (length M) M) with
  | [] => cbc (repeat 0 16) [] (xor_block (pad []) K2)
  | M_n :: front =>
      let M_last :=
        if Nat.eqb (length M_n) 16 then xor_block M_n K1
        else xor_block (pad M_n) K2 in
      cbc (repeat 0 16) (rev front) M_last
  end.

End Tag.

End NIST.

(** ** The CTR mode of the specification

    Written after the specification's [AES-CTR-Decrypt(K, IV, C)], the
    counter mode of NIST SP 800-38A, section 6.5, over a forward cipher
    [CIPH]: counter blocks [T_1 = IV], [T_(j+1) = inc T_j], output blocks
    [O_j = CIPH(T_j)], and [P_j = C_j xor O_j] with the last block cut to
    the length of the data. *)

Module SP800_38A.
Import Bytes.

(** One added to a number given least significant byte first. *)
Fixpoint inc_rev (b : list Z) : list Z :=
  match b with
  | [] => []
  | x :: r => if x =? 255 then 0 :: inc_rev r else (x + 1) :: r
  end.

(** The standard incrementing function on a block read as a big-endian
    number. *)
Definition inc (T : list Z) : list Z := rev (inc_rev (rev T)).

Section Mode.
Variable CIPH : list Z -> list Z.

Fixpoint output_blocks (T : list Z) (n : nat) : list Z :=
  match n with
  | O => []
  | S k => CIPH T ++ output_blocks (inc T) k
  end.

Definition key_stream (IV : list Z) (len : nat) : list Z :=
  firstn len (output_blocks IV ((len + 15) / 16)).

Definition encrypt (IV P : list Z) : list Z :=
  xor_block P (key_stream IV (length P)).

Definition decrypt (IV C : list Z) : list Z :=
  xor_block C (key_stream IV (length C)).

End Mode.

End SP800_38A.

(** ** What [cmac.ts] computes on byte arrays *)

Module CmacModel.
Import Bytes AesModel.

(** One subkey step of [generateCMACSubkeys], on bytes. *)
Definition subkey_step (L : list Z) : list Z :=
  if negb (Z.land (nth 0 L 0) 128 =? 0)
  then xor_block (Utils.leftShift L) Aes.Rb
  else Utils.leftShift L.

(** Number of blocks of a non-empty message of [n] bytes. *)
Definition nblocks (n : nat) : nat := ((n + 16 - 1) / 16)%nat.

(** The CBC chain of [cbc_loop] over the blocks with indices [idxs]. *)
Definition chain (key M : list Z) (idxs : list nat) (mac : list Z)
  : list Z :=
  fold_left
    (fun m i => aes_block key (xor_block m (slice M (i * 16) ((i + 1) * 16))))
    idxs mac.

End CmacModel.

(** ** The input of the key derivation *)

Module Kdf.

(** The derivation input [[i]_2 || Label || 0x00 || SV || [L]_2]. *)
Definition kdf_input (label sv : list Z) : list Z :=
  [0x00; 0x01] ++ label ++ [0x00] ++ sv ++ [0x00; 0x80].

Definition label_SDMENCFileData : list Z :=
  [83; 68; 77; 69; 78; 67; 70; 105; 108; 101; 68; 97; 116; 97].

Definition label_SDMFileReadMAC : list Z :=
  [83; 68; 77; 70; 105; 108; 101; 82; 101; 97; 100; 77; 65; 67].

Definition sv_or_zero (sv : option Uint8Array) : Uint8Array :=
  match sv with Some v => v | None => repeat 0 16 end.

End Kdf.

(** ** Cards, commands and sessions *)

Module Session.
Import Apdu NTAG424Service.

Definition valid_keys (k : NTAG424Keys) : Prop :=
  length (UID k) = 7%nat /\ is_bytes (UID k) /\
  length (K1 k) = 16%nat /\ is_bytes (K1 k) /\
  length (K2 k) = 16%nat /\ is_bytes (K2 k).

Definition valid_counter (c : Uint8Array) : Prop :=
  length c = 3%nat /\ is_bytes c.

Definition valid_world (w : World) : Prop :=
  valid_keys (keys w) /\ valid_counter (counter (state w)).

Definition ndef_selected (w : World) : Prop :=
  selectedFileId (state w) = Some FILE_ID.NDEF.

(** The offset and the length that a READ BINARY command asks for. *)
Definition reads_at (bytes : Uint8Array) : option (Z * Z) :=
  match parseAPDU bytes with
  | Ok command =>
      if isReadBinaryCommand command
      then match getReadOffset command, getReadLength command with
           | Ok offset, Ok len => Some (offset, len)
           | _, _ => None
           end
      else None
  | Throw _ => None
  end.

(** The NDEF file of the card of [w] for a given counter. *)
Definition ndef_of (w : World) (counter : Uint8Array) : result Uint8Array :=
  SDMService.generateNDEFWithSDM (UID (keys w)) counter
    (K1 (keys w)) (K2 (keys w)) (lnurlBase w) (cardId w).


(** The URI rest that [buildNDEFMessage] puts after the identifier code. *)
Definition uri_rest (lnurlUrl : string) : Uint8Array :=
  SessionKeys.encode
    (SDMService.replace_prefix "https://" ""
       (SDMService.replace_prefix "lnurlw://" "https://" lnurlUrl)).

End Session.

(** ** The NDEF message around the SDM parameters *)

Module SdmUri.


(** The URL before its query: the base without one trailing slash, a
    slash, the card identifier. *)
Definition path (lnurlBase cardId : string) : string :=
  ((if SDMService.endsWith_slash lnurlBase
    then SDMService.drop_last lnurlBase else lnurlBase)
   ++ "/" ++ cardId)%string.


End SdmUri.

(** ** The card of the end-to-end scenarios *)

(** A byte array written in hexadecimal. *)
Definition hx (s : string) : list Z := Utils.parse_hex_pairs s.

(** The card of the end-to-end scenarios: K1 = K2 = 0^16, UID
    [04AABBCCDDEEFF], after SELECT of the application and of the NDEF file,
    with the counter [n] in memory and in the store. *)
Definition scenario_keys : NTAG424Service.NTAG424Keys :=
  {| NTAG424Service.K0 := zeros 16; NTAG424Service.K1 := zeros 16;
     NTAG424Service.K2 := zeros 16;
     NTAG424Service.UID := hx "04AABBCCDDEEFF" |}.

Definition scenario_config (n : Z) : StorageService.AppConfig :=
  {| StorageService.keys := None;
     StorageService.lnurlBase := "https://card.example/scan";
     StorageService.cardId := "abc";
     StorageService.counter := n;
     StorageService.enabled := true |}.

Definition scenario_world (n : Z) : NTAG424Service.World :=
  let w0 := NTAG424Service.new scenario_keys "https://card.example/scan"
              "abc" n (Some (scenario_config n)) in
  let w1 := fst (NTAG424Service.processAPDU w0
                   (hx "00A4040007D2760000850101")) in
  fst (NTAG424Service.processAPDU w1 (hx "00A40000020002")).

Definition READ_BINARY_0_FF : Uint8Array := hx "00B00000FF".

(** An outcome of the storage calls in which [setItem] fails. *)
Definition save_fails : StorageService.Outcome :=
  {| StorageService.load_ok := true; StorageService.reload_ok := true;
     StorageService.save_ok := false |}.

(** A card identifier of 300 characters. *)
Definition long_cardId : string := string_of_list_ascii (repeat "a"%char 300).

(** A card identifier of 190 characters. *)
Definition cardId_190 : string := string_of_list_ascii (repeat "a"%char 190).

(** ** Further notions for the statements *)

Module Extra.

(** The value of a byte array read as a little-endian number. *)
Fixpoint le_value (b : list Z) : Z :=
  match b with
  | [] => 0
  | x :: r => x + 256 * le_value r
  end.

(** Number of hexadecimal digits of a string, the other characters not
    counted. *)
Definition hex_digits (s : string) : nat :=
  String.length (Utils.strip_non_hex s).

(** [n] calls of [incrementCounter], each awaited before the next, with
    every storage call succeeding. *)
Fixpoint increments (n : nat) (store : StorageService.Store)
  : result StorageService.Store :=
  match n with
  | O => Ok store
  | S k =>
      r <- StorageService.incrementCounter StorageService.all_ok store ;;
      increments k (fst r)
  end.

(** A command as a sender builds it: header bytes, at most 255 data bytes
    with [Lc] their number, [Le] a byte; no data means no [Lc]. *)
Definition well_formed (c : Apdu.APDUCommand) : Prop :=
  is_byte (Apdu.CLA c) /\ is_byte (Apdu.INS c) /\
  is_byte (Apdu.P1 c) /\ is_byte (Apdu.P2 c) /\
  match Apdu.data c with
  | Some d => (0 < length d <= 255)%nat /\ is_bytes d /\
              Apdu.Lc c = Some (Z.of_nat (length d))
  | None => Apdu.Lc c = None
  end /\
  match Apdu.Le c with Some le => is_byte le | None => True end.

(** A response without its empty data field, as [parseResponse] reads
    it back. *)
Definition without_empty_data (r : Apdu.APDUResponse) : Apdu.APDUResponse :=
  {| Apdu.rdata := match Apdu.rdata r with
                   | Some [] => None
                   | d => d
                   end;
     Apdu.SW1 := Apdu.SW1 r; Apdu.SW2 := Apdu.SW2 r |}.

(** The status words that the service answers with. *)
Definition service_status_words : list Uint8Array :=
  [ [0x90; 0x00]; [0x69; 0x82]; [0x6A; 0x82]; [0x6A; 0x86];
    [0x6D; 0x00]; [0x6F; 0x00] ].

(** A response that ends with one of these status words. *)
Definition ends_with_status (response : Uint8Array) : Prop :=
  exists data sw, response = data ++ sw /\ In sw service_status_words.

(** 16-byte keys of which K1 is one byte short. *)
Definition short_K1_keys : NTAG424Service.NTAG424Keys :=
  {| NTAG424Service.K0 := zeros 16; NTAG424Service.K1 := zeros 15;
     NTAG424Service.K2 := zeros 16;
     NTAG424Service.UID := [0x04; 0xAA; 0xBB; 0xCC; 0xDD; 0xEE; 0xFF] |}.

End Extra.

(* ===================================================================== *)
(** * Properties *)

(** ** Bytes *)

Lemma is_byte_in_all_bytes (b : Z) : is_byte b -> In b all_bytes.
Proof.
  intros [H0 H1]. rewrite <- (Z2Nat.id b) by lia.
  change all_bytes with (map Z.of_nat (seq 0 256)).
  apply in_map, in_seq. lia.
Qed.

(** A decidable property of a byte is checked by running it on all 256. *)
Lemma byte_forall (P : Z -> bool) :
  forallb P all_bytes = true -> forall b, is_byte b -> P b = true.
Proof.
  intros H b Hb. rewrite forallb_forall in H.
  apply H, is_byte_in_all_bytes, Hb.
Qed.

Lemma is_bytesb_sound (l : list Z) : is_bytesb l = true -> is_bytes l.
Proof.
  unfold is_bytesb, is_bytes. rewrite forallb_forall, Forall_forall.
  intros H b Hb. specialize (H b Hb). unfold is_byte. lia.
Qed.

Lemma is_bytes_app (a b : list Z) : is_bytes a -> is_bytes b -> is_bytes (a ++ b).
Proof. intros Ha Hb. apply Forall_app. split; assumption. Qed.

Lemma is_bytes_zeros (n : nat) : is_bytes (zeros n).
Proof.
  unfold zeros. induction n; simpl; constructor; auto. unfold is_byte. lia.
Qed.

Lemma length_zeros (n : nat) : length (zeros n) = n.
Proof. apply repeat_length. Qed.

Lemma is_bytes_firstn (n : nat) (l : list Z) : is_bytes l -> is_bytes (firstn n l).
Proof.
  intro H. unfold is_bytes in *. rewrite <- (firstn_skipn n l) in H.
  apply Forall_app in H. apply H.
Qed.

Lemma is_bytes_skipn (n : nat) (l : list Z) : is_bytes l -> is_bytes (skipn n l).
Proof.
  intro H. unfold is_bytes in *. rewrite <- (firstn_skipn n l) in H.
  apply Forall_app in H. apply H.
Qed.

Lemma is_bytes_slice (l : list Z) (i j : nat) : is_bytes l -> is_bytes (slice l i j).
Proof. intro H. unfold slice. apply is_bytes_firstn, is_bytes_skipn, H. Qed.

Lemma land_255_is_byte (b : Z) : is_byte (Z.land b 255).
Proof.
  unfold is_byte. change 255 with (Z.ones 8). rewrite Z.land_ones by lia.
  apply Z.mod_pos_bound. reflexivity.
Qed.

Lemma land_255_byte (b : Z) : is_byte b -> Z.land b 255 = b.
Proof.
  intros [H0 H1]. change 255 with (Z.ones 8). rewrite Z.land_ones by lia.
  apply Z.mod_small. change (2 ^ 8) with 256. lia.
Qed.

Lemma is_bytes_map_land (l : list Z) : is_bytes (map (fun b => Z.land b 255) l).
Proof.
  unfold is_bytes. apply Forall_forall. intros x Hx.
  apply in_map_iff in Hx. destruct Hx as [y [<- _]]. apply land_255_is_byte.
Qed.

Lemma map_land_bytes (l : list Z) :
  is_bytes l -> map (fun b => Z.land b 255) l = l.
Proof.
  induction 1 as [|b l Hb _ IH]; simpl; [reflexivity|].
  rewrite land_255_byte by assumption. rewrite IH. reflexivity.
Qed.

(** ** Hexadecimal round trips *)

Module HexFacts.
Import Utils Checks.

Lemma concat_empty_cons (x : string) (xs : list string) :
  String.concat "" (x :: xs) = (x ++ String.concat "" xs)%string.
Proof.
  destruct xs as [|y ys]; simpl.
  - induction x as [|c x IH]; simpl; [reflexivity | now rewrite <- IH].
  - reflexivity.
Qed.

Lemma toUpperCase_app (a b : string) :
  toUpperCase (a ++ b) = (toUpperCase a ++ toUpperCase b)%string.
Proof. induction a as [|c a IH]; simpl; [reflexivity | now rewrite IH]. Qed.

Lemma bytesToHex_cons (b : Z) (bs : list Z) :
  bytesToHex (b :: bs) =
  String (upper_char (hex_digit (b / 16)))
    (String (upper_char (hex_digit (b mod 16))) (bytesToHex bs)).
Proof.
  unfold bytesToHex. rewrite map_cons, concat_empty_cons, toUpperCase_app.
  reflexivity.
Qed.

Lemma upper_pair (b : Z) : is_byte b -> upper_pair_ok b = true.
Proof. apply byte_forall. vm_compute. reflexivity. Qed.

Lemma lower_pair (b : Z) : is_byte b -> lower_pair_ok b = true.
Proof. apply byte_forall. vm_compute. reflexivity. Qed.

Lemma strip_bytesToHex (bs : list Z) :
  is_bytes bs -> strip_non_hex (bytesToHex bs) = bytesToHex bs.
Proof.
  induction 1 as [|b bs Hb _ IH]; [reflexivity|].
  rewrite bytesToHex_cons. pose proof (upper_pair b Hb) as H.
  unfold upper_pair_ok in H. cbv zeta in H.
  apply andb_prop in H. destruct H as [H _].
  apply andb_prop in H. destruct H as [Hh Hl].
  cbn [strip_non_hex]. rewrite Hh, Hl, IH. reflexivity.
Qed.

Lemma parse_bytesToHex (bs : list Z) :
  is_bytes bs -> parse_hex_pairs (bytesToHex bs) = bs.
Proof.
  induction 1 as [|b bs Hb _ IH]; [reflexivity|].
  rewrite bytesToHex_cons. pose proof (upper_pair b Hb) as H.
  unfold upper_pair_ok in H. cbv zeta in H.
  apply andb_prop in H. destruct H as [_ H]. apply Z.eqb_eq in H.
  cbn [parse_hex_pairs]. rewrite H, IH. reflexivity.
Qed.

Lemma length_bytesToHex (bs : list Z) :
  String.length (bytesToHex bs) = (2 * length bs)%nat.
Proof.
  induction bs as [|b bs IH]; [reflexivity|].
  rewrite bytesToHex_cons. cbn [String.length length]. rewrite IH. lia.
Qed.

Lemma even_length_mod (n : nat) : Nat.eqb (Nat.modulo (2 * n) 2) 0 = true.
Proof.
  apply Nat.eqb_eq. rewrite Nat.mul_comm. apply Nat.Div0.mod_mul.
Qed.

(** [hexToBytes] undoes [bytesToHex] on a byte array. *)
Lemma hexToBytes_bytesToHex (bs : list Z) :
  is_bytes bs -> hexToBytes (bytesToHex bs) = Ok bs.
Proof.
  intro H. unfold hexToBytes. rewrite strip_bytesToHex by assumption.
  rewrite length_bytesToHex, even_length_mod. cbn [negb].
  rewrite parse_bytesToHex by assumption. reflexivity.
Qed.

(** What the wrappers of [aes.ts] hand to [crypto-js] is the byte array. *)
Lemma Hex_parse_bytesToHex (bs : list Z) :
  is_bytes bs -> CryptoJS.Hex_parse (bytesToHex bs) = bs.
Proof. apply parse_bytesToHex. Qed.

Lemma Hex_stringify_cons (b : Z) (bs : list Z) :
  CryptoJS.Hex_stringify (b :: bs) =
  String (hex_digit (Z.shiftr (Z.land b 255) 4))
    (String (hex_digit (Z.land (Z.land b 255) 15)) (CryptoJS.Hex_stringify bs)).
Proof.
  unfold CryptoJS.Hex_stringify. rewrite map_cons, concat_empty_cons.
  reflexivity.
Qed.

Lemma strip_stringify (l : list Z) :
  strip_non_hex (CryptoJS.Hex_stringify l) = CryptoJS.Hex_stringify l.
Proof.
  induction l as [|b l IH]; [reflexivity|].
  rewrite Hex_stringify_cons.
  pose proof (lower_pair _ (land_255_is_byte b)) as H.
  unfold lower_pair_ok in H. cbv zeta in H.
  apply andb_prop in H. destruct H as [H _].
  apply andb_prop in H. destruct H as [Hh Hl].
  cbn [strip_non_hex]. rewrite Hh, Hl, IH. reflexivity.
Qed.

Lemma parse_stringify (l : list Z) :
  parse_hex_pairs (CryptoJS.Hex_stringify l) = map (fun b => Z.land b 255) l.
Proof.
  induction l as [|b l IH]; [reflexivity|].
  rewrite Hex_stringify_cons.
  pose proof (lower_pair _ (land_255_is_byte b)) as H.
  unfold lower_pair_ok in H. cbv zeta in H.
  apply andb_prop in H. destruct H as [_ H]. apply Z.eqb_eq in H.
  cbn [parse_hex_pairs map]. rewrite H, IH. reflexivity.
Qed.

Lemma length_stringify (l : list Z) :
  String.length (CryptoJS.Hex_stringify l) = (2 * length l)%nat.
Proof.
  induction l as [|b l IH]; [reflexivity|].
  rewrite Hex_stringify_cons. cbn [String.length length]. rewrite IH. lia.
Qed.

(** What the wrappers read back from [crypto-js] is its output, byte by
    byte. *)
Lemma hexToBytes_stringify (l : list Z) :
  hexToBytes (CryptoJS.Hex_stringify l) = Ok (map (fun b => Z.land b 255) l).
Proof.
  unfold hexToBytes. rewrite strip_stringify, length_stringify.
  rewrite even_length_mod. cbn [negb]. rewrite parse_stringify. reflexivity.
Qed.

End HexFacts.

(** ** The wrappers of [aes.ts] on byte arrays *)

Module AesFacts.
Import CryptoJS AesModel.

Lemma length_addRoundKey (s k : list Z) : length (addRoundKey s k) = 16%nat.
Proof. unfold addRoundKey. rewrite length_map. reflexivity. Qed.

Lemma length_rounds (rcons k s : list Z) :
  length s = 16%nat -> length (rounds rcons k s) = 16%nat.
Proof.
  revert k s. induction rcons as [|rc rest IH]; intros k s Hs; simpl.
  - exact Hs.
  - apply IH. apply length_addRoundKey.
Qed.

Lemma length_encryptBlock (key block : list Z) :
  length (encryptBlock key block) = 16%nat.
Proof. unfold encryptBlock. apply length_rounds, length_addRoundKey. Qed.

Lemma length_aes_block (key block : list Z) :
  length (aes_block key block) = 16%nat.
Proof. unfold aes_block. rewrite length_map. apply length_encryptBlock. Qed.

Lemma is_bytes_aes_block (key block : list Z) : is_bytes (aes_block key block).
Proof. apply is_bytes_map_land. Qed.

Lemma AES_encrypt_ECB_one_block (key block : list Z) :
  length block = 16%nat -> AES_encrypt_ECB block key = encryptBlock key block.
Proof.
  intro H. unfold AES_encrypt_ECB, nBlocksReady. rewrite H.
  change ((16 + 15) / 16)%nat with 1%nat. cbn [seq flat_map].
  change (16 * 0)%nat with 0%nat. cbn [skipn].
  rewrite app_nil_r. rewrite (firstn_all2 (n := 16) block) by lia.
  apply firstn_all2. rewrite length_encryptBlock. lia.
Qed.

(** [aesEncryptBlock] on a 16-byte key and a 16-byte block. *)
Lemma aesEncryptBlock_ok (key block : list Z) :
  length key = 16%nat -> length block = 16%nat ->
  is_bytes key -> is_bytes block ->
  Aes.aesEncryptBlock key block = Ok (aes_block key block).
Proof.
  intros Hk Hb Bk Bb. unfold Aes.aesEncryptBlock, Aes.aesEncryptECB.
  rewrite Hk, Hb. cbn [Nat.eqb negb Nat.modulo Nat.divmod fst snd Nat.sub].
  rewrite !HexFacts.Hex_parse_bytesToHex by assumption.
  rewrite AES_encrypt_ECB_one_block by assumption.
  apply HexFacts.hexToBytes_stringify.
Qed.

Lemma length_flat_map_blocks (f : nat -> list Z) (l : list nat) :
  (forall i, length (f i) = 16%nat) ->
  length (flat_map f l) = (16 * length l)%nat.
Proof.
  intro Hf. induction l as [|i l IH]; [reflexivity|].
  cbn [flat_map]. rewrite length_app, Hf, IH. cbn [length]. lia.
Qed.

Lemma length_keystream (key iv : list Z) (n : nat) :
  length (keystream key iv n) = (16 * n)%nat.
Proof.
  unfold keystream. rewrite length_flat_map_blocks.
  - rewrite length_seq. reflexivity.
  - intro i. apply length_encryptBlock.
Qed.

Lemma nBlocksReady_covers (n : nat) : (n <= 16 * nBlocksReady n)%nat.
Proof.
  unfold nBlocksReady.
  pose proof (Nat.div_mod_eq (n + 15) 16) as H.
  pose proof (Nat.mod_upper_bound (n + 15) 16) as H'. lia.
Qed.

Lemma length_ctr_output (data ks : list Z) :
  (length data <= length ks)%nat -> length (ctr_output data ks) = length data.
Proof.
  intro H. unfold ctr_output. rewrite !length_map, length_combine. lia.
Qed.

Lemma is_bytes_ctr_output (data ks : list Z) : is_bytes (ctr_output data ks).
Proof. apply is_bytes_map_land. Qed.

Lemma aesEncryptCTR_ok (key iv data : list Z) :
  length key = 16%nat -> length iv = 16%nat ->
  is_bytes key -> is_bytes iv -> is_bytes data ->
  Aes.aesEncryptCTR key iv data =
  Ok (ctr_output data (keystream key iv (nBlocksReady (length data)))).
Proof.
  intros Hk Hi Bk Bi Bd. unfold Aes.aesEncryptCTR.
  rewrite Hk, Hi. cbn [Nat.eqb negb].
  rewrite !HexFacts.Hex_parse_bytesToHex by assumption.
  rewrite HexFacts.hexToBytes_stringify. cbn [bind].
  unfold AES_encrypt_CTR. fold (keystream key iv (nBlocksReady (length data))).
  fold (ctr_output data (keystream key iv (nBlocksReady (length data)))).
  unfold slice. rewrite Nat.sub_0_r. cbn [skipn].
  rewrite firstn_all2; [reflexivity|].
  rewrite length_ctr_output; [lia|].
  rewrite length_keystream. apply nBlocksReady_covers.
Qed.

Lemma land_lxor_distr (a b c : Z) :
  Z.land (Z.lxor a b) c = Z.lxor (Z.land a c) (Z.land b c).
Proof.
  apply Z.bits_inj'. intros n _.
  rewrite !Z.land_spec, !Z.lxor_spec, !Z.land_spec.
  destruct (Z.testbit a n), (Z.testbit b n), (Z.testbit c n); reflexivity.
Qed.

Lemma xor_twice_byte (d k : Z) :
  is_byte d -> Z.land (Z.lxor (Z.land (Z.lxor d k) 255) k) 255 = d.
Proof.
  intro Hd. rewrite !land_lxor_distr.
  rewrite <- !Z.land_assoc. change (Z.land 255 255) with 255.
  rewrite Z.lxor_assoc, Z.lxor_nilpotent, Z.lxor_0_r.
  apply land_255_byte, Hd.
Qed.

Lemma ctr_output_twice (data ks : list Z) :
  is_bytes data -> (length data <= length ks)%nat ->
  ctr_output (ctr_output data ks) ks = data.
Proof.
  intro Hd. revert ks. induction Hd as [|d data Hb _ IH]; intros ks Hlen.
  - reflexivity.
  - destruct ks as [|k ks]; [simpl in Hlen; lia|].
    unfold ctr_output in *. cbn [combine map fst snd].
    rewrite xor_twice_byte by assumption. f_equal.
    apply IH. simpl in Hlen. lia.
Qed.

(** Encrypting twice in CTR mode gives the data back. *)
Lemma aesEncryptCTR_roundtrip (key iv data : list Z) :
  length key = 16%nat -> length iv = 16%nat ->
  is_bytes key -> is_bytes iv -> is_bytes data ->
  exists c,
    Aes.aesEncryptCTR key iv data = Ok c /\
    length c = length data /\ is_bytes c /\
    Aes.aesEncryptCTR key iv c = Ok data.
Proof.
  intros Hk Hi Bk Bi Bd.
  pose proof (length_keystream key iv (nBlocksReady (length data))) as Hks.
  pose proof (nBlocksReady_covers (length data)) as Hcov.
  eexists. split; [apply aesEncryptCTR_ok; assumption|].
  assert (Hlen : length (ctr_output data
                   (keystream key iv (nBlocksReady (length data))))
                 = length data)
    by (apply length_ctr_output; lia).
  split; [exact Hlen|]. split; [apply is_bytes_ctr_output|].
  rewrite aesEncryptCTR_ok; try assumption; [| apply is_bytes_ctr_output].
  rewrite Hlen. f_equal. apply ctr_output_twice; [assumption | lia].
Qed.

End AesFacts.

(** ** [xor], [leftShift] and big-endian values *)

Module BytesFacts.
Import Bytes Checks.

Lemma xor_ok (a b : list Z) :
  length a = length b -> Utils.xor a b = Ok (xor_block a b).
Proof.
  intro H. unfold Utils.xor. rewrite H, Nat.eqb_refl. reflexivity.
Qed.

Lemma length_xor_block (a b : list Z) :
  length a = length b -> length (xor_block a b) = length a.
Proof.
  intro H. unfold xor_block. rewrite length_map, length_combine. lia.
Qed.

Lemma lxor_is_byte (a b : Z) : is_byte a -> is_byte b -> is_byte (Z.lxor a b).
Proof.
  intros Ha Hb.
  rewrite <- (land_255_byte a Ha), <- (land_255_byte b Hb).
  rewrite <- AesFacts.land_lxor_distr. apply land_255_is_byte.
Qed.

Lemma is_bytes_xor_block (a b : list Z) :
  is_bytes a -> is_bytes b -> is_bytes (xor_block a b).
Proof.
  intro Ha. revert b. induction Ha as [|x a Hx _ IH]; intros b Hb.
  - constructor.
  - destruct Hb as [|y b Hy Hb]; [constructor|].
    unfold xor_block. cbn [combine map fst snd]. constructor.
    + apply lxor_is_byte; assumption.
    + apply IH, Hb.
Qed.

Lemma pow256_pos (n : nat) : 0 < 256 ^ Z.of_nat n.
Proof. apply Z.pow_pos_nonneg; lia. Qed.

Lemma pow256_succ (n : nat) : 256 ^ Z.of_nat (S n) = 256 * 256 ^ Z.of_nat n.
Proof. rewrite Nat2Z.inj_succ, Z.pow_succ_r by lia. reflexivity. Qed.

Lemma be_value_bound (b : list Z) :
  is_bytes b -> 0 <= be_value b < 256 ^ Z.of_nat (length b).
Proof.
  induction 1 as [|x r Hx _ IH]; cbn [be_value length].
  - simpl. lia.
  - rewrite pow256_succ. pose proof (pow256_pos (length r)).
    unfold is_byte in Hx. nia.
Qed.

Lemma be_value_inj (a b : list Z) :
  is_bytes a -> is_bytes b -> length a = length b ->
  be_value a = be_value b -> a = b.
Proof.
  intro Ha. revert b. induction Ha as [|x a Hx Ha IH]; intros b Hb Hlen Hv.
  - destruct b; [reflexivity | discriminate].
  - destruct Hb as [|y b Hy Hb]; [discriminate|].
    cbn [length] in Hlen. injection Hlen as Hlen.
    cbn [be_value] in Hv. rewrite <- Hlen in Hv.
    pose proof (be_value_bound a Ha) as Ba.
    pose proof (be_value_bound b Hb) as Bb. rewrite <- Hlen in Bb.
    pose proof (pow256_pos (length a)) as Hp.
    assert (x = y) by nia. subst y.
    f_equal. apply IH; [assumption | assumption | lia].
Qed.

Lemma shift_byte (d c : Z) :
  is_byte d -> c = 0 \/ c = 1 ->
  Z.land (Z.lor (Z.shiftl d 1) c) 255 = (2 * d + c) mod 256 /\
  Z.shiftr (Z.land d 128) 7 = (2 * d + c) / 256.
Proof.
  intros Hd Hc.
  assert (H : shift_byte_ok d = true)
    by (revert d Hd; apply byte_forall; vm_compute; reflexivity).
  unfold shift_byte_ok in H. cbn [forallb] in H.
  apply andb_prop in H. destruct H as [H0 H1].
  apply andb_prop in H1. destruct H1 as [H1 _].
  apply andb_prop in H0. destruct H0 as [H0a H0b].
  apply andb_prop in H1. destruct H1 as [H1a H1b].
  apply Z.eqb_eq in H0a, H0b, H1a, H1b.
  destruct Hc; subst c; split; assumption.
Qed.

(** The loop of [leftShift] doubles the big-endian value; what leaves the
    array on the left is the last carry. *)
Lemma leftShift_fold (data : list Z) :
  is_bytes data ->
  let r := fold_right Utils.leftShift_step ([], 0) data in
  length (fst r) = length data /\ is_bytes (fst r) /\
  (snd r = 0 \/ snd r = 1) /\
  be_value (fst r) + snd r * 256 ^ Z.of_nat (length data) = 2 * be_value data.
Proof.
  induction 1 as [|d data Hd Hdata IH]; cbn zeta in *.
  - simpl. repeat split; try constructor; auto.
  - cbn [fold_right].
    destruct (fold_right Utils.leftShift_step ([], 0) data) as [out c].
    cbn [fst snd] in IH. destruct IH as (Hlen & Hout & Hc & Hval).
    unfold Utils.leftShift_step. cbn [fst snd].
    destruct (shift_byte d c Hd Hc) as [Hb Hcarry].
    rewrite Hb, Hcarry.
    assert (Hq : (2 * d + c) / 256 = 0 \/ (2 * d + c) / 256 = 1).
    { unfold is_byte in Hd.
      assert (0 <= (2 * d + c) / 256 < 2).
      { split; [apply Z.div_pos; lia | apply Z.div_lt_upper_bound; lia]. }
      lia. }
    repeat split.
    + cbn [length]. rewrite Hlen. reflexivity.
    + constructor; [|assumption]. unfold is_byte.
      apply Z.mod_pos_bound. lia.
    + exact Hq.
    + cbn [be_value length]. rewrite Hlen, pow256_succ.
      pose proof (Z.div_mod (2 * d + c) 256 ltac:(lia)) as Hdm.
      set (P := 256 ^ Z.of_nat (length data)) in *.
      set (m := (2 * d + c) mod 256) in *.
      set (q := (2 * d + c) / 256) in *.
      assert (m = 2 * d + c - 256 * q) as -> by lia.
      nia.
Qed.

Lemma length_leftShift (data : list Z) :
  is_bytes data -> length (Utils.leftShift data) = length data.
Proof. intro H. apply (leftShift_fold data H). Qed.

Lemma is_bytes_leftShift (data : list Z) :
  is_bytes data -> is_bytes (Utils.leftShift data).
Proof. intro H. apply (leftShift_fold data H). Qed.

Lemma be_value_leftShift (data : list Z) :
  is_bytes data ->
  be_value (Utils.leftShift data)
  = (2 * be_value data) mod 256 ^ Z.of_nat (length data).
Proof.
  intro H. destruct (leftShift_fold data H) as (Hlen & Hout & Hc & Hval).
  cbn zeta in *. unfold Utils.leftShift. rewrite <- Hval.
  rewrite Z_mod_plus_full. symmetry. apply Z.mod_small.
  rewrite <- Hlen. apply be_value_bound, Hout.
Qed.

Lemma lxor_split (k x u y v : Z) :
  0 <= k -> 0 <= u < 2 ^ k -> 0 <= v < 2 ^ k ->
  Z.lxor (x * 2 ^ k + u) (y * 2 ^ k + v) = Z.lxor x y * 2 ^ k + Z.lxor u v.
Proof.
  intros Hk Hu Hv.
  assert (Hp : 0 < 2 ^ k) by (apply Z.pow_pos_nonneg; lia).
  set (A := x * 2 ^ k + u). set (B := y * 2 ^ k + v).
  assert (HA : A / 2 ^ k = x /\ A mod 2 ^ k = u).
  { unfold A. split.
    - rewrite Z.div_add_l by lia. rewrite Z.div_small by lia. lia.
    - rewrite Z.add_comm, Z_mod_plus_full. apply Z.mod_small; lia. }
  assert (HB : B / 2 ^ k = y /\ B mod 2 ^ k = v).
  { unfold B. split.
    - rewrite Z.div_add_l by lia. rewrite Z.div_small by lia. lia.
    - rewrite Z.add_comm, Z_mod_plus_full. apply Z.mod_small; lia. }
  rewrite (Z.div_mod (Z.lxor A B) (2 ^ k)) by lia.
  rewrite <- Z.shiftr_div_pow2 by lia. rewrite Z.shiftr_lxor.
  rewrite !Z.shiftr_div_pow2 by lia.
  rewrite <- (Z.land_ones (Z.lxor A B)) by lia.
  rewrite AesFacts.land_lxor_distr. rewrite !Z.land_ones by lia.
  destruct HA as [-> ->]. destruct HB as [-> ->]. lia.
Qed.

Lemma be_value_xor_block (a b : list Z) :
  is_bytes a -> is_bytes b -> length a = length b ->
  be_value (xor_block a b) = Z.lxor (be_value a) (be_value b).
Proof.
  intro Ha. revert b. induction Ha as [|x a Hx Ha IH]; intros b Hb Hlen.
  - destruct b; [reflexivity | discriminate].
  - destruct Hb as [|y b Hy Hb]; [discriminate|].
    cbn [length] in Hlen. injection Hlen as Hlen.
    unfold xor_block. cbn [combine map fst snd be_value].
    fold (xor_block a b). rewrite length_xor_block by assumption.
    rewrite IH by assumption.
    pose proof (be_value_bound a Ha) as Ba.
    pose proof (be_value_bound b Hb) as Bb. rewrite <- Hlen in *.
    replace (256 ^ Z.of_nat (length a)) with (2 ^ (8 * Z.of_nat (length a))) in *
      by (rewrite Z.pow_mul_r by lia; reflexivity).
    symmetry. apply lxor_split; lia.
Qed.

End BytesFacts.

(** ** [cmac.ts] against SP 800-38B *)

Module CmacFacts.
Import Bytes Checks AesModel CmacModel BytesFacts AesFacts.

Lemma length_Rb : length Aes.Rb = 16%nat.
Proof. reflexivity. Qed.

Lemma is_bytes_Rb : is_bytes Aes.Rb.
Proof. apply is_bytesb_sound. reflexivity. Qed.

Lemma subkey_step_wf (L : list Z) :
  length L = 16%nat -> is_bytes L ->
  length (subkey_step L) = 16%nat /\ is_bytes (subkey_step L).
Proof.
  intros HL BL. unfold subkey_step.
  pose proof (length_leftShift L BL) as Hlen. rewrite HL in Hlen.
  pose proof (is_bytes_leftShift L BL) as Hb.
  destruct (negb _).
  - split.
    + rewrite length_xor_block; [assumption | now rewrite Hlen].
    + apply is_bytes_xor_block; [assumption | apply is_bytes_Rb].
  - split; assumption.
Qed.

Lemma subkey_step_code (L : list Z) :
  length L = 16%nat -> is_bytes L ->
  (if negb (Z.land (nth 0 L 0) 128 =? 0)
   then Utils.xor (Utils.leftShift L) Aes.Rb
   else Ok (Utils.leftShift L)) = Ok (subkey_step L).
Proof.
  intros HL BL. unfold subkey_step.
  destruct (negb (Z.land (nth 0 L 0) 128 =? 0)); [|reflexivity].
  apply xor_ok. rewrite length_leftShift by assumption. now rewrite HL.
Qed.

Lemma generateCMACSubkeys_ok (key : list Z) :
  length key = 16%nat -> is_bytes key ->
  Aes.generateCMACSubkeys key =
  Ok (subkey_step (aes_block key (zeros 16)),
      subkey_step (subkey_step (aes_block key (zeros 16)))).
Proof.
  intros Hk Bk. unfold Aes.generateCMACSubkeys.
  rewrite aesEncryptBlock_ok;
    [| assumption | apply length_zeros | assumption | apply is_bytes_zeros].
  cbn [bind].
  pose proof (length_aes_block key (zeros 16)) as HL.
  pose proof (is_bytes_aes_block key (zeros 16)) as BL.
  rewrite subkey_step_code by assumption. cbn [bind].
  destruct (subkey_step_wf _ HL BL) as [HK1 BK1].
  rewrite subkey_step_code by assumption. reflexivity.
Qed.

Lemma msb_byte (b : Z) :
  is_byte b -> Z.odd (b / 128) = negb (Z.land b 128 =? 0).
Proof.
  intro Hb. apply Bool.eqb_prop. revert b Hb.
  apply (byte_forall msb_byte_ok). vm_compute. reflexivity.
Qed.

Lemma MSB_first_byte (L : list Z) :
  length L = 16%nat -> is_bytes L ->
  NIST.MSB (be_value L) = negb (Z.land (nth 0 L 0) 128 =? 0).
Proof.
  intros HL BL. destruct L as [|x r]; [discriminate|].
  cbn [length] in HL. injection HL as Hr.
  inversion BL as [|? ? Hx Br]; subst.
  pose proof (be_value_bound r Br) as Bv. rewrite Hr in Bv.
  cbn [nth be_value]. rewrite Hr. rewrite <- msb_byte by assumption.
  unfold NIST.MSB.
  rewrite <- (Z.add_0_l 127), <- Z.shiftr_spec by lia.
  rewrite Z.bit0_odd, Z.shiftr_div_pow2 by lia. f_equal.
  change (2 ^ 127) with (256 ^ Z.of_nat 15 * 128).
  rewrite <- Z.div_div by lia.
  rewrite Z.div_add_l by lia. rewrite (Z.div_small (be_value r)) by lia.
  rewrite Z.add_0_r. reflexivity.
Qed.

(** One subkey step, on the 128-bit value of the block. *)
Lemma be_value_subkey_step (L : list Z) :
  length L = 16%nat -> is_bytes L ->
  be_value (subkey_step L) = NIST.next_subkey (be_value L).
Proof.
  intros HL BL. unfold subkey_step, NIST.next_subkey.
  rewrite MSB_first_byte by assumption.
  assert (Hs : be_value (Utils.leftShift L) = NIST.shl1 (be_value L)).
  { rewrite be_value_leftShift by assumption. rewrite HL.
    unfold NIST.shl1. rewrite Z.shiftl_mul_pow2 by lia.
    change (256 ^ Z.of_nat 16) with (2 ^ 128). f_equal. lia. }
  destruct (negb _).
  - rewrite be_value_xor_block.
    + rewrite Hs. reflexivity.
    + apply is_bytes_leftShift, BL.
    + apply is_bytes_Rb.
    + rewrite length_leftShift by assumption. now rewrite HL.
  - exact Hs.
Qed.

Lemma nblocks_small (n : nat) : (1 <= n <= 16)%nat -> nblocks n = 1%nat.
Proof.
  intro H. unfold nblocks. symmetry.
  apply (Nat.div_unique _ _ _ (n - 1)); lia.
Qed.

Lemma nblocks_step (n : nat) :
  (16 < n)%nat -> nblocks n = S (nblocks (n - 16)).
Proof.
  intro H. unfold nblocks.
  replace (n + 16 - 1)%nat with ((n - 16 + 16 - 1) + 1 * 16)%nat by lia.
  rewrite Nat.div_add by lia. lia.
Qed.

Lemma last_block_facts (n : nat) :
  n <> 0%nat ->
  let t := (n - (nblocks n - 1) * 16)%nat in
  (1 <= nblocks n)%nat /\ (1 <= t <= 16)%nat /\
  ((nblocks n - 1) * 16 < n)%nat /\
  Nat.eqb (n mod 16) 0 = Nat.eqb t 16.
Proof.
  intro Hn. cbv zeta. unfold nblocks.
  pose proof (Nat.div_mod_eq (n + 16 - 1) 16) as H1.
  pose proof (Nat.mod_upper_bound (n + 16 - 1) 16) as H2.
  pose proof (Nat.div_mod_eq n 16) as H3.
  pose proof (Nat.mod_upper_bound n 16) as H4.
  set (q := ((n + 16 - 1) / 16)%nat) in *.
  set (r := ((n + 16 - 1) mod 16)%nat) in *.
  set (q' := (n / 16)%nat) in *. set (r' := (n mod 16)%nat) in *.
  repeat split; try lia.
  destruct (Nat.eqb_spec r' 0); destruct (Nat.eqb_spec (n - (q - 1) * 16) 16);
    try reflexivity; lia.
Qed.

Lemma partition_nil (fuel : nat) : NIST.partition fuel [] = [].
Proof. destruct fuel; reflexivity. Qed.

Lemma slice_skip16 (M : list Z) (i : nat) :
  slice M (S i * 16) ((S i + 1) * 16) = slice (skipn 16 M) (i * 16) ((i + 1) * 16).
Proof.
  unfold slice. rewrite skipn_skipn.
  replace (i * 16 + 16)%nat with (S i * 16)%nat by lia.
  replace ((S i + 1) * 16 - S i * 16)%nat with ((i + 1) * 16 - i * 16)%nat by lia.
  reflexivity.
Qed.

Lemma partition_cons (fuel : nat) (M : list Z) :
  M <> [] ->
  NIST.partition (S fuel) M = firstn 16 M :: NIST.partition fuel (skipn 16 M).
Proof. intro H. destruct M; [contradiction | reflexivity]. Qed.

(** The blocks of SP 800-38B are the slices that [cmac] takes. *)
Lemma partition_slices (fuel : nat) (M : list Z) :
  (length M <= fuel)%nat -> M <> [] ->
  NIST.partition fuel M =
  map (fun i => slice M (i * 16) ((i + 1) * 16)) (seq 0 (nblocks (length M) - 1))
  ++ [skipn ((nblocks (length M) - 1) * 16) M].
Proof.
  revert M. induction fuel as [|fuel IH]; intros M Hlen Hne.
  - destruct M; [contradiction | simpl in Hlen; lia].
  - rewrite partition_cons by assumption.
    assert (H0 : length M <> 0%nat).
    { intro E. apply Hne. destruct M; [reflexivity | discriminate]. }
    destruct (Nat.le_gt_cases (length M) 16) as [Hs | Hl].
    + rewrite nblocks_small by lia.
      change (1 - 1)%nat with 0%nat. cbn [seq map app].
      change (0 * 16)%nat with 0%nat. rewrite skipn_O.
      rewrite skipn_all2 by lia. rewrite partition_nil.
      rewrite firstn_all2 by lia. reflexivity.
    + assert (Hlen' : length (skipn 16 M) = (length M - 16)%nat)
        by apply length_skipn.
      assert (Hne' : skipn 16 M <> []).
      { intro E. rewrite E in Hlen'. simpl in Hlen'. lia. }
      rewrite IH by (try assumption; rewrite Hlen'; lia).
      rewrite Hlen'. rewrite (nblocks_step (length M)) by lia.
      assert (Hq : (1 <= nblocks (length M - 16))%nat)
        by (apply last_block_facts; lia).
      replace (S (nblocks (length M - 16)) - 1)%nat
        with (S (nblocks (length M - 16) - 1)) by lia.
      cbn [seq map]. rewrite <- seq_shift, map_map.
      rewrite <- app_comm_cons. f_equal.
      f_equal.
      * apply map_ext. intro i. symmetry. apply slice_skip16.
      * f_equal. rewrite skipn_skipn. f_equal. lia.
Qed.

Lemma length_slice_block (M : list Z) (i : nat) :
  ((i + 1) * 16 <= length M)%nat ->
  length (slice M (i * 16) ((i + 1) * 16)) = 16%nat.
Proof.
  intro H. unfold slice. rewrite length_firstn, length_skipn. lia.
Qed.

Section Chain.
Variable key : list Z.
Hypothesis key_length : length key = 16%nat.
Hypothesis key_bytes : is_bytes key.

Lemma chain_wf (M : list Z) (idxs : list nat) (mac : list Z) :
  length mac = 16%nat -> is_bytes mac ->
  length (chain key M idxs mac) = 16%nat /\ is_bytes (chain key M idxs mac).
Proof.
  revert mac. induction idxs as [|i idxs IH]; intros mac Hm Bm.
  - split; assumption.
  - cbn [chain fold_left]. apply IH.
    + apply length_aes_block.
    + apply is_bytes_aes_block.
Qed.

Lemma cbc_loop_ok (M : list Z) (idxs : list nat) (mac : list Z) :
  is_bytes M -> length mac = 16%nat -> is_bytes mac ->
  (forall i, In i idxs -> ((i + 1) * 16 <= length M)%nat) ->
  Cmac.cbc_loop key M idxs mac = Ok (chain key M idxs mac).
Proof.
  intro BM. revert mac. induction idxs as [|i idxs IH]; intros mac Hm Bm Hin.
  - reflexivity.
  - cbn [Cmac.cbc_loop]. unfold Cmac.blockSize.
    assert (Hs : length (slice M (i * 16) ((i + 1) * 16)) = 16%nat)
      by (apply length_slice_block, Hin; left; reflexivity).
    rewrite xor_ok by lia. cbn [bind].
    rewrite aesEncryptBlock_ok; try assumption.
    + cbn [bind]. rewrite IH.
      * reflexivity.
      * apply length_aes_block.
      * apply is_bytes_aes_block.
      * intros j Hj. apply Hin. right. exact Hj.
    + rewrite length_xor_block by lia. exact Hm.
    + apply is_bytes_xor_block; [assumption | apply is_bytes_slice, BM].
Qed.

Lemma cbc_chain (M : list Z) (idxs : list nat) (prev M_last : list Z) :
  NIST.cbc (aes_block key) prev
    (map (fun i => slice M (i * 16) ((i + 1) * 16)) idxs) M_last
  = aes_block key (xor_block (chain key M idxs prev) M_last).
Proof.
  revert prev. induction idxs as [|i idxs IH]; intro prev.
  - reflexivity.
  - cbn [map NIST.cbc chain fold_left]. rewrite IH. reflexivity.
Qed.

Lemma pad_last_pad (b : list Z) : Cmac.pad_last b = NIST.pad b.
Proof.
  unfold Cmac.pad_last, NIST.pad, zeros, Cmac.blockSize.
  do 3 f_equal. lia.
Qed.

Lemma pad_wf (b : list Z) :
  (length b < 16)%nat -> is_bytes b ->
  length (NIST.pad b) = 16%nat /\ is_bytes (NIST.pad b).
Proof.
  intros Hl Hb. unfold NIST.pad. split.
  - rewrite !length_app, repeat_length. cbn [length]. lia.
  - apply is_bytes_app; [assumption|]. apply is_bytes_app.
    + apply is_bytesb_sound. reflexivity.
    + apply is_bytes_zeros.
Qed.

(** [cmac] computes the tag of SP 800-38B, with the subkeys that
    [generateCMACSubkeys] returns. *)
Lemma cmac_tag (M : list Z) :
  is_bytes M ->
  Cmac.cmac key M =
  Ok (NIST.tag (aes_block key)
        (subkey_step (aes_block key (zeros 16)))
        (subkey_step (subkey_step (aes_block key (zeros 16)))) M).
Proof.
  intro BM. unfold Cmac.cmac. rewrite key_length. cbn [Nat.eqb negb].
  rewrite generateCMACSubkeys_ok by assumption. cbn [bind].
  pose proof (length_aes_block key (zeros 16)) as HL.
  pose proof (is_bytes_aes_block key (zeros 16)) as BL.
  destruct (subkey_step_wf _ HL BL) as [HK1 BK1].
  destruct (subkey_step_wf _ HK1 BK1) as [HK2 BK2].
  set (K1 := subkey_step (aes_block key (zeros 16))) in *.
  set (K2 := subkey_step K1) in *.
  unfold Cmac.blockSize.
  destruct M as [|x M0].
  - (* the empty message *)
    cbn [length Nat.eqb Nat.sub Nat.mul skipn seq Cmac.cbc_loop].
    rewrite pad_last_pad.
    destruct (pad_wf [] ltac:(simpl; lia) ltac:(constructor)) as [Hp Bp].
    rewrite xor_ok by lia. cbn [bind].
    rewrite xor_ok by (rewrite length_zeros, length_xor_block; lia).
    cbn [bind]. rewrite aesEncryptBlock_ok; try assumption.
    + reflexivity.
    + rewrite length_xor_block; rewrite ?length_zeros, ?length_xor_block; lia.
    + apply is_bytes_xor_block; [apply is_bytes_zeros|].
      apply is_bytes_xor_block; assumption.
  - set (M := x :: M0) in *.
    assert (Hne : length M <> 0%nat) by (subst M; cbn [length]; lia).
    destruct (Nat.eqb_spec (length M) 0) as [|_]; [contradiction|].
    fold (nblocks (length M)).
    destruct (last_block_facts (length M) Hne) as (Hnb & Ht & Hstart & Hmod).
    cbv zeta in Ht, Hmod.
    set (start := ((nblocks (length M) - 1) * 16)%nat) in *.
    assert (Hlast : length (skipn start M) = (length M - start)%nat)
      by apply length_skipn.
    unfold NIST.tag.
    rewrite partition_slices by (try lia; subst M; discriminate).
    rewrite rev_app_distr. cbn [rev app]. rewrite rev_involutive.
    fold start. rewrite Hlast, Hmod.
    rewrite cbc_chain. fold (zeros 16).
    assert (Hidx : forall i, In i (seq 0 (nblocks (length M) - 1)) ->
                             ((i + 1) * 16 <= length M)%nat).
    { intros i Hi. apply in_seq in Hi. subst start. nia. }
    destruct (chain_wf M (seq 0 (nblocks (length M) - 1)) (zeros 16)
                (length_zeros 16) (is_bytes_zeros 16)) as [Hc Bc].
    destruct (Nat.eqb_spec (length M - start) 16) as [Hfull | Hpart].
    + rewrite xor_ok by lia. cbn [bind].
      rewrite cbc_loop_ok;
        [| assumption | apply length_zeros | apply is_bytes_zeros | assumption].
      cbn [bind]. rewrite xor_ok by (rewrite length_xor_block; lia).
      cbn [bind]. rewrite aesEncryptBlock_ok; try assumption.
      * reflexivity.
      * rewrite length_xor_block; rewrite ?length_xor_block; lia.
      * apply is_bytes_xor_block; [assumption|].
        apply is_bytes_xor_block; [apply is_bytes_skipn, BM | assumption].
    + rewrite pad_last_pad.
      destruct (pad_wf (skipn start M) ltac:(lia) (is_bytes_skipn _ _ BM))
        as [Hp Bp].
      rewrite xor_ok by lia. cbn [bind].
      rewrite cbc_loop_ok;
        [| assumption | apply length_zeros | apply is_bytes_zeros | assumption].
      cbn [bind]. rewrite xor_ok by (rewrite length_xor_block; lia).
      cbn [bind]. rewrite aesEncryptBlock_ok; try assumption.
      * reflexivity.
      * rewrite length_xor_block; rewrite ?length_xor_block; lia.
      * apply is_bytes_xor_block; [assumption|].
        apply is_bytes_xor_block; assumption.
Qed.

Lemma cmac_wf (M : list Z) :
  is_bytes M ->
  exists t, Cmac.cmac key M = Ok t /\ length t = 16%nat /\ is_bytes t.
Proof.
  intro BM. rewrite cmac_tag by assumption. eexists. split; [reflexivity|].
  unfold NIST.tag.
  assert (H : forall prev blocks M_last,
             length (NIST.cbc (aes_block key) prev blocks M_last) = 16%nat /\
             is_bytes (NIST.cbc (aes_block key) prev blocks M_last)).
  { intros prev blocks. revert prev.
    induction blocks as [|b blocks IH]; intros prev M_last.
    - cbn [NIST.cbc]. split; [apply length_aes_block | apply is_bytes_aes_block].
    - cbn [NIST.cbc]. apply IH. }
  destruct (rev (NIST.partition (length M) M)); apply H.
Qed.

End Chain.

End CmacFacts.

(** ** Session keys and the SDM message *)

Module SdmFacts.
Import Bytes AesModel Kdf BytesFacts AesFacts CmacFacts.

Lemma encode_labels :
  SessionKeys.encode "SDMENCFileData" = label_SDMENCFileData /\
  SessionKeys.encode "SDMFileReadMAC" = label_SDMFileReadMAC.
Proof. split; reflexivity. Qed.

Lemma deriveKey_cmac (masterKey sv label : list Z) :
  length masterKey = 16%nat -> length sv = 16%nat ->
  SessionKeys.deriveKey masterKey sv label
  = Cmac.cmac masterKey (kdf_input label sv).
Proof.
  intros Hk Hs. unfold SessionKeys.deriveKey. rewrite Hk, Hs.
  cbn [Nat.eqb negb]. unfold Cmac.cmacPRF, Utils.concat, kdf_input.
  cbn [List.concat]. rewrite app_nil_r. reflexivity.
Qed.

Lemma deriveKey_throws (masterKey sv label : list Z) :
  length masterKey <> 16%nat \/ length sv <> 16%nat ->
  exists msg, SessionKeys.deriveKey masterKey sv label = Throw msg.
Proof.
  intro H. unfold SessionKeys.deriveKey.
  destruct (Nat.eqb_spec (length masterKey) 16) as [Hk | Hk]; cbn [negb].
  - destruct (Nat.eqb_spec (length sv) 16) as [Hs | Hs]; cbn [negb].
    + destruct H; contradiction.
    + eexists. reflexivity.
  - eexists. reflexivity.
Qed.

Lemma is_bytes_kdf_input (label sv : list Z) :
  is_bytes label -> is_bytes sv -> is_bytes (kdf_input label sv).
Proof.
  intros Hl Hs. unfold kdf_input.
  repeat apply is_bytes_app; try assumption;
    apply is_bytesb_sound; reflexivity.
Qed.

Lemma deriveKey_wf (masterKey sv label : list Z) :
  length masterKey = 16%nat -> length sv = 16%nat ->
  is_bytes masterKey -> is_bytes sv -> is_bytes label ->
  exists k, SessionKeys.deriveKey masterKey sv label = Ok k /\
            length k = 16%nat /\ is_bytes k.
Proof.
  intros Hk Hs Bk Bs Bl. rewrite deriveKey_cmac by assumption.
  apply cmac_wf; try assumption. apply is_bytes_kdf_input; assumption.
Qed.

Lemma deriveSDMSessionKeys_ok (K1 K2 : list Z) (sv : option Uint8Array) :
  length K1 = 16%nat -> length K2 = 16%nat ->
  length (sv_or_zero sv) = 16%nat ->
  is_bytes K1 -> is_bytes K2 -> is_bytes (sv_or_zero sv) ->
  exists enc mac,
    SessionKeys.deriveSDMSessionKeys K1 K2 sv
    = Ok {| SessionKeys.KSesSDMFileReadMAC := mac;
            SessionKeys.KSesSDMFileEnc := enc |} /\
    Cmac.cmac K1 (kdf_input label_SDMENCFileData (sv_or_zero sv)) = Ok enc /\
    Cmac.cmac K2 (kdf_input label_SDMFileReadMAC (sv_or_zero sv)) = Ok mac /\
    length enc = 16%nat /\ is_bytes enc /\
    length mac = 16%nat /\ is_bytes mac.
Proof.
  intros H1 H2 Hs B1 B2 Bs.
  unfold SessionKeys.deriveSDMSessionKeys.
  replace (match sv with Some v => v | None => zeros 16 end)
    with (sv_or_zero sv) by (destruct sv; reflexivity).
  destruct encode_labels as [-> ->].
  destruct (deriveKey_wf K1 (sv_or_zero sv) label_SDMENCFileData)
    as (enc & He & Hle & Hbe); try assumption;
    [apply is_bytesb_sound; reflexivity|].
  destruct (deriveKey_wf K2 (sv_or_zero sv) label_SDMFileReadMAC)
    as (mac & Hm & Hlm & Hbm); try assumption;
    [apply is_bytesb_sound; reflexivity|].
  exists enc, mac. rewrite He, Hm. cbn [bind].
  rewrite deriveKey_cmac in He, Hm by assumption.
  repeat split; assumption.
Qed.

(** What [generateSDM] returns for a 7-byte UID, a 3-byte counter and
    16-byte keys. *)
Lemma generateSDM_ok (config : SDMService.SDMConfig) :
  let picc := SDMService.uid config ++ SDMService.counter config in
  length picc = 10%nat -> is_bytes picc ->
  length (SDMService.encKey config) = 16%nat ->
  length (SDMService.macKey config) = 16%nat ->
  is_bytes (SDMService.encKey config) ->
  is_bytes (SDMService.macKey config) ->
  exists keys enc full,
    SessionKeys.deriveSDMSessionKeys
      (SDMService.encKey config) (SDMService.macKey config) None = Ok keys /\
    Aes.aesEncryptCTR (SessionKeys.KSesSDMFileEnc keys) (zeros 16) picc
      = Ok enc /\
    length enc = 10%nat /\ is_bytes enc /\
    Aes.aesEncryptCTR (SessionKeys.KSesSDMFileEnc keys) (zeros 16) enc
      = Ok picc /\
    Cmac.cmac (SessionKeys.KSesSDMFileReadMAC keys) picc = Ok full /\
    length full = 16%nat /\ is_bytes full /\
    SDMService.generateSDM config
    = Ok {| SDMService.encPiccData := Utils.bytesToHex enc;
            SDMService.cmac := Utils.bytesToHex (firstn 8 full);
            SDMService.piccData := picc |}.
Proof.
  intros picc Hp Bp H1 H2 B1 B2.
  destruct (deriveSDMSessionKeys_ok _ _ None H1 H2 (repeat_length 0 16)
              B1 B2 (is_bytes_zeros 16))
    as (ke & km & Hkeys & _ & _ & Hle & Hbe & Hlm & Hbm).
  destruct (aesEncryptCTR_roundtrip ke (zeros 16) picc Hle (length_zeros 16)
              Hbe (is_bytes_zeros 16) Bp) as (enc & Henc & Hlen & Benc & Hback).
  destruct (cmac_wf km Hlm Hbm picc Bp) as (full & Hfull & Hlf & Bf).
  exists {| SessionKeys.KSesSDMFileReadMAC := km;
            SessionKeys.KSesSDMFileEnc := ke |}, enc, full.
  cbn [SessionKeys.KSesSDMFileEnc SessionKeys.KSesSDMFileReadMAC].
  repeat split; try assumption; try lia.
  unfold SDMService.generateSDM, Utils.concat. cbn [List.concat].
  rewrite app_nil_r. fold picc. rewrite Hp. cbn [Nat.eqb negb MEMORY.PICC_DATA_SIZE].
  rewrite Hkeys. cbn [bind SessionKeys.KSesSDMFileEnc SessionKeys.KSesSDMFileReadMAC].
  rewrite Henc. cbn [bind]. unfold Cmac.cmacSDM. rewrite Hfull. cbn [bind].
  unfold slice. rewrite Nat.sub_0_r, skipn_O. reflexivity.
Qed.

End SdmFacts.

(** ** The counter *)

Module CounterFacts.
Import Bytes BytesFacts.

Lemma be_value_3 (a b c : Z) : be_value [a; b; c] = a * 65536 + b * 256 + c.
Proof. cbn. lia. Qed.

Lemma toInt32_small (n : Z) : 0 <= n < 2147483648 -> Utils.toInt32 n = n.
Proof.
  intro H. unfold Utils.toInt32. rewrite Z.mod_small by lia.
  destruct (Z.ltb_spec n 2147483648); lia.
Qed.

Lemma land_255_mod (n : Z) : Z.land n 255 = n mod 256.
Proof. change 255 with (Z.ones 8). rewrite Z.land_ones by lia. reflexivity. Qed.

Lemma shiftr_8_div (n : Z) : Z.shiftr n 8 = n / 256.
Proof. rewrite Z.shiftr_div_pow2 by lia. reflexivity. Qed.

(** [numberToBytes(v, 3)] for a 24-bit value. *)
Lemma numberToBytes_3 (v : Z) :
  0 <= v < 16777216 ->
  Utils.numberToBytes v 3 = [v / 65536; (v / 256) mod 256; v mod 256].
Proof.
  intro H. unfold Utils.numberToBytes. cbn [Utils.numberToBytes_go].
  rewrite (toInt32_small v) by lia.
  rewrite !shiftr_8_div, !land_255_mod.
  assert (H1 : 0 <= v / 256 < 65536).
  { split; [apply Z.div_pos; lia | apply Z.div_lt_upper_bound; lia]. }
  rewrite (toInt32_small (v / 256)) by lia.
  assert (H2 : 0 <= v / 256 / 256 < 256).
  { split; [apply Z.div_pos; lia | apply Z.div_lt_upper_bound; lia]. }
  rewrite (toInt32_small (v / 256 / 256)) by lia.
  rewrite (Z.mod_small (v / 256 / 256)) by lia.
  rewrite Z.div_div by lia. reflexivity.
Qed.

Lemma numberToBytes_3_wf (v : Z) :
  0 <= v < 16777216 ->
  length (Utils.numberToBytes v 3) = 3%nat /\
  is_bytes (Utils.numberToBytes v 3) /\
  be_value (Utils.numberToBytes v 3) = v.
Proof.
  intro H. rewrite numberToBytes_3 by assumption.
  assert (H1 : 0 <= v / 65536 < 256).
  { split; [apply Z.div_pos; lia | apply Z.div_lt_upper_bound; lia]. }
  pose proof (Z.mod_pos_bound (v / 256) 256 ltac:(lia)) as H2.
  pose proof (Z.mod_pos_bound v 256 ltac:(lia)) as H3.
  split; [reflexivity|]. split.
  - repeat constructor; unfold is_byte; lia.
  - rewrite be_value_3.
    pose proof (Z.div_mod v 256 ltac:(lia)) as E1.
    pose proof (Z.div_mod (v / 256) 256 ltac:(lia)) as E2.
    rewrite Z.div_div in E2 by lia. change (256 * 256) with 65536 in E2.
    lia.
Qed.


(** [incrementCounter] on a 3-byte counter adds one modulo 2^24. *)
Lemma incrementCounter_3 (c : list Z) :
  length c = 3%nat -> is_bytes c ->
  Utils.incrementCounter c
  = Utils.numberToBytes ((be_value c + 1) mod 16777216) 3.
Proof.
  intros Hl Hb.
  destruct c as [|x [|y [|z [|? ?]]]]; try discriminate.
  inversion Hb as [|? ? Hx Hb1]; subst.
  inversion Hb1 as [|? ? Hy Hb2]; subst.
  inversion Hb2 as [|? ? Hz _]; subst.
  unfold is_byte in Hx, Hy, Hz.
  pose proof (Z.mod_pos_bound (be_value [x; y; z] + 1) 16777216 ltac:(lia)) as B.
  apply be_value_inj.
  - unfold Utils.incrementCounter. cbn [rev app Utils.incrementCounter_go].
    unfold to_uint8.
    destruct (Z.eqb_spec z 255); [destruct (Z.eqb_spec y 255);
      [destruct (Z.eqb_spec x 255)|]|];
    cbn [Utils.incrementCounter_go rev app];
    repeat constructor; unfold is_byte; try lia;
    apply Z.mod_pos_bound; lia.
  - apply numberToBytes_3_wf, B.
  - unfold Utils.incrementCounter.
    rewrite length_rev.
    destruct (numberToBytes_3_wf _ B) as (-> & _ & _).
    cbn [rev app Utils.incrementCounter_go].
    destruct (z =? 255); [destruct (y =? 255); [destruct (x =? 255)|]|];
      reflexivity.
  - destruct (numberToBytes_3_wf _ B) as (_ & _ & ->).
    rewrite be_value_3 in *.
    unfold Utils.incrementCounter. cbn [rev app Utils.incrementCounter_go].
    unfold to_uint8.
    destruct (Z.eqb_spec z 255); [destruct (Z.eqb_spec y 255);
      [destruct (Z.eqb_spec x 255)|]|];
    cbn [Utils.incrementCounter_go rev app]; rewrite be_value_3; subst.
    + reflexivity.
    + rewrite (Z.mod_small (x + 1)) by lia. rewrite Z.mod_small by lia. lia.
    + rewrite (Z.mod_small (y + 1)) by lia. rewrite Z.mod_small by lia. lia.
    + rewrite (Z.mod_small (z + 1)) by lia. rewrite Z.mod_small by lia. lia.
Qed.

End CounterFacts.

(** ** The service *)

Module ServiceFacts.
Import Bytes Session BytesFacts CounterFacts Apdu NTAG424Service.

Lemma generateNDEF_ok (uid counter K1 K2 : Uint8Array) (base cid : string) :
  length uid = 7%nat -> is_bytes uid -> valid_counter counter ->
  length K1 = 16%nat -> is_bytes K1 -> length K2 = 16%nat -> is_bytes K2 ->
  exists msg,
    SDMService.generateSDM
      {| SDMService.uid := uid; SDMService.counter := counter;
         SDMService.encKey := K1; SDMService.macKey := K2;
         SDMService.cfg_piccData := Utils.concat [uid; counter] |} = Ok msg /\
    SDMService.piccData msg = uid ++ counter /\
    String.length (SDMService.encPiccData msg) = 20%nat /\
    String.length (SDMService.cmac msg) = 16%nat /\
    SDMService.generateNDEFWithSDM uid counter K1 K2 base cid
    = Ok (SDMService.buildNDEFMessage (SDMService.buildLNURL base cid msg)).
Proof.
  intros Hu Bu [Hc Bc] H1 B1 H2 B2.
  destruct (SdmFacts.generateSDM_ok
              {| SDMService.uid := uid; SDMService.counter := counter;
                 SDMService.encKey := K1; SDMService.macKey := K2;
                 SDMService.cfg_piccData := Utils.concat [uid; counter] |})
    as (keys & enc & full & _ & _ & Hle & _ & _ & _ & Hlf & _ & Hgen);
    cbn [SDMService.uid SDMService.counter SDMService.encKey
         SDMService.macKey]; try assumption.
  { rewrite length_app. lia. }
  { apply is_bytes_app; assumption. }
  cbn [SDMService.uid SDMService.counter SDMService.encKey
       SDMService.macKey] in Hgen.
  eexists. split; [exact Hgen|].
  cbn [SDMService.piccData SDMService.encPiccData SDMService.cmac].
  split; [reflexivity|].
  split; [rewrite HexFacts.length_bytesToHex, Hle; reflexivity|].
  split; [rewrite HexFacts.length_bytesToHex, length_firstn, Hlf; reflexivity|].
  unfold SDMService.generateNDEFWithSDM. rewrite Hgen. reflexivity.
Qed.

Lemma ndef_of_ok (w : World) (counter : Uint8Array) :
  valid_keys (keys w) -> valid_counter counter ->
  exists ndef, ndef_of w counter = Ok ndef.
Proof.
  intros (Hu & Bu & H1 & B1 & H2 & B2) Hc.
  destruct (generateNDEF_ok (UID (keys w)) counter (K1 (keys w)) (K2 (keys w))
              (lnurlBase w) (cardId w)) as (msg & _ & _ & _ & _ & H);
    try assumption.
  eexists. exact H.
Qed.

(** What the reader receives for a READ BINARY of a file: the requested
    portion and the status word 9000. *)
Lemma serialize_read_portion (file : Uint8Array) (offset len : Z) :
  0 <= offset ->
  serializeResponse (Handlers.read_portion file offset len)
  = firstn (Z.to_nat len) (skipn (Z.to_nat offset) file) ++ [0x90; 0x00].
Proof.
  intro Ho. unfold Handlers.read_portion.
  destruct (Z.leb_spec (Z.of_nat (length file)) offset) as [Hge | Hlt].
  - rewrite skipn_all2 by lia. rewrite firstn_nil. reflexivity.
  - unfold slice.
    assert (E : firstn (Z.to_nat (Z.min (offset + len) (Z.of_nat (length file)))
                        - Z.to_nat offset) (skipn (Z.to_nat offset) file)
                = firstn (Z.to_nat len) (skipn (Z.to_nat offset) file)).
    { destruct (Z.le_gt_cases (offset + len) (Z.of_nat (length file))).
      - rewrite Z.min_l by lia. f_equal. lia.
      - rewrite Z.min_r by lia.
        rewrite !firstn_all2; [reflexivity | |]; rewrite length_skipn; lia. }
    unfold serializeResponse, buildSuccessResponse. cbn [rdata SW1 SW2].
    rewrite E.
    destruct (firstn (Z.to_nat len) (skipn (Z.to_nat offset) file)) as [|x l];
      reflexivity.
Qed.

Lemma reads_at_inv (bytes : Uint8Array) (offset len : Z) :
  reads_at bytes = Some (offset, len) ->
  exists command,
    parseAPDU bytes = Ok command /\ isReadBinaryCommand command = true /\
    isSelectCommand command = false /\
    getReadOffset command = Ok offset /\ getReadLength command = Ok len.
Proof.
  unfold reads_at. intro H.
  destruct (parseAPDU bytes) as [command|]; [|discriminate].
  destruct (isReadBinaryCommand command) eqn:Hr; [|discriminate].
  destruct (getReadOffset command) as [o|] eqn:Ho; [|discriminate].
  destruct (getReadLength command) as [l|] eqn:Hl; [|discriminate].
  injection H as -> ->. exists command.
  split; [reflexivity|]. split; [exact Hr|]. split; [|split; assumption].
  unfold isSelectCommand, isReadBinaryCommand in *.
  apply Z.eqb_eq in Hr. rewrite Hr. reflexivity.
Qed.

(** [processAPDU] on a READ BINARY while the NDEF file is selected. *)
Lemma processAPDU_read_ndef (w : World) (bytes : Uint8Array) (offset len : Z) :
  ndef_selected w -> reads_at bytes = Some (offset, len) ->
  processAPDU w bytes =
  let w' := if offset =? 0 then handleCounterIncrement w else w in
  (w', match generateNDEFData w' with
       | Ok ndef =>
           serializeResponse (Handlers.read_portion ndef offset len)
       | Throw _ => [0x6F; 0x00]
       end).
Proof.
  intros Hsel Hread.
  destruct (reads_at_inv bytes offset len Hread)
    as (command & Hp & Hr & Hs & Ho & Hl).
  unfold processAPDU. rewrite Hp, Hs, Hr.
  unfold handleReadCommand, Handlers.handleReadBinary.
  unfold ndef_selected in Hsel. rewrite Hsel, Ho, Hl.
  change (FILE_ID.NDEF =? FILE_ID.CC) with false.
  change (FILE_ID.NDEF =? FILE_ID.NDEF) with true. cbv iota.
  unfold Handlers.handleReadNDEF. cbv zeta.
  destruct (generateNDEFData (if offset =? 0 then handleCounterIncrement w else w));
    reflexivity.
Qed.

Lemma handleCounterIncrement_valid (w : World) :
  valid_world w -> valid_world (handleCounterIncrement w).
Proof.
  intros [Hk [Hl Hb]]. split; [exact Hk|].
  cbn [handleCounterIncrement state counter].
  rewrite incrementCounter_3 by assumption.
  pose proof (Z.mod_pos_bound (be_value (counter (state w)) + 1) 16777216
                ltac:(lia)) as B.
  destruct (numberToBytes_3_wf _ B) as (L & Bn & _). split; assumption.
Qed.

(** A READ BINARY at offset 0 of the selected NDEF file: the counter in
    memory is incremented first, a persistence task is started, and the
    response carries the NDEF generated for the new counter. *)
Lemma processAPDU_read_ndef_0 (w : World) (bytes : Uint8Array) (len : Z) :
  valid_world w -> ndef_selected w -> reads_at bytes = Some (0, len) ->
  let new_counter :=
    Utils.numberToBytes ((be_value (counter (state w)) + 1) mod 16777216) 3 in
  exists ndef,
    counter (state (handleCounterIncrement w)) = new_counter /\
    ndef_of w new_counter = Ok ndef /\
    processAPDU w bytes
    = (handleCounterIncrement w, firstn (Z.to_nat len) ndef ++ [0x90; 0x00]).
Proof.
  intros Hv Hsel Hread new_counter.
  pose proof (handleCounterIncrement_valid w Hv) as [Hk' Hc'].
  assert (Hnew : counter (state (handleCounterIncrement w)) = new_counter).
  { cbn [handleCounterIncrement state counter].
    apply incrementCounter_3; apply Hv. }
  rewrite Hnew in Hc'.
  destruct (ndef_of_ok w new_counter (proj1 Hv) Hc') as [ndef Hndef].
  exists ndef. split; [exact Hnew|]. split; [exact Hndef|].
  rewrite (processAPDU_read_ndef w bytes 0 len Hsel Hread).
  cbv zeta. change (0 =? 0) with true. cbv iota.
  assert (Hgen : generateNDEFData (handleCounterIncrement w) = Ok ndef).
  { unfold generateNDEFData. rewrite Hnew. exact Hndef. }
  rewrite Hgen. rewrite serialize_read_portion by lia.
  rewrite skipn_O. reflexivity.
Qed.



Lemma nth_is_byte (l : list Z) (i : nat) : is_bytes l -> is_byte (nth i l 0).
Proof.
  intro H. destruct (Nat.lt_ge_cases i (length l)) as [Hi | Hi].
  - unfold is_bytes in H. rewrite Forall_forall in H. apply H, nth_In, Hi.
  - rewrite nth_overflow by assumption. unfold is_byte. lia.
Qed.

Lemma reads_at_offset_nonneg (bytes : Uint8Array) (offset len : Z) :
  is_bytes bytes -> reads_at bytes = Some (offset, len) -> 0 <= offset.
Proof.
  intros Hb H. destruct (reads_at_inv bytes offset len H)
    as (command & Hp & Hr & _ & Ho & _).
  unfold getReadOffset in Ho. rewrite Hr in Ho. cbn [negb] in Ho.
  assert (E : Z.lor (Z.shiftl (P1 command) 8) (P2 command) = offset)
    by congruence.
  rewrite <- E. clear E Ho H.
  unfold parseAPDU in Hp.
  assert (HP : is_byte (P1 command) /\ is_byte (P2 command)).
  { destruct (length bytes <? 4)%nat; [discriminate|].
    destruct (Nat.eqb (length bytes) 4);
      [| destruct (Nat.eqb (length bytes) 5);
         [| destruct (length bytes <? 5 + Z.to_nat (byte_at bytes 4))%nat;
            [discriminate|]]];
      injection Hp as <-; cbn [P1 P2]; unfold byte_at;
      split; apply nth_is_byte, Hb. }
  destruct HP as [[H1 _] [H2 _]].
  apply Z.lor_nonneg. split; [apply Z.shiftl_nonneg|]; assumption.
Qed.

(** A READ BINARY at a non-zero offset of the selected NDEF file changes
    nothing and returns a portion of the NDEF for the current counter. *)
Lemma processAPDU_read_ndef_continuation
      (w : World) (bytes : Uint8Array) (offset len : Z) (ndef : Uint8Array) :
  ndef_selected w -> is_bytes bytes ->
  reads_at bytes = Some (offset, len) -> offset <> 0 ->
  generateNDEFData w = Ok ndef ->
  processAPDU w bytes
  = (w, firstn (Z.to_nat len) (skipn (Z.to_nat offset) ndef) ++ [0x90; 0x00]).
Proof.
  intros Hsel Hb Hread Hoff Hgen.
  rewrite (processAPDU_read_ndef w bytes offset len Hsel Hread). cbv zeta.
  destruct (Z.eqb_spec offset 0) as [|_]; [contradiction|].
  rewrite Hgen. rewrite serialize_read_portion; [reflexivity|].
  eapply reads_at_offset_nonneg; eassumption.
Qed.

(** Only a READ BINARY at offset 0 with the NDEF file selected touches the
    counter, the started persistence tasks or the store. *)
Lemma processAPDU_frame (w : World) (bytes : Uint8Array) :
  ~ (ndef_selected w /\ exists len, reads_at bytes = Some (0, len)) ->
  counter (state (fst (processAPDU w bytes))) = counter (state w) /\
  pending (fst (processAPDU w bytes)) = pending w /\
  store (fst (processAPDU w bytes)) = store w.
Proof.
  intro Hnot. unfold processAPDU.
  destruct (parseAPDU bytes) as [command|] eqn:Hp; [|auto].
  destruct (isSelectCommand command) eqn:Hs.
  - unfold handleSelectCommand, Handlers.handleSelect.
    destruct (getSelectAID command); [auto|].
    destruct (getSelectFileID command); [|auto].
    destruct (_ && _); auto.
  - destruct (isReadBinaryCommand command) eqn:Hr; [|auto].
    unfold handleReadCommand, Handlers.handleReadBinary.
    destruct (selectedFileId (state w)) as [fileId|] eqn:Hsel; [|auto].
    destruct (getReadOffset command) as [offset|] eqn:Ho; [|auto].
    destruct (getReadLength command) as [len|] eqn:Hl; [|auto].
    destruct (fileId =? FILE_ID.CC); [auto|].
    destruct (Z.eqb_spec fileId FILE_ID.NDEF) as [-> |]; [|auto].
    destruct (Z.eqb_spec offset 0) as [-> |].
    + exfalso. apply Hnot. split; [exact Hsel|]. exists len.
      unfold reads_at. rewrite Hp, Hr, Ho, Hl. reflexivity.
    + destruct (Handlers.handleReadNDEF offset len generateNDEFData w); auto.
Qed.

End ServiceFacts.

(** ** The NDEF message *)

Module NdefFacts.
Import Session SDMService.

(** The bytes of [buildNDEFMessage]: both length fields are one byte. *)
Lemma buildNDEFMessage_shape (lnurlUrl : string) :
  let rest := uri_rest lnurlUrl in
  let n := Z.of_nat (length rest) in
  buildNDEFMessage lnurlUrl
  = [0x03; (n + 5) mod 256; 0xD1; 0x01; (n + 1) mod 256; 0x55; 0x04]
      ++ rest ++ [0xFE].
Proof.
  cbv zeta. unfold buildNDEFMessage. fold (uri_rest lnurlUrl).
  unfold Utils.concat. cbn [List.concat]. rewrite !app_nil_r.
  cbn [app length]. unfold to_uint8.
  change (NDEF.TLV_NDEF_MESSAGE mod 256) with 0x03.
  change (0xD1 mod 256) with 0xD1.
  change (NDEF.RTD_URI mod 256) with 0x55.
  change (NDEF.URI_PREFIX_HTTPS mod 256) with 0x04.
  change (NDEF.TLV_TERMINATOR mod 256) with 0xFE.
  change (Z.of_nat 1 mod 256) with 0x01.
  replace (Z.of_nat (S (S (S (S (S (length (uri_rest lnurlUrl))))))))
    with (Z.of_nat (length (uri_rest lnurlUrl)) + 5) by lia.
  replace (Z.of_nat (S (length (uri_rest lnurlUrl))))
    with (Z.of_nat (length (uri_rest lnurlUrl)) + 1) by lia.
  reflexivity.
Qed.

Lemma strip_prefix_some (p s r : string) :
  strip_prefix p s = Some r -> s = (p ++ r)%string.
Proof.
  revert s. induction p as [|a p IH]; intros s H.
  - cbn in H. injection H as <-. reflexivity.
  - destruct s as [|b s]; [discriminate|]. cbn [strip_prefix] in H.
    destruct (Ascii.eqb_spec a b) as [-> |]; [|discriminate].
    cbn [append]. f_equal. apply IH, H.
Qed.

Lemma strip_prefix_none (p s : string) :
  (forall r, s <> (p ++ r)%string) -> strip_prefix p s = None.
Proof.
  intro H. destruct (strip_prefix p s) as [r|] eqn:E; [|reflexivity].
  exfalso. apply (H r), strip_prefix_some, E.
Qed.

Lemma uri_rest_https (rest : string) :
  uri_rest ("https://" ++ rest) = SessionKeys.encode rest.
Proof. reflexivity. Qed.

Lemma uri_rest_lnurlw (rest : string) :
  uri_rest ("lnurlw://" ++ rest) = SessionKeys.encode rest.
Proof. reflexivity. Qed.

End NdefFacts.

(** ** The SDM message against the specification's CTR mode *)

Module SdmSpecFacts.
Import Bytes AesModel AesFacts.

Lemma ctr_output_xor_block (d ks : list Z) :
  is_bytes d ->
  ctr_output d ks = xor_block d (map (fun b => Z.land b 255) ks).
Proof.
  intro Hd. revert ks. induction Hd as [|x d Hx _ IH]; intro ks.
  - reflexivity.
  - destruct ks as [|k ks]; [reflexivity|].
    unfold ctr_output, xor_block in *. cbn [combine map fst snd].
    f_equal; [|apply IH].
    rewrite land_lxor_distr, (land_255_byte x Hx). reflexivity.
Qed.

Lemma xor_block_firstn (d ks : list Z) :
  xor_block d (firstn (length d) ks) = xor_block d ks.
Proof.
  unfold xor_block. rewrite <- combine_firstn_l. reflexivity.
Qed.

Lemma xor_block_twice (d ks : list Z) :
  (length d <= length ks)%nat -> xor_block (xor_block d ks) ks = d.
Proof.
  revert ks. induction d as [|x d IH]; intros ks H.
  - reflexivity.
  - destruct ks as [|k ks]; [simpl in H; lia|].
    unfold xor_block in *. cbn [combine map fst snd].
    rewrite Z.lxor_assoc, Z.lxor_nilpotent, Z.lxor_0_r. f_equal.
    apply IH. simpl in H. lia.
Qed.

(** On at most one block and under the all-zero IV, [aesEncryptCTR] is the
    CTR encryption of the specification over the block cipher of the
    key. *)
Lemma aesEncryptCTR_one_block (key data : list Z) :
  length key = 16%nat -> is_bytes key ->
  (length data <= 16)%nat -> is_bytes data ->
  Aes.aesEncryptCTR key (zeros 16) data
  = Ok (SP800_38A.encrypt (aes_block key) (zeros 16) data).
Proof.
  intros Hk Bk Hl Bd.
  rewrite aesEncryptCTR_ok;
    [| assumption | apply length_zeros | assumption | apply is_bytes_zeros
     | assumption ].
  f_equal. rewrite ctr_output_xor_block by assumption.
  unfold SP800_38A.encrypt, SP800_38A.key_stream.
  rewrite xor_block_firstn. f_equal.
  unfold CryptoJS.nBlocksReady, keystream.
  destruct ((length data + 15) / 16)%nat as [|[|n]] eqn:E.
  - reflexivity.
  - cbn [seq flat_map SP800_38A.output_blocks]. rewrite !app_nil_r.
    reflexivity.
  - exfalso.
    assert (H : (length data + 15 < 16 * 2)%nat) by lia.
    apply Nat.Div0.div_lt_upper_bound in H. lia.
Qed.

Lemma length_output_blocks (key T : list Z) (n : nat) :
  length (SP800_38A.output_blocks (aes_block key) T n) = (16 * n)%nat.
Proof.
  revert T. induction n as [|n IH]; intro T; [reflexivity|].
  cbn [SP800_38A.output_blocks]. rewrite length_app, length_aes_block, IH.
  lia.
Qed.

Lemma length_key_stream (key IV : list Z) (len : nat) :
  length (SP800_38A.key_stream (aes_block key) IV len) = len.
Proof.
  unfold SP800_38A.key_stream. rewrite length_firstn, length_output_blocks.
  pose proof (nBlocksReady_covers len) as H. unfold CryptoJS.nBlocksReady in H.
  lia.
Qed.

(** Decryption in the CTR mode of the specification undoes encryption. *)
Lemma decrypt_encrypt (key IV P : list Z) :
  SP800_38A.decrypt (aes_block key) IV
    (SP800_38A.encrypt (aes_block key) IV P) = P.
Proof.
  unfold SP800_38A.decrypt, SP800_38A.encrypt.
  assert (L : length (xor_block P
                        (SP800_38A.key_stream (aes_block key) IV (length P)))
              = length P).
  { unfold xor_block. rewrite length_map, length_combine, length_key_stream.
    lia. }
  rewrite L. apply xor_block_twice. rewrite length_key_stream. lia.
Qed.

(** What [generateSDM] returns, against the CTR mode and the CMAC of the
    specification. *)
Lemma generateSDM_spec (uid counter K1 K2 ignored : list Z) :
  length uid = 7%nat -> length counter = 3%nat ->
  length K1 = 16%nat -> length K2 = 16%nat ->
  is_bytes uid -> is_bytes counter -> is_bytes K1 -> is_bytes K2 ->
  exists keys tag,
    SessionKeys.deriveSDMSessionKeys K1 K2 None = Ok keys /\
    length (SessionKeys.KSesSDMFileEnc keys) = 16%nat /\
    is_bytes (SessionKeys.KSesSDMFileEnc keys) /\
    Cmac.cmac (SessionKeys.KSesSDMFileReadMAC keys) (uid ++ counter)
      = Ok tag /\
    length tag = 16%nat /\ is_bytes tag /\
    let E := SP800_38A.encrypt
               (aes_block (SessionKeys.KSesSDMFileEnc keys)) (zeros 16)
               (uid ++ counter) in
    length E = 10%nat /\ is_bytes E /\
    Aes.aesDecryptCTR (SessionKeys.KSesSDMFileEnc keys) (zeros 16) E
      = Ok (uid ++ counter) /\
    SDMService.generateSDM
      {| SDMService.uid := uid; SDMService.counter := counter;
         SDMService.encKey := K1; SDMService.macKey := K2;
         SDMService.cfg_piccData := ignored |}
    = Ok {| SDMService.encPiccData := Utils.bytesToHex E;
            SDMService.cmac := Utils.bytesToHex (firstn 8 tag);
            SDMService.piccData := uid ++ counter |}.
Proof.
  intros Hu Hc H1 H2 Bu Bc B1 B2.
  destruct (SdmFacts.deriveSDMSessionKeys_ok K1 K2 None H1 H2
              (repeat_length 0 16) B1 B2 (is_bytes_zeros 16))
    as (ke & km & Hkeys & _ & _ & Hle & Hbe & _ & _).
  destruct (SdmFacts.generateSDM_ok
              {| SDMService.uid := uid; SDMService.counter := counter;
                 SDMService.encKey := K1; SDMService.macKey := K2;
                 SDMService.cfg_piccData := ignored |})
    as (keys & enc & full & Hk & Henc & Hlen & Benc & Hback & Hfull
        & Hlf & Bf & Hgen);
    cbn [SDMService.uid SDMService.counter SDMService.encKey
         SDMService.macKey]; try assumption.
  { rewrite length_app. lia. }
  { apply is_bytes_app; assumption. }
  cbn [SDMService.uid SDMService.counter SDMService.encKey
       SDMService.macKey] in Hk, Henc, Hback, Hfull, Hgen.
  assert (Ek : keys = {| SessionKeys.KSesSDMFileReadMAC := km;
                         SessionKeys.KSesSDMFileEnc := ke |})
    by congruence.
  subst keys. cbn [SessionKeys.KSesSDMFileEnc SessionKeys.KSesSDMFileReadMAC]
    in Henc, Hback, Hfull.
  rewrite aesEncryptCTR_one_block in Henc;
    [| assumption | assumption | rewrite length_app; lia
     | apply is_bytes_app; assumption ].
  assert (Ee : enc = SP800_38A.encrypt (aes_block ke) (zeros 16)
                       (uid ++ counter)) by congruence.
  subst enc.
  eexists. exists full. split; [exact Hkeys|].
  cbn [SessionKeys.KSesSDMFileEnc SessionKeys.KSesSDMFileReadMAC].
  split; [exact Hle|]. split; [exact Hbe|]. split; [exact Hfull|].
  split; [exact Hlf|]. split; [exact Bf|]. cbv zeta.
  split; [exact Hlen|]. split; [exact Benc|]. split; [exact Hback|].
  exact Hgen.
Qed.

End SdmSpecFacts.

(** ** Where the NDEF message carries the SDM parameters *)

Module EmbedFacts.
Import Session SDMService.

Lemma append_assoc (a b c : string) :
  ((a ++ b) ++ c)%string = (a ++ (b ++ c))%string.
Proof. induction a as [|x a IH]; simpl; [reflexivity | now rewrite IH]. Qed.











End EmbedFacts.

(* ===================================================================== *)
(** * The claims *)

(** C6.  AES-CTR encryption is its own inverse: for a 16-byte key, a 16-byte
    IV and data of any length, [aesEncryptCTR] succeeds, its output has
    exactly the length of the input, and encrypting the output again with
    the same key and IV gives the input back. *)
Theorem C6_ctr_self_inverse (key iv data : Uint8Array) :
  length key = 16%nat -> length iv = 16%nat ->
  is_bytes key -> is_bytes iv -> is_bytes data ->
  exists c,
    Aes.aesEncryptCTR key iv data = Ok c /\
    length c = length data /\
    Aes.aesEncryptCTR key iv c = Ok data.
Proof.
  intros Hk Hi Bk Bi Bd.
  destruct (AesFacts.aesEncryptCTR_roundtrip key iv data Hk Hi Bk Bi Bd)
    as (c & Hc & Hlen & _ & Hback).
  exists c. repeat split; assumption.
Qed.

Lemma C6_ctr_self_inverse_witness :
  exists c,
    Aes.aesEncryptCTR (hx "2B7E151628AED2A6ABF7158809CF4F3C") (zeros 16)
                      (hx "04AABBCCDDEEFF000001") = Ok c /\
    length c = 10%nat /\
    Aes.aesEncryptCTR (hx "2B7E151628AED2A6ABF7158809CF4F3C") (zeros 16) c
    = Ok (hx "04AABBCCDDEEFF000001").
Proof.
  apply (C6_ctr_self_inverse (hx "2B7E151628AED2A6ABF7158809CF4F3C")
           (zeros 16) (hx "04AABBCCDDEEFF000001"));
    try reflexivity; apply is_bytesb_sound; reflexivity.
Defined.

(** C4.  [cmac] is CMAC of NIST SP 800-38B: with [L] the encryption of the
    zero block, [generateCMACSubkeys] returns [K1 = L << 1], XORed with
    [R_b = 0x87] when the top bit of [L] is set, and [K2] likewise from
    [K1]; the tag is the CBC chain from the zero block over the 16-byte
    blocks of the message, whose last block is XORed with [K1] when it is
    full and padded with [0x80 00 ... 00] and XORed with [K2] when it is
    short or the message is empty.  For the key
    [2B7E151628AED2A6ABF7158809CF4F3C] the empty message has tag
    [BB1D6929E95937287FA37D129B756746] and the message
    [6BC1BEE22E409F96E93D7E117393172A] has tag
    [070A16B46B4D4144F79BDD9DD04A287C]. *)
Theorem C4_cmac_nist_sp800_38b :
  (forall key message : Uint8Array,
      length key = 16%nat -> is_bytes key -> is_bytes message ->
      let E := AesModel.aes_block key in
      exists K1 K2,
        (forall block, length block = 16%nat -> is_bytes block ->
                       Aes.aesEncryptBlock key block = Ok (E block)) /\
        Aes.generateCMACSubkeys key = Ok (K1, K2) /\
        length K1 = 16%nat /\ length K2 = 16%nat /\
        Bytes.be_value K1
          = NIST.next_subkey (Bytes.be_value (E (zeros 16))) /\
        Bytes.be_value K2 = NIST.next_subkey (Bytes.be_value K1) /\
        Cmac.cmac key message = Ok (NIST.tag E K1 K2 message)) /\
  Cmac.cmac (hx "2B7E151628AED2A6ABF7158809CF4F3C") []
    = Ok (hx "BB1D6929E95937287FA37D129B756746") /\
  Cmac.cmac (hx "2B7E151628AED2A6ABF7158809CF4F3C")
            (hx "6BC1BEE22E409F96E93D7E117393172A")
    = Ok (hx "070A16B46B4D4144F79BDD9DD04A287C").
Proof.
  split; [| split; vm_compute; reflexivity].
  intros key message Hk Bk Bm E.
  pose proof (AesFacts.length_aes_block key (zeros 16)) as HL.
  pose proof (AesFacts.is_bytes_aes_block key (zeros 16)) as BL.
  destruct (CmacFacts.subkey_step_wf _ HL BL) as [HK1 BK1].
  destruct (CmacFacts.subkey_step_wf _ HK1 BK1) as [HK2 BK2].
  exists (CmacModel.subkey_step (E (zeros 16))),
         (CmacModel.subkey_step (CmacModel.subkey_step (E (zeros 16)))).
  repeat split.
  - intros block Hb Bb. apply AesFacts.aesEncryptBlock_ok; assumption.
  - apply CmacFacts.generateCMACSubkeys_ok; assumption.
  - exact HK1.
  - exact HK2.
  - apply CmacFacts.be_value_subkey_step; assumption.
  - apply CmacFacts.be_value_subkey_step; assumption.
  - apply CmacFacts.cmac_tag; assumption.
Qed.

Lemma C4_cmac_nist_sp800_38b_witness :
  let key := hx "2B7E151628AED2A6ABF7158809CF4F3C" in
  let message := hx "6BC1BEE22E409F96E93D7E117393172AAE2D8A571E03AC9C" in
  let E := AesModel.aes_block key in
  exists K1 K2,
    (forall block, length block = 16%nat -> is_bytes block ->
                   Aes.aesEncryptBlock key block = Ok (E block)) /\
    Aes.generateCMACSubkeys key = Ok (K1, K2) /\
    length K1 = 16%nat /\ length K2 = 16%nat /\
    Bytes.be_value K1
      = NIST.next_subkey (Bytes.be_value (E (zeros 16))) /\
    Bytes.be_value K2 = NIST.next_subkey (Bytes.be_value K1) /\
    Cmac.cmac key message = Ok (NIST.tag E K1 K2 message).
Proof.
  intros key message.
  apply (proj1 C4_cmac_nist_sp800_38b key message);
    try reflexivity; apply is_bytesb_sound; reflexivity.
Defined.




(** C1.  For a 7-byte UID, a 3-byte counter and 16-byte keys K1 and K2,
    [generateSDM] returns a message whose [encPiccData] is the encryption
    of UID || Counter in the CTR mode of the specification ([SP800_38A])
    under K_SesEnc with an all-zero IV, that is UID || Counter XORed with
    the first 10 bytes of the encrypted zero block; so it decrypts in that
    mode, and also with [aesDecryptCTR], to UID || Counter (10 bytes).  Its
    [cmac] is the leftmost 8 bytes of the CMAC under K_SesMac of the
    plaintext UID || Counter.  For the UID 04AABBCCDDEEFF, the counter
    000001 and all-zero keys the two parameters are the ones that an
    independent AES-128 implementation gives for these formulas. *)
Theorem C1_sdm_message :
  (forall uid counter K1 K2 ignored : Uint8Array,
  length uid = 7%nat -> length counter = 3%nat ->
  length K1 = 16%nat -> length K2 = 16%nat ->
  is_bytes uid -> is_bytes counter -> is_bytes K1 -> is_bytes K2 ->
  exists keys msg EncPICCData SDM_MAC tag,
    SessionKeys.deriveSDMSessionKeys K1 K2 None = Ok keys /\
    SDMService.generateSDM
      {| SDMService.uid := uid; SDMService.counter := counter;
         SDMService.encKey := K1; SDMService.macKey := K2;
         SDMService.cfg_piccData := ignored |} = Ok msg /\
    Utils.hexToBytes (SDMService.encPiccData msg) = Ok EncPICCData /\
    length EncPICCData = 10%nat /\
    let CIPH := AesModel.aes_block (SessionKeys.KSesSDMFileEnc keys) in
    (forall block, length block = 16%nat -> is_bytes block ->
       Aes.aesEncryptBlock (SessionKeys.KSesSDMFileEnc keys) block
       = Ok (CIPH block)) /\
    EncPICCData = SP800_38A.encrypt CIPH (zeros 16) (uid ++ counter) /\
    SP800_38A.decrypt CIPH (zeros 16) EncPICCData = uid ++ counter /\
    EncPICCData
    = Bytes.xor_block (uid ++ counter) (firstn 10 (CIPH (zeros 16))) /\
    Aes.aesDecryptCTR (SessionKeys.KSesSDMFileEnc keys) (zeros 16) EncPICCData
      = Ok (uid ++ counter) /\
    Utils.hexToBytes (SDMService.cmac msg) = Ok SDM_MAC /\
    Cmac.cmac (SessionKeys.KSesSDMFileReadMAC keys) (uid ++ counter) = Ok tag /\
    SDM_MAC = firstn 8 tag /\ length SDM_MAC = 8%nat) /\
  SDMService.generateSDM
    {| SDMService.uid := hx "04AABBCCDDEEFF";
       SDMService.counter := hx "000001";
       SDMService.encKey := zeros 16; SDMService.macKey := zeros 16;
       SDMService.cfg_piccData := [] |}
  = Ok {| SDMService.encPiccData := "3A93F1694D624AE2B5BA";
          SDMService.cmac := "6556B47DBA16558A";
          SDMService.piccData := hx "04AABBCCDDEEFF000001" |}.
Proof.
  split; [| vm_compute; reflexivity].
  intros uid counter K1 K2 ignored Hu Hc H1 H2 Bu Bc B1 B2.
  destruct (SdmSpecFacts.generateSDM_spec uid counter K1 K2 ignored
              Hu Hc H1 H2 Bu Bc B1 B2)
    as (keys & tag & Hkeys & Hle & Hbe & Htag & Hlt & Bt & HE).
  cbv zeta in HE. destruct HE as (Hlen & Benc & Hback & Hgen).
  exists keys. eexists.
  exists (SP800_38A.encrypt
            (AesModel.aes_block (SessionKeys.KSesSDMFileEnc keys))
            (zeros 16) (uid ++ counter)), (firstn 8 tag), tag.
  split; [exact Hkeys|]. split; [exact Hgen|].
  cbn [SDMService.encPiccData SDMService.cmac].
  split; [apply HexFacts.hexToBytes_bytesToHex, Benc|].
  split; [exact Hlen|]. cbv zeta.
  split; [intros block Hb Bb; apply AesFacts.aesEncryptBlock_ok; assumption|].
  split; [reflexivity|].
  split; [apply SdmSpecFacts.decrypt_encrypt|].
  split.
  { unfold SP800_38A.encrypt, SP800_38A.key_stream.
    rewrite length_app, Hu, Hc. cbn [Nat.add Nat.div Nat.divmod fst].
    cbn [SP800_38A.output_blocks]. rewrite app_nil_r. reflexivity. }
  split; [exact Hback|].
  split; [apply HexFacts.hexToBytes_bytesToHex, is_bytes_firstn, Bt|].
  split; [exact Htag|]. split; [reflexivity|].
  rewrite length_firstn. lia.
Qed.

Lemma C1_sdm_message_witness :
  exists keys msg EncPICCData SDM_MAC tag,
    SessionKeys.deriveSDMSessionKeys (zeros 16) (zeros 16) None = Ok keys /\
    SDMService.generateSDM
      {| SDMService.uid := hx "04AABBCCDDEEFF";
         SDMService.counter := hx "000001";
         SDMService.encKey := zeros 16; SDMService.macKey := zeros 16;
         SDMService.cfg_piccData := [] |} = Ok msg /\
    Utils.hexToBytes (SDMService.encPiccData msg) = Ok EncPICCData /\
    length EncPICCData = 10%nat /\
    let CIPH := AesModel.aes_block (SessionKeys.KSesSDMFileEnc keys) in
    (forall block, length block = 16%nat -> is_bytes block ->
       Aes.aesEncryptBlock (SessionKeys.KSesSDMFileEnc keys) block
       = Ok (CIPH block)) /\
    EncPICCData
    = SP800_38A.encrypt CIPH (zeros 16)
        (hx "04AABBCCDDEEFF" ++ hx "000001") /\
    SP800_38A.decrypt CIPH (zeros 16) EncPICCData
    = hx "04AABBCCDDEEFF" ++ hx "000001" /\
    EncPICCData
    = Bytes.xor_block (hx "04AABBCCDDEEFF" ++ hx "000001")
        (firstn 10 (CIPH (zeros 16))) /\
    Aes.aesDecryptCTR (SessionKeys.KSesSDMFileEnc keys) (zeros 16) EncPICCData
      = Ok (hx "04AABBCCDDEEFF" ++ hx "000001") /\
    Utils.hexToBytes (SDMService.cmac msg) = Ok SDM_MAC /\
    Cmac.cmac (SessionKeys.KSesSDMFileReadMAC keys)
              (hx "04AABBCCDDEEFF" ++ hx "000001") = Ok tag /\
    SDM_MAC = firstn 8 tag /\ length SDM_MAC = 8%nat.
Proof.
  apply (proj1 C1_sdm_message (hx "04AABBCCDDEEFF") (hx "000001")
           (zeros 16) (zeros 16) []);
    try reflexivity; apply is_bytesb_sound; reflexivity.
Defined.




(** C3, as stated, fails: in scenario 2 (counter 000000, READ BINARY
    [00 B0 00 00 FF]) the response returned is the NDEF for counter 000001
    with status 9000 while the store still holds 0; when the persistence
    that was started then fails, the store keeps 0 and the reader has
    already received the ciphertext, not 6F00. *)
Lemma C3_counterexample :
  let w := scenario_world 0 in
  let w' := fst (NTAG424Service.processAPDU w READ_BINARY_0_FF) in
  let response := snd (NTAG424Service.processAPDU w READ_BINARY_0_FF) in
  NTAG424Service.counter (NTAG424Service.state w') = hx "000001" /\
  StorageService.getCounter true (NTAG424Service.store w') = 0 /\
  (exists ndef,
      SDMService.generateNDEFWithSDM (hx "04AABBCCDDEEFF") (hx "000001")
        (zeros 16) (zeros 16) "https://card.example/scan" "abc" = Ok ndef /\
      response = ndef ++ [0x90; 0x00]) /\
  is_ok (StorageService.incrementCounter save_fails (NTAG424Service.store w'))
    = false /\
  StorageService.getCounter true
    (NTAG424Service.store (NTAG424Service.run_pending save_fails w')) = 0 /\
  response <> [0x6F; 0x00].
Proof.
  cbv zeta. split; [vm_compute; reflexivity|].
  split; [vm_compute; reflexivity|].
  split; [eexists; split; vm_compute; reflexivity|].
  split; [vm_compute; reflexivity|].
  split; [vm_compute; reflexivity|].
  vm_compute. discriminate.
Qed.

(** C3, amended.  On a READ BINARY at offset 0 of the selected NDEF file
    the counter in memory is incremented modulo 2^24 and the persistence of
    the increment is started, not awaited: the response, the requested part
    of the NDEF for the incremented counter followed by 9000, is returned
    with the store unchanged and one more persistence task pending.  When
    the task later runs, the state in memory is not touched; if saving
    fails the store keeps its old content, and if it succeeds the stored
    counter is the previously stored one plus 1. *)
Theorem C3_persistence_not_awaited
        (w : NTAG424Service.World) (bytes : Uint8Array) (len : Z) :
  Session.valid_world w -> Session.ndef_selected w ->
  Session.reads_at bytes = Some (0, len) ->
  let w' := fst (NTAG424Service.processAPDU w bytes) in
  let response := snd (NTAG424Service.processAPDU w bytes) in
  Bytes.be_value (NTAG424Service.counter (NTAG424Service.state w'))
  = (Bytes.be_value (NTAG424Service.counter (NTAG424Service.state w)) + 1)
      mod 2 ^ 24 /\
  (exists ndef,
      Session.ndef_of w
        (NTAG424Service.counter (NTAG424Service.state w')) = Ok ndef /\
      response = firstn (Z.to_nat len) ndef ++ [0x90; 0x00]) /\
  NTAG424Service.store w' = NTAG424Service.store w /\
  NTAG424Service.pending w' = S (NTAG424Service.pending w) /\
  forall o : StorageService.Outcome,
    let w'' := NTAG424Service.run_pending o w' in
    NTAG424Service.state w'' = NTAG424Service.state w' /\
    NTAG424Service.pending w'' = NTAG424Service.pending w /\
    (StorageService.save_ok o = false ->
     NTAG424Service.store w'' = NTAG424Service.store w) /\
    (StorageService.save_ok o = true ->
     exists config,
       NTAG424Service.store w'' = Some config /\
       StorageService.counter config
       = StorageService.counter_or_zero
           (StorageService.loadConfig (StorageService.load_ok o)
              (NTAG424Service.store w)) + 1).
Proof.
  intros Hv Hsel Hread. cbv zeta. change (2 ^ 24) with 16777216.
  destruct (ServiceFacts.processAPDU_read_ndef_0 w bytes len Hv Hsel Hread)
    as (ndef & Hnew & Hndef & Hstep).
  rewrite Hstep. cbn [fst snd]. rewrite Hnew.
  pose proof (Z.mod_pos_bound
                (Bytes.be_value
                   (NTAG424Service.counter (NTAG424Service.state w)) + 1)
                16777216 ltac:(lia)) as B.
  split; [apply CounterFacts.numberToBytes_3_wf, B|].
  split; [exists ndef; split; [exact Hndef | reflexivity]|].
  split; [reflexivity|]. split; [reflexivity|].
  intro o. unfold NTAG424Service.run_pending.
  cbn [NTAG424Service.handleCounterIncrement NTAG424Service.pending
       NTAG424Service.store NTAG424Service.state].
  split; [reflexivity|]. split; [reflexivity|].
  unfold StorageService.incrementCounter, StorageService.updateConfig,
    StorageService.saveConfig.
  split; intro Hs; rewrite Hs; cbn [bind fst].
  - reflexivity.
  - eexists. split; reflexivity.
Qed.

Lemma C3_persistence_not_awaited_witness :
  let w := scenario_world 0 in
  let bytes := READ_BINARY_0_FF in
  let len := 255 in
  let w' := fst (NTAG424Service.processAPDU w bytes) in
  let response := snd (NTAG424Service.processAPDU w bytes) in
  Bytes.be_value (NTAG424Service.counter (NTAG424Service.state w'))
  = (Bytes.be_value (NTAG424Service.counter (NTAG424Service.state w)) + 1)
      mod 2 ^ 24 /\
  (exists ndef,
      Session.ndef_of w
        (NTAG424Service.counter (NTAG424Service.state w')) = Ok ndef /\
      response = firstn (Z.to_nat len) ndef ++ [0x90; 0x00]) /\
  NTAG424Service.store w' = NTAG424Service.store w /\
  NTAG424Service.pending w' = S (NTAG424Service.pending w) /\
  forall o : StorageService.Outcome,
    let w'' := NTAG424Service.run_pending o w' in
    NTAG424Service.state w'' = NTAG424Service.state w' /\
    NTAG424Service.pending w'' = NTAG424Service.pending w /\
    (StorageService.save_ok o = false ->
     NTAG424Service.store w'' = NTAG424Service.store w) /\
    (StorageService.save_ok o = true ->
     exists config,
       NTAG424Service.store w'' = Some config /\
       StorageService.counter config
       = StorageService.counter_or_zero
           (StorageService.loadConfig (StorageService.load_ok o)
              (NTAG424Service.store w)) + 1).
Proof.
  intros w bytes len.
  apply (C3_persistence_not_awaited w bytes len).
  - repeat split; try reflexivity; apply is_bytesb_sound; reflexivity.
  - reflexivity.
  - reflexivity.
Defined.

(** C7, on the code.  Starting from FFFFFE in memory and in the store, the
    first read embeds FFFFFF and the second 000000; the store, once the two
    persistence tasks have run, holds 16777215 and then 16777216: the
    persisted counter does not wrap. *)
Theorem C7_persisted_counter_does_not_wrap :
  let w0 := scenario_world 0xFFFFFE in
  let w1 := NTAG424Service.run_pending StorageService.all_ok
              (fst (NTAG424Service.processAPDU w0 READ_BINARY_0_FF)) in
  let w2 := NTAG424Service.run_pending StorageService.all_ok
              (fst (NTAG424Service.processAPDU w1 READ_BINARY_0_FF)) in
  NTAG424Service.counter (NTAG424Service.state w1) = hx "FFFFFF" /\
  NTAG424Service.counter (NTAG424Service.state w2) = hx "000000" /\
  StorageService.getCounter true (NTAG424Service.store w1) = 0xFFFFFF /\
  StorageService.getCounter true (NTAG424Service.store w2) = 0x1000000 /\
  StorageService.getCounter true (NTAG424Service.store w2) <> 0.
Proof.
  cbv zeta. repeat split; try (vm_compute; reflexivity).
  vm_compute. discriminate.
Qed.

(** C8, on the code.  [buildNDEFMessage] has no branch for the identifier
    code 0x00.  For [http://a], which does not begin with [https://], the
    identifier byte is 0x04 and the rest is the whole URL, so the record is
    the one of [https://http://a].  For [lnurlw://a], which does not begin
    with [https://] either, the builder rewrites the scheme: the identifier
    byte is 0x04 and the rest is [a], not the whole URL. *)
Lemma C8_counterexample :
  SDMService.strip_prefix "https://" "http://a" = None /\
  SDMService.buildNDEFMessage "http://a"
  = [0x03; 13; 0xD1; 0x01; 9; 0x55; 0x04]
      ++ SessionKeys.encode "http://a" ++ [0xFE] /\
  nth 6 (SDMService.buildNDEFMessage "http://a") 0 <> 0x00 /\
  SDMService.buildNDEFMessage "http://a"
  = SDMService.buildNDEFMessage "https://http://a" /\
  SDMService.strip_prefix "https://" "lnurlw://a" = None /\
  SDMService.buildNDEFMessage "lnurlw://a"
  = [0x03; 6; 0xD1; 0x01; 2; 0x55; 0x04]
      ++ SessionKeys.encode "a" ++ [0xFE].
Proof.
  split; [reflexivity|]. split; [reflexivity|].
  split; [vm_compute; discriminate|].
  split; [reflexivity|]. split; reflexivity.
Qed.

(** C8, what the code does.  The URI identifier byte of the record is 0x04
    for every URL.  If the URL begins with [https://], or with
    [lnurlw://], which the builder first rewrites to [https://], the rest
    of the payload is the URL with that prefix removed.  For every other
    URL the rest is the whole URL, under the identifier 0x04 all the same:
    the record is the one of [https://] followed by that URL. *)
Theorem C8_uri_identifier_always_https (url : string) :
  let message (rest : string) :=
    let payload := SessionKeys.encode rest in
    let n := Z.of_nat (length payload) in
    [0x03; (n + 5) mod 256; 0xD1; 0x01; (n + 1) mod 256; 0x55; 0x04]
      ++ payload ++ [0xFE] in
  nth 6 (SDMService.buildNDEFMessage url) 0 = 0x04 /\
  (forall rest, url = ("https://" ++ rest)%string ->
                SDMService.buildNDEFMessage url = message rest) /\
  (forall rest, url = ("lnurlw://" ++ rest)%string ->
                SDMService.buildNDEFMessage url = message rest) /\
  ((forall rest, url <> ("https://" ++ rest)%string) ->
   (forall rest, url <> ("lnurlw://" ++ rest)%string) ->
   SDMService.buildNDEFMessage url = message url /\
   SDMService.buildNDEFMessage url
   = SDMService.buildNDEFMessage ("https://" ++ url)).
Proof.
  cbv zeta. split; [| split; [| split]].
  - rewrite NdefFacts.buildNDEFMessage_shape. reflexivity.
  - intros rest ->. rewrite NdefFacts.buildNDEFMessage_shape. cbv zeta.
    rewrite NdefFacts.uri_rest_https. reflexivity.
  - intros rest ->. rewrite NdefFacts.buildNDEFMessage_shape. cbv zeta.
    rewrite NdefFacts.uri_rest_lnurlw. reflexivity.
  - intros Hh Hl.
    assert (E : Session.uri_rest url = SessionKeys.encode url).
    { unfold Session.uri_rest, SDMService.replace_prefix.
      rewrite (NdefFacts.strip_prefix_none "lnurlw://" url Hl).
      rewrite (NdefFacts.strip_prefix_none "https://" url Hh).
      reflexivity. }
    rewrite !NdefFacts.buildNDEFMessage_shape. cbv zeta.
    rewrite NdefFacts.uri_rest_https, E. split; reflexivity.
Qed.

Lemma C8_uri_identifier_always_https_witness :
  SDMService.buildNDEFMessage "http://a"
  = [0x03; (Z.of_nat (length (SessionKeys.encode "http://a")) + 5) mod 256;
     0xD1; 0x01;
     (Z.of_nat (length (SessionKeys.encode "http://a")) + 1) mod 256;
     0x55; 0x04] ++ SessionKeys.encode "http://a" ++ [0xFE] /\
  SDMService.buildNDEFMessage "http://a"
  = SDMService.buildNDEFMessage ("https://" ++ "http://a").
Proof.
  apply (proj2 (proj2 (proj2 (C8_uri_identifier_always_https "http://a")))).
  - intros rest H. simpl in H. discriminate H.
  - intros rest H. simpl in H. discriminate H.
Defined.

(** C9, on the code.  With a 300-character [cardId] the builder does not
    fail and does not shorten the [cardId]; it returns 368 bytes, the tag
    0x03, one TLV length byte, a record of 365 bytes and the terminator
    0xFE, and the TLV length byte is 109; the payload length byte is 105
    for a payload of 361 bytes.  With a 190-character [cardId] the record
    has 255 bytes and the TLV length byte is 0xFF, the byte that announces
    the 3-byte length form. *)
Lemma C9_counterexample :
  match SDMService.generateNDEFWithSDM (hx "04AABBCCDDEEFF") (hx "000000")
          (zeros 16) (zeros 16) "https://card.example/scan" long_cardId with
  | Ok out =>
      length out = 368%nat /\
      firstn 7 out = [0x03; 109; 0xD1; 0x01; 105; 0x55; 0x04] /\
      firstn 300 (skipn 25 out) = SessionKeys.encode long_cardId /\
      nth 367 out 0 = 0xFE /\
      nth 1 out 0 <> Z.of_nat (length out - 3) /\
      nth 4 out 0 <> Z.of_nat (length out - 7)
  | Throw _ => False
  end /\
  match SDMService.generateNDEFWithSDM (hx "04AABBCCDDEEFF") (hx "000000")
          (zeros 16) (zeros 16) "https://card.example/scan" cardId_190 with
  | Ok out =>
      length out = 258%nat /\
      firstn 7 out = [0x03; 0xFF; 0xD1; 0x01; 0xFB; 0x55; 0x04] /\
      firstn 190 (skipn 25 out) = SessionKeys.encode cardId_190 /\
      nth 257 out 0 = 0xFE
  | Throw _ => False
  end.
Proof.
  split.
  - vm_compute. repeat split; try reflexivity; discriminate.
  - vm_compute. repeat split; reflexivity.
Qed.

(** C9, what the code does.  [generateNDEFWithSDM] has no size check: for a
    7-byte UID, a 3-byte counter and 16-byte keys it never fails and never
    shortens the [cardId], whatever the length of the URL.  The TLV length
    byte and the payload length byte are the length of the record and of
    the payload modulo 256.  So they are right while the record has at most
    254 bytes; for a record of 255 bytes the TLV length byte is 0xFF, which
    announces the 3-byte form; and from 256 bytes on a length byte is not
    the length it stands for. *)
Theorem C9_ndef_length_bytes_unchecked
        (uid counter K1 K2 : Uint8Array) (lnurlBase cardId : string) :
  length uid = 7%nat -> is_bytes uid ->
  length counter = 3%nat -> is_bytes counter ->
  length K1 = 16%nat -> is_bytes K1 -> length K2 = 16%nat -> is_bytes K2 ->
  exists msg tlv_length payload_length,
    SDMService.generateSDM
      {| SDMService.uid := uid; SDMService.counter := counter;
         SDMService.encKey := K1; SDMService.macKey := K2;
         SDMService.cfg_piccData := Utils.concat [uid; counter] |} = Ok msg /\
    SDMService.buildLNURL lnurlBase cardId msg
    = (SdmUri.path lnurlBase cardId
       ++ "?p=" ++ SDMService.encPiccData msg
       ++ "&c=" ++ SDMService.cmac msg)%string /\
    let rest :=
      Session.uri_rest (SDMService.buildLNURL lnurlBase cardId msg) in
    let payload := [0x04] ++ rest in
    let record := [0xD1; 0x01; payload_length; 0x55] ++ payload in
    SDMService.generateNDEFWithSDM uid counter K1 K2 lnurlBase cardId
    = Ok ([0x03; tlv_length] ++ record ++ [0xFE]) /\
    tlv_length = Z.of_nat (length record) mod 256 /\
    payload_length = Z.of_nat (length payload) mod 256 /\
    ((length record <= 254)%nat ->
     tlv_length = Z.of_nat (length record) /\
     payload_length = Z.of_nat (length payload)) /\
    (length record = 255%nat -> tlv_length = 0xFF) /\
    ((256 <= length record)%nat ->
     tlv_length <> Z.of_nat (length record)) /\
    ((256 <= length payload)%nat ->
     payload_length <> Z.of_nat (length payload)).
Proof.
  intros Hu Bu Hc Bc H1 B1 H2 B2.
  destruct (ServiceFacts.generateNDEF_ok uid counter K1 K2 lnurlBase cardId)
    as (msg & Hmsg & _ & _ & _ & Hgen); try assumption.
  { split; assumption. }
  set (rest := Session.uri_rest (SDMService.buildLNURL lnurlBase cardId msg)).
  exists msg, ((Z.of_nat (length rest) + 5) mod 256),
    ((Z.of_nat (length rest) + 1) mod 256).
  split; [exact Hmsg|].
  split.
  { unfold SDMService.buildLNURL, SdmUri.path.
    rewrite EmbedFacts.append_assoc. reflexivity. }
  cbv zeta. fold rest.
  split; [rewrite Hgen, NdefFacts.buildNDEFMessage_shape; reflexivity|].
  cbn [app length].
  split; [f_equal; lia|]. split; [f_equal; lia|].
  split; [intro Hle; split; rewrite Z.mod_small; lia|].
  split.
  { intro H255.
    replace (Z.of_nat (length rest) + 5) with 255 by lia. reflexivity. }
  pose proof (Z.mod_pos_bound (Z.of_nat (length rest) + 5) 256 ltac:(lia)).
  pose proof (Z.mod_pos_bound (Z.of_nat (length rest) + 1) 256 ltac:(lia)).
  split; intro H256; lia.
Qed.

Lemma C9_ndef_length_bytes_unchecked_witness :
  exists msg tlv_length payload_length,
    SDMService.generateSDM
      {| SDMService.uid := hx "04AABBCCDDEEFF";
         SDMService.counter := hx "000000";
         SDMService.encKey := zeros 16; SDMService.macKey := zeros 16;
         SDMService.cfg_piccData :=
           Utils.concat [hx "04AABBCCDDEEFF"; hx "000000"] |} = Ok msg /\
    SDMService.buildLNURL "https://card.example/scan" long_cardId msg
    = (SdmUri.path "https://card.example/scan" long_cardId
       ++ "?p=" ++ SDMService.encPiccData msg
       ++ "&c=" ++ SDMService.cmac msg)%string /\
    let rest :=
      Session.uri_rest
        (SDMService.buildLNURL "https://card.example/scan" long_cardId msg) in
    let payload := [0x04] ++ rest in
    let record := [0xD1; 0x01; payload_length; 0x55] ++ payload in
    SDMService.generateNDEFWithSDM (hx "04AABBCCDDEEFF") (hx "000000")
      (zeros 16) (zeros 16) "https://card.example/scan" long_cardId
    = Ok ([0x03; tlv_length] ++ record ++ [0xFE]) /\
    tlv_length = Z.of_nat (length record) mod 256 /\
    payload_length = Z.of_nat (length payload) mod 256 /\
    ((length record <= 254)%nat ->
     tlv_length = Z.of_nat (length record) /\
     payload_length = Z.of_nat (length payload)) /\
    (length record = 255%nat -> tlv_length = 0xFF) /\
    ((256 <= length record)%nat ->
     tlv_length <> Z.of_nat (length record)) /\
    ((256 <= length payload)%nat ->
     payload_length <> Z.of_nat (length payload)).
Proof.
  apply (C9_ndef_length_bytes_unchecked (hx "04AABBCCDDEEFF") (hx "000000")
           (zeros 16) (zeros 16) "https://card.example/scan" long_cardId);
    try reflexivity; apply is_bytesb_sound; reflexivity.
Defined.

(** C10.  A READ BINARY of the selected NDEF file at a non-zero offset
    leaves the whole state as it is, the counter in memory, the pending
    persistence tasks and the store included, and returns the requested
    portion of the NDEF generated for the current counter; no command other
    than a READ BINARY at offset 0 with the NDEF file selected changes the
    counter, the pending tasks or the store; so a read at offset 0 followed
    by a continuation read returns two portions of the same NDEF bytes. *)
Theorem C10_nonzero_offset_leaves_counter :
  (forall (w : NTAG424Service.World) (bytes : Uint8Array) (offset len : Z),
      Session.ndef_selected w -> is_bytes bytes ->
      Session.reads_at bytes = Some (offset, len) -> offset <> 0 ->
      fst (NTAG424Service.processAPDU w bytes) = w /\
      forall ndef,
        NTAG424Service.generateNDEFData w = Ok ndef ->
        snd (NTAG424Service.processAPDU w bytes)
        = firstn (Z.to_nat len) (skipn (Z.to_nat offset) ndef)
            ++ [0x90; 0x00]) /\
  (forall (w : NTAG424Service.World) (bytes : Uint8Array),
      ~ (Session.ndef_selected w /\
         exists len, Session.reads_at bytes = Some (0, len)) ->
      let w' := fst (NTAG424Service.processAPDU w bytes) in
      NTAG424Service.counter (NTAG424Service.state w')
      = NTAG424Service.counter (NTAG424Service.state w) /\
      NTAG424Service.pending w' = NTAG424Service.pending w /\
      NTAG424Service.store w' = NTAG424Service.store w) /\
  (forall (w : NTAG424Service.World) (first next : Uint8Array)
          (len0 offset len : Z),
      Session.valid_world w -> Session.ndef_selected w ->
      Session.reads_at first = Some (0, len0) ->
      is_bytes next -> Session.reads_at next = Some (offset, len) ->
      offset <> 0 ->
      let w1 := fst (NTAG424Service.processAPDU w first) in
      exists ndef,
        snd (NTAG424Service.processAPDU w first)
        = firstn (Z.to_nat len0) ndef ++ [0x90; 0x00] /\
        NTAG424Service.processAPDU w1 next
        = (w1, firstn (Z.to_nat len) (skipn (Z.to_nat offset) ndef)
                 ++ [0x90; 0x00])).
Proof.
  split; [| split].
  - intros w bytes offset len Hsel Hb Hread Hoff. split.
    + rewrite (ServiceFacts.processAPDU_read_ndef w bytes offset len Hsel Hread).
      cbv zeta. destruct (Z.eqb_spec offset 0); [contradiction | reflexivity].
    + intros ndef Hgen.
      rewrite (ServiceFacts.processAPDU_read_ndef_continuation
                 w bytes offset len ndef Hsel Hb Hread Hoff Hgen).
      reflexivity.
  - intros w bytes Hnot. apply ServiceFacts.processAPDU_frame, Hnot.
  - intros w first next len0 offset len Hv Hsel Hfirst Hb Hnext Hoff.
    destruct (ServiceFacts.processAPDU_read_ndef_0 w first len0 Hv Hsel Hfirst)
      as (ndef & Hnew & Hndef & Hstep).
    cbv zeta. rewrite Hstep. cbn [fst snd].
    exists ndef. split; [reflexivity|].
    apply ServiceFacts.processAPDU_read_ndef_continuation; try assumption.
    unfold NTAG424Service.generateNDEFData. rewrite Hnew. exact Hndef.
Qed.

Lemma C10_nonzero_offset_leaves_counter_witness :
  let w := scenario_world 5 in
  let bytes := hx "00B0001020" in
  fst (NTAG424Service.processAPDU w bytes) = w /\
  forall ndef,
    NTAG424Service.generateNDEFData w = Ok ndef ->
    snd (NTAG424Service.processAPDU w bytes)
    = firstn (Z.to_nat 32) (skipn (Z.to_nat 16) ndef) ++ [0x90; 0x00].
Proof.
  intros w bytes.
  apply (proj1 C10_nonzero_offset_leaves_counter w bytes 16 32).
  - reflexivity.
  - apply is_bytesb_sound. reflexivity.
  - reflexivity.
  - discriminate.
Defined.

(* ===================================================================== *)
(** * Further properties of the code *)

(** ** [utils.ts] *)

Module UtilsFacts.
Import Utils Bytes Extra BytesFacts CounterFacts.

Lemma hex_char_facts (c : ascii) :
  is_hex_char c = true ->
  0 <= hex_value c < 16 /\
  upper_char (hex_digit (hex_value c)) = upper_char c.
Proof.
  destruct c as [[] [] [] [] [] [] [] []]; intro H;
    try discriminate H; vm_compute; repeat split; congruence.
Qed.

Lemma is_hex_strip (s : string) :
  forall c, In c (list_ascii_of_string (strip_non_hex s)) ->
            is_hex_char c = true.
Proof.
  induction s as [|a s IH]; intros c Hc; [contradiction|].
  cbn [strip_non_hex] in Hc. destruct (is_hex_char a) eqn:Ha.
  - cbn [list_ascii_of_string] in Hc. destruct Hc as [<- | Hc]; auto.
  - auto.
Qed.

Lemma nibbles (h l : Z) :
  0 <= h < 16 -> 0 <= l < 16 ->
  (16 * h + l) / 16 = h /\ (16 * h + l) mod 16 = l /\ is_byte (16 * h + l).
Proof.
  intros Hh Hl. split; [|split].
  - symmetry. apply (Z.div_unique _ _ _ l); lia.
  - symmetry. apply (Z.mod_unique _ _ h); lia.
  - unfold is_byte. lia.
Qed.

(** Parsing an even number of hexadecimal digits. *)
Lemma parse_hex_even (n : nat) :
  forall s : string,
    String.length s = (2 * n)%nat ->
    (forall c, In c (list_ascii_of_string s) -> is_hex_char c = true) ->
    is_bytes (parse_hex_pairs s) /\
    length (parse_hex_pairs s) = n /\
    bytesToHex (parse_hex_pairs s) = toUpperCase s.
Proof.
  induction n as [|n IH]; intros s Hlen Hhex.
  - destruct s; [|discriminate]. repeat split. constructor.
  - destruct s as [|c1 [|c2 s']]; cbn [String.length] in Hlen; try lia.
    destruct (IH s') as (Hb & Hl & Hu); [lia | |].
    { intros c Hc. apply Hhex. right. right. exact Hc. }
    destruct (hex_char_facts c1) as [B1 U1]; [apply Hhex; left; reflexivity|].
    destruct (hex_char_facts c2) as [B2 U2];
      [apply Hhex; right; left; reflexivity|].
    destruct (nibbles _ _ B1 B2) as (Hd & Hm & Hbyte).
    cbn [parse_hex_pairs]. split; [constructor; assumption|].
    split; [cbn [length]; lia|].
    rewrite HexFacts.bytesToHex_cons, Hd, Hm, U1, U2, Hu. reflexivity.
Qed.

Lemma even_or_odd_length (k : nat) :
  (exists n, k = (2 * n)%nat /\ Nat.eqb (Nat.modulo k 2) 0 = true) \/
  Nat.eqb (Nat.modulo k 2) 0 = false.
Proof.
  destruct (Nat.eqb_spec (Nat.modulo k 2) 0) as [E | E]; [left | right; reflexivity].
  exists (k / 2)%nat. split; [|reflexivity].
  pose proof (Nat.div_mod_eq k 2). lia.
Qed.

Lemma be_value_snoc (l : list Z) (x : Z) :
  be_value (l ++ [x]) = be_value l * 256 + x.
Proof.
  induction l as [|y l IH]; cbn [app be_value length].
  - simpl. lia.
  - rewrite IH, length_app. cbn [length].
    replace (Z.of_nat (length l + 1)) with (Z.succ (Z.of_nat (length l))) by lia.
    rewrite Z.pow_succ_r by lia. ring.
Qed.

Lemma be_value_rev (l : list Z) : be_value (rev l) = le_value l.
Proof.
  induction l as [|x l IH]; [reflexivity|].
  cbn [rev le_value]. rewrite be_value_snoc, IH. ring.
Qed.

Lemma is_bytes_rev (l : list Z) : is_bytes l -> is_bytes (rev l).
Proof. unfold is_bytes. apply Forall_rev. Qed.

Lemma le_value_bound (l : list Z) :
  is_bytes l -> 0 <= le_value l < 256 ^ Z.of_nat (length l).
Proof.
  induction 1 as [|x l Hx _ IH]; cbn [le_value length].
  - simpl. lia.
  - rewrite pow256_succ. unfold is_byte in Hx. lia.
Qed.

(** The loop of [incrementCounter], on the bytes taken last-first. *)
Lemma incrementCounter_go_spec (l : list Z) :
  is_bytes l ->
  length (incrementCounter_go l) = length l /\
  is_bytes (incrementCounter_go l) /\
  le_value (incrementCounter_go l)
  = (le_value l + 1) mod 256 ^ Z.of_nat (length l).
Proof.
  induction 1 as [|x l Hx Hl IH].
  - repeat split. constructor.
  - destruct IH as (IHlen & IHb & IHv).
    pose proof (le_value_bound l Hl) as B.
    pose proof (pow256_pos (length l)) as Hp.
    cbn [incrementCounter_go length]. rewrite pow256_succ.
    unfold is_byte in Hx. destruct (Z.eqb_spec x 255) as [-> | Hne].
    + split; [cbn [length]; lia|]. split.
      * constructor; [unfold is_byte; lia | assumption].
      * cbn [le_value]. rewrite IHv.
        replace (255 + 256 * le_value l + 1) with (256 * (le_value l + 1))
          by ring.
        rewrite Z.mul_mod_distr_l by lia. ring.
    + unfold to_uint8. rewrite (Z.mod_small (x + 1)) by lia.
      split; [reflexivity|]. split.
      * constructor; [unfold is_byte; lia | assumption].
      * cbn [le_value]. rewrite Z.mod_small by lia. ring.
Qed.

Lemma lor_shift_byte (x b : Z) :
  0 <= b < 256 -> Z.lor (Z.shiftl x 8) b = x * 256 + b.
Proof.
  intro Hb. rewrite Z.shiftl_mul_pow2 by lia. change (2 ^ 8) with 256.
  set (A := Z.lor (x * 256) b).
  assert (Hd : A / 256 = x).
  { change 256 with (2 ^ 8) at 1. rewrite <- Z.shiftr_div_pow2 by lia.
    unfold A. rewrite Z.shiftr_lor, !Z.shiftr_div_pow2 by lia.
    change (2 ^ 8) with 256. rewrite Z.div_mul by lia.
    rewrite (Z.div_small b) by lia. apply Z.lor_0_r. }
  assert (Hm : A mod 256 = b).
  { change 256 with (2 ^ 8) at 1. rewrite <- Z.land_ones by lia.
    unfold A. rewrite Z.land_lor_distr_l, !Z.land_ones by lia.
    change (2 ^ 8) with 256. rewrite Z.mod_mul by lia.
    rewrite (Z.mod_small b) by lia. apply Z.lor_0_l. }
  pose proof (Z.div_mod A 256 ltac:(lia)). lia.
Qed.

Lemma bytesToNumber_step (n b : Z) :
  0 <= n < 8388608 -> is_byte b ->
  toInt32 (Z.lor (Z.shiftl (toInt32 n) 8) b) = n * 256 + b.
Proof.
  unfold is_byte. intros Hn Hb. rewrite (toInt32_small n) by lia.
  rewrite lor_shift_byte by lia. apply toInt32_small. lia.
Qed.

(** [bytesToNumber] on at most three bytes is the big-endian value. *)
Lemma bytesToNumber_3 (a b c : Z) :
  is_byte a -> is_byte b -> is_byte c ->
  bytesToNumber [a; b; c] = a * 65536 + b * 256 + c.
Proof.
  intros Ha Hb Hc. unfold bytesToNumber. cbn [fold_left].
  pose proof Ha as Ha'. pose proof Hb as Hb'. unfold is_byte in Ha', Hb'.
  rewrite (bytesToNumber_step 0 a) by (try assumption; lia).
  rewrite (bytesToNumber_step (0 * 256 + a) b) by (try assumption; lia).
  rewrite (bytesToNumber_step ((0 * 256 + a) * 256 + b) c)
    by (try assumption; lia).
  ring.
Qed.

(** [numberToBytes(v, 3)] for a non-negative 32-bit integer. *)
Lemma numberToBytes_3_int32 (v : Z) :
  0 <= v < 2147483648 ->
  numberToBytes v 3
  = [(v / 65536) mod 256; (v / 256) mod 256; v mod 256].
Proof.
  intro H. unfold numberToBytes. cbn [numberToBytes_go].
  rewrite (toInt32_small v) by lia.
  rewrite !shiftr_8_div, !land_255_mod.
  assert (H1 : 0 <= v / 256 < 8388608).
  { split; [apply Z.div_pos; lia | apply Z.div_lt_upper_bound; lia]. }
  rewrite (toInt32_small (v / 256)) by lia.
  assert (H2 : 0 <= v / 256 / 256 < 32768).
  { split; [apply Z.div_pos; lia | apply Z.div_lt_upper_bound; lia]. }
  rewrite (toInt32_small (v / 256 / 256)) by lia.
  rewrite Z.div_div by lia. reflexivity.
Qed.

End UtilsFacts.

(** X1.  [bytesToHex] writes two hexadecimal digits per byte, and
    [hexToBytes] reads a byte array back from them. *)
Theorem X1_bytesToHex_hexToBytes (bytes : Uint8Array) :
  is_bytes bytes ->
  String.length (Utils.bytesToHex bytes) = (2 * length bytes)%nat /\
  Utils.hexToBytes (Utils.bytesToHex bytes) = Ok bytes.
Proof.
  intro H. split.
  - apply HexFacts.length_bytesToHex.
  - apply HexFacts.hexToBytes_bytesToHex, H.
Qed.

Lemma X1_bytesToHex_hexToBytes_witness :
  String.length (Utils.bytesToHex (hx "04AABBCCDDEEFF")) = 14%nat /\
  Utils.hexToBytes (Utils.bytesToHex (hx "04AABBCCDDEEFF"))
  = Ok (hx "04AABBCCDDEEFF").
Proof.
  apply (X1_bytesToHex_hexToBytes (hx "04AABBCCDDEEFF")).
  apply is_bytesb_sound. reflexivity.
Defined.

(** X2.  [hexToBytes] looks only at the hexadecimal digits of its argument:
    it throws exactly when their number is odd, and otherwise returns one
    byte per two digits, which [bytesToHex] prints as those digits in
    upper case. *)
Theorem X2_hexToBytes_digits (hex : string) :
  (Nat.even (Extra.hex_digits hex) = false ->
   Utils.hexToBytes hex = Throw "Hex string must have even length") /\
  (Nat.even (Extra.hex_digits hex) = true ->
   exists bytes,
     Utils.hexToBytes hex = Ok bytes /\ is_bytes bytes /\
     (2 * length bytes)%nat = Extra.hex_digits hex /\
     Utils.bytesToHex bytes = Utils.toUpperCase (Utils.strip_non_hex hex)).
Proof.
  unfold Extra.hex_digits, Utils.hexToBytes.
  destruct (UtilsFacts.even_or_odd_length
              (String.length (Utils.strip_non_hex hex)))
    as [(n & Hn & Hmod) | Hmod]; rewrite Hmod; cbn [negb].
  - split; intro He.
    + rewrite Hn, Nat.even_mul in He. discriminate.
    + destruct (UtilsFacts.parse_hex_even n (Utils.strip_non_hex hex) Hn
                  (UtilsFacts.is_hex_strip hex)) as (Hb & Hl & Hu).
      eexists. split; [reflexivity|]. repeat split; try assumption.
      rewrite Hl, Hn. reflexivity.
  - split; intro He; [reflexivity|].
    apply Nat.even_spec in He. destruct He as [m Hm].
    rewrite Hm in Hmod. rewrite Nat.mul_comm, Nat.Div0.mod_mul in Hmod.
    discriminate.
Qed.

Lemma X2_hexToBytes_digits_witness :
  exists bytes,
    Utils.hexToBytes "04:aa:Bb" = Ok bytes /\ is_bytes bytes /\
    (2 * length bytes)%nat = Extra.hex_digits "04:aa:Bb" /\
    Utils.bytesToHex bytes
    = Utils.toUpperCase (Utils.strip_non_hex "04:aa:Bb").
Proof.
  apply (proj2 (X2_hexToBytes_digits "04:aa:Bb")). reflexivity.
Defined.

(** X3.  [xor] throws exactly when the two arrays differ in length;
    otherwise the result has their length and XORing it with the second
    array again gives the first array back. *)
Theorem X3_xor (a b : Uint8Array) :
  (length a <> length b ->
   Utils.xor a b = Throw "Arrays must be same length for XOR") /\
  (length a = length b ->
   exists c, Utils.xor a b = Ok c /\ length c = length a /\
             Utils.xor c b = Ok a).
Proof.
  split; intro H.
  - unfold Utils.xor. destruct (Nat.eqb_spec (length a) (length b));
      [contradiction | reflexivity].
  - exists (Bytes.xor_block a b).
    split; [apply BytesFacts.xor_ok, H|].
    split; [apply BytesFacts.length_xor_block, H|].
    rewrite BytesFacts.xor_ok
      by (rewrite BytesFacts.length_xor_block; assumption).
    f_equal. revert b H. induction a as [|x a IH]; intros b H.
    + reflexivity.
    + destruct b as [|y b]; [discriminate|].
      unfold Bytes.xor_block in *. cbn [combine map fst snd].
      rewrite Z.lxor_assoc, Z.lxor_nilpotent, Z.lxor_0_r. f_equal.
      apply IH. simpl in H. lia.
Qed.

Lemma X3_xor_witness :
  exists c, Utils.xor [1; 2; 3] [255; 0; 7] = Ok c /\ length c = 3%nat /\
            Utils.xor c [255; 0; 7] = Ok [1; 2; 3].
Proof.
  apply (proj2 (X3_xor [1; 2; 3] [255; 0; 7])). reflexivity.
Defined.

(** X4.  [leftShift] keeps the length of a byte array and doubles its
    big-endian value modulo 2^(8 n): the bit that leaves the first byte is
    dropped. *)
Theorem X4_leftShift_doubles (data : Uint8Array) :
  is_bytes data ->
  length (Utils.leftShift data) = length data /\
  is_bytes (Utils.leftShift data) /\
  Bytes.be_value (Utils.leftShift data)
  = (2 * Bytes.be_value data) mod 256 ^ Z.of_nat (length data).
Proof.
  intro H. split; [apply BytesFacts.length_leftShift, H|].
  split; [apply BytesFacts.is_bytes_leftShift, H|].
  apply BytesFacts.be_value_leftShift, H.
Qed.

Lemma X4_leftShift_doubles_witness :
  length (Utils.leftShift [0x80; 0x01; 0xFF]) = 3%nat /\
  is_bytes (Utils.leftShift [0x80; 0x01; 0xFF]) /\
  Bytes.be_value (Utils.leftShift [0x80; 0x01; 0xFF])
  = (2 * Bytes.be_value [0x80; 0x01; 0xFF]) mod 256 ^ Z.of_nat 3.
Proof.
  apply (X4_leftShift_doubles [0x80; 0x01; 0xFF]).
  apply is_bytesb_sound. reflexivity.
Defined.

(** X5.  For a block size from 1 to 255, [pad] adds between 1 and
    [blockSize] bytes, the padded length is a multiple of the block size,
    and [unpad] gives the data back. *)
Theorem X5_pad_unpad (data : Uint8Array) (blockSize : nat) :
  (0 < blockSize <= 255)%nat ->
  let padded := Utils.pad data blockSize in
  (length data < length padded <= length data + blockSize)%nat /\
  Nat.modulo (length padded) blockSize = 0%nat /\
  Utils.unpad padded = Ok data.
Proof.
  intros Hbs. cbv zeta. unfold Utils.pad.
  pose proof (Nat.mod_upper_bound (length data) blockSize ltac:(lia)) as Hm.
  pose proof (Nat.div_mod_eq (length data) blockSize) as Hdm.
  set (k := (blockSize - length data mod blockSize)%nat) in *.
  assert (Hk : (1 <= k <= blockSize)%nat) by lia.
  unfold to_uint8. rewrite (Z.mod_small (Z.of_nat k)) by lia.
  rewrite length_app, repeat_length.
  split; [lia|]. split.
  - replace (length data + k)%nat
      with ((length data / blockSize + 1) * blockSize)%nat by nia.
    apply Nat.Div0.mod_mul.
  - unfold Utils.unpad. rewrite length_app, repeat_length.
    rewrite nth_error_app2 by lia.
    replace (length data + k - 1 - length data)%nat with (k - 1)%nat by lia.
    rewrite (nth_error_repeat (Z.of_nat k)) by lia.
    replace (Z.of_nat (length data + k) - Z.of_nat k)
      with (Z.of_nat (length data)) by lia.
    destruct (Z.ltb_spec (Z.of_nat (length data)) 0); [lia|].
    rewrite Nat2Z.id. rewrite skipn_app, skipn_all, Nat.sub_diag, skipn_O.
    cbn [app].
    assert (Hall : forallb (fun b => b =? Z.of_nat k) (repeat (Z.of_nat k) k)
                   = true).
    { apply forallb_forall. intros x Hx. apply repeat_spec in Hx. subst.
      apply Z.eqb_refl. }
    rewrite Hall. unfold slice. rewrite Nat.sub_0_r, skipn_O.
    rewrite firstn_app, firstn_all, Nat.sub_diag. cbn [firstn].
    rewrite app_nil_r. reflexivity.
Qed.

Lemma X5_pad_unpad_witness :
  let padded := Utils.pad [1; 2; 3] 16 in
  (length [1; 2; 3] < length padded <= length [1; 2; 3] + 16)%nat /\
  Nat.modulo (length padded) 16 = 0%nat /\
  Utils.unpad padded = Ok [1; 2; 3].
Proof.
  apply (X5_pad_unpad [1; 2; 3] 16). lia.
Defined.

(** X6.  [numberToBytes(v, 3)] keeps the low 24 bits of a non-negative
    32-bit integer, most significant byte first, and [bytesToNumber] reads
    them back: the round trip is the identity exactly on values below
    2^24. *)
Theorem X6_numberToBytes_low_24_bits (v : Z) :
  0 <= v < 2 ^ 31 ->
  length (Utils.numberToBytes v 3) = 3%nat /\
  is_bytes (Utils.numberToBytes v 3) /\
  Bytes.be_value (Utils.numberToBytes v 3) = v mod 2 ^ 24 /\
  Utils.bytesToNumber (Utils.numberToBytes v 3) = v mod 2 ^ 24.
Proof.
  change (2 ^ 31) with 2147483648. change (2 ^ 24) with 16777216.
  intro H. rewrite UtilsFacts.numberToBytes_3_int32 by assumption.
  pose proof (Z.mod_pos_bound (v / 65536) 256 ltac:(lia)) as B1.
  pose proof (Z.mod_pos_bound (v / 256) 256 ltac:(lia)) as B2.
  pose proof (Z.mod_pos_bound v 256 ltac:(lia)) as B3.
  assert (E : (v / 65536) mod 256 * 65536 + (v / 256) mod 256 * 256 + v mod 256
              = v mod 16777216).
  { pose proof (Z.div_mod v 256 ltac:(lia)) as E1.
    pose proof (Z.div_mod (v / 256) 256 ltac:(lia)) as E2.
    pose proof (Z.div_mod (v / 65536) 256 ltac:(lia)) as E3.
    rewrite Z.div_div in E2 by lia. change (256 * 256) with 65536 in E2.
    apply (Z.mod_unique _ _ (v / 65536 / 256)); lia. }
  split; [reflexivity|].
  split; [repeat (apply Forall_cons; [assumption|]); apply Forall_nil|].
  split.
  - rewrite CounterFacts.be_value_3. exact E.
  - rewrite UtilsFacts.bytesToNumber_3 by assumption. exact E.
Qed.

Lemma X6_numberToBytes_low_24_bits_witness :
  length (Utils.numberToBytes 0x1000000 3) = 3%nat /\
  is_bytes (Utils.numberToBytes 0x1000000 3) /\
  Bytes.be_value (Utils.numberToBytes 0x1000000 3) = 0x1000000 mod 2 ^ 24 /\
  Utils.bytesToNumber (Utils.numberToBytes 0x1000000 3) = 0x1000000 mod 2 ^ 24.
Proof.
  apply (X6_numberToBytes_low_24_bits 0x1000000). lia.
Defined.

(** X7.  [incrementCounter] on a byte array of any length keeps the length
    and adds one to the big-endian value modulo 2^(8 n); in particular an
    array of [0xFF] bytes becomes all zero. *)
Theorem X7_incrementCounter_any_length (counter : Uint8Array) :
  is_bytes counter ->
  length (Utils.incrementCounter counter) = length counter /\
  is_bytes (Utils.incrementCounter counter) /\
  Bytes.be_value (Utils.incrementCounter counter)
  = (Bytes.be_value counter + 1) mod 256 ^ Z.of_nat (length counter).
Proof.
  intro H. unfold Utils.incrementCounter.
  destruct (UtilsFacts.incrementCounter_go_spec (rev counter)
              (UtilsFacts.is_bytes_rev counter H)) as (Hl & Hb & Hv).
  rewrite length_rev in *. split; [exact Hl|].
  split; [apply UtilsFacts.is_bytes_rev, Hb|].
  rewrite UtilsFacts.be_value_rev, Hv.
  rewrite <- UtilsFacts.be_value_rev, rev_involutive. reflexivity.
Qed.

Lemma X7_incrementCounter_any_length_witness :
  length (Utils.incrementCounter [0xFF; 0xFF; 0xFF; 0xFF]) = 4%nat /\
  is_bytes (Utils.incrementCounter [0xFF; 0xFF; 0xFF; 0xFF]) /\
  Bytes.be_value (Utils.incrementCounter [0xFF; 0xFF; 0xFF; 0xFF])
  = (Bytes.be_value [0xFF; 0xFF; 0xFF; 0xFF] + 1) mod 256 ^ Z.of_nat 4.
Proof.
  apply (X7_incrementCounter_any_length [0xFF; 0xFF; 0xFF; 0xFF]).
  apply is_bytesb_sound. reflexivity.
Defined.

(** ** [aes.ts], [cmac.ts], [sessionKeys.ts] *)

Module CryptoFacts.
Import CryptoJS Bytes AesModel BytesFacts AesFacts CmacFacts.

Lemma nBlocksReady_step (m : nat) :
  nBlocksReady (16 + m) = S (nBlocksReady m).
Proof.
  unfold nBlocksReady.
  replace (16 + m + 15)%nat with (m + 15 + 1 * 16)%nat by lia.
  rewrite Nat.div_add by lia. lia.
Qed.

Lemma nBlocksReady_multiple (m : nat) :
  Nat.modulo m 16 = 0%nat -> (16 * nBlocksReady m)%nat = m.
Proof.
  intro H. unfold nBlocksReady.
  pose proof (Nat.div_mod_eq m 16) as E. rewrite H in E.
  replace (m + 15)%nat with (15 + (m / 16) * 16)%nat by lia.
  rewrite Nat.div_add by lia. change (15 / 16)%nat with 0%nat. lia.
Qed.

Lemma length_AES_encrypt_ECB (data key : list Z) :
  Nat.modulo (length data) 16 = 0%nat ->
  length (AES_encrypt_ECB data key) = length data.
Proof.
  intro H. unfold AES_encrypt_ECB. rewrite length_firstn.
  rewrite length_flat_map_blocks by (intro i; apply length_encryptBlock).
  rewrite length_seq, nBlocksReady_multiple by assumption. lia.
Qed.

(** ECB encrypts the first block on its own. *)
Lemma AES_encrypt_ECB_cons (block rest key : list Z) :
  length block = 16%nat ->
  AES_encrypt_ECB (block ++ rest) key
  = encryptBlock key block ++ AES_encrypt_ECB rest key.
Proof.
  intro Hb. unfold AES_encrypt_ECB.
  rewrite length_app, Hb, nBlocksReady_step.
  cbn [seq flat_map]. rewrite <- seq_shift, flat_map_concat_map, map_map.
  rewrite <- flat_map_concat_map.
  change (16 * 0)%nat with 0%nat. rewrite skipn_O.
  assert (E0 : firstn 16 (block ++ rest) = block).
  { rewrite firstn_app, Hb, Nat.sub_diag, firstn_O, app_nil_r.
    apply firstn_all2. lia. }
  rewrite E0, firstn_app, length_encryptBlock.
  rewrite (firstn_all2 (n := 16 + length rest))
    by (rewrite length_encryptBlock; lia).
  replace (16 + length rest - 16)%nat with (length rest) by lia.
  do 2 f_equal. apply flat_map_ext. intro i.
  replace (16 * S i)%nat with (length block + 16 * i)%nat by lia.
  rewrite skipn_app, skipn_all2 by lia.
  replace (length block + 16 * i - length block)%nat with (16 * i)%nat by lia.
  reflexivity.
Qed.

Lemma aesEncryptECB_ok (key data : list Z) :
  length key = 16%nat -> Nat.modulo (length data) 16 = 0%nat ->
  is_bytes key -> is_bytes data ->
  Aes.aesEncryptECB key data
  = Ok (map (fun b => Z.land b 255) (AES_encrypt_ECB data key)).
Proof.
  intros Hk Hd Bk Bd. unfold Aes.aesEncryptECB.
  rewrite Hk, Hd. cbn [Nat.eqb negb].
  rewrite !HexFacts.Hex_parse_bytesToHex by assumption.
  apply HexFacts.hexToBytes_stringify.
Qed.

(** With one key stream, the XOR of two ciphertexts is the XOR of the two
    plaintexts. *)
Lemma ctr_output_xor (d1 d2 ks : list Z) :
  is_bytes d1 -> is_bytes d2 -> length d1 = length d2 ->
  (length d1 <= length ks)%nat ->
  xor_block (ctr_output d1 ks) (ctr_output d2 ks) = xor_block d1 d2.
Proof.
  intro H1. revert d2 ks.
  induction H1 as [|x d1 Hx _ IH]; intros d2 ks H2 Hl Hk.
  - reflexivity.
  - destruct H2 as [|y d2 Hy H2]; [discriminate|].
    destruct ks as [|k ks]; [simpl in Hk; lia|].
    unfold ctr_output, xor_block in *. cbn [combine map fst snd].
    f_equal.
    + rewrite <- land_lxor_distr.
      rewrite (Z.lxor_comm y k), Z.lxor_assoc, <- (Z.lxor_assoc k k).
      rewrite Z.lxor_nilpotent, Z.lxor_0_l.
      apply land_255_byte, lxor_is_byte; assumption.
    + apply IH; [assumption | simpl in Hl; lia | simpl in Hk; lia].
Qed.

(** The accumulator of [verifyCMAC] is zero exactly on equal arrays. *)
Lemma diff_zero_iff (a b : list Z) (acc : Z) :
  length a = length b ->
  fold_left (fun diff p => Z.lor diff (Z.lxor (fst p) (snd p)))
            (combine a b) acc = 0
  <-> acc = 0 /\ a = b.
Proof.
  revert b acc. induction a as [|x a IH]; intros b acc Hl.
  - destruct b; [|discriminate]. cbn. split; [intro; auto | intros [? _]; auto].
  - destruct b as [|y b]; [discriminate|]. cbn [combine fold_left fst snd].
    rewrite IH by (simpl in Hl; lia).
    rewrite Z.lor_eq_0_iff, Z.lxor_eq_0_iff. split.
    + intros [[Ha Hxy] Hab]. subst. auto.
    + intros [Ha Hab]. injection Hab as -> ->. auto.
Qed.

Lemma deriveSDMSessionKeys_throws (K1 K2 : list Z) (sv : option Uint8Array) :
  length K1 <> 16%nat \/ length K2 <> 16%nat ->
  exists msg, SessionKeys.deriveSDMSessionKeys K1 K2 sv = Throw msg.
Proof.
  intro H. unfold SessionKeys.deriveSDMSessionKeys.
  set (SV := match sv with Some v => v | None => zeros 16 end).
  destruct (SessionKeys.deriveKey K1 SV _) as [enc | m] eqn:E1; cbn [bind].
  - destruct (SessionKeys.deriveKey K2 SV _) as [mac | m] eqn:E2; cbn [bind].
    + exfalso. destruct H as [H | H].
      * destruct (SdmFacts.deriveKey_throws K1 SV
                    (SessionKeys.encode "SDMENCFileData") (or_introl H))
          as [m Hm]. congruence.
      * destruct (SdmFacts.deriveKey_throws K2 SV
                    (SessionKeys.encode "SDMFileReadMAC") (or_introl H))
          as [m Hm]. congruence.
    + eexists. reflexivity.
  - eexists. reflexivity.
Qed.

End CryptoFacts.

(** X8.  [aesEncryptECB] throws when the key is not 16 bytes long or the
    data length is not a multiple of 16; otherwise the ciphertext has the
    length of the data and every 16-byte block is encrypted on its own, as
    [aesEncryptBlock] encrypts it. *)
Theorem X8_aesEncryptECB_blockwise :
  (forall key data : Uint8Array,
      length key <> 16%nat ->
      Aes.aesEncryptECB key data = Throw "Key must be 16 bytes for AES-128") /\
  (forall key data : Uint8Array,
      length key = 16%nat -> Nat.modulo (length data) 16 <> 0%nat ->
      Aes.aesEncryptECB key data
      = Throw "Data must be multiple of 16 bytes for ECB mode") /\
  (forall key block rest : Uint8Array,
      length key = 16%nat -> is_bytes key ->
      length block = 16%nat -> is_bytes block ->
      Nat.modulo (length rest) 16 = 0%nat -> is_bytes rest ->
      exists c1 c2,
        Aes.aesEncryptBlock key block = Ok c1 /\
        Aes.aesEncryptECB key rest = Ok c2 /\
        length c2 = length rest /\
        Aes.aesEncryptECB key (block ++ rest) = Ok (c1 ++ c2)).
Proof.
  split; [| split].
  - intros key data H. unfold Aes.aesEncryptECB.
    destruct (Nat.eqb_spec (length key) 16); [contradiction | reflexivity].
  - intros key data Hk H. unfold Aes.aesEncryptECB. rewrite Hk.
    cbn [Nat.eqb negb].
    destruct (Nat.eqb_spec (length data mod 16) 0); [contradiction | reflexivity].
  - intros key block rest Hk Bk Hb Bb Hr Br.
    exists (AesModel.aes_block key block),
      (map (fun b => Z.land b 255) (CryptoJS.AES_encrypt_ECB rest key)).
    split; [apply AesFacts.aesEncryptBlock_ok; assumption|].
    split; [apply CryptoFacts.aesEncryptECB_ok; assumption|].
    split; [rewrite length_map; apply CryptoFacts.length_AES_encrypt_ECB, Hr|].
    rewrite CryptoFacts.aesEncryptECB_ok; try assumption.
    + rewrite CryptoFacts.AES_encrypt_ECB_cons by assumption.
      rewrite map_app. reflexivity.
    + rewrite length_app, Hb.
      replace (16 + length rest)%nat with (length rest + 1 * 16)%nat by lia.
      rewrite Nat.Div0.mod_add. exact Hr.
    + apply is_bytes_app; assumption.
Qed.

Lemma X8_aesEncryptECB_blockwise_witness :
  exists c1 c2,
    Aes.aesEncryptBlock (hx "2B7E151628AED2A6ABF7158809CF4F3C")
      (hx "6BC1BEE22E409F96E93D7E117393172A") = Ok c1 /\
    Aes.aesEncryptECB (hx "2B7E151628AED2A6ABF7158809CF4F3C")
      (hx "AE2D8A571E03AC9C9EB76FAC45AF8E51") = Ok c2 /\
    length c2 = length (hx "AE2D8A571E03AC9C9EB76FAC45AF8E51") /\
    Aes.aesEncryptECB (hx "2B7E151628AED2A6ABF7158809CF4F3C")
      (hx "6BC1BEE22E409F96E93D7E117393172A"
          ++ hx "AE2D8A571E03AC9C9EB76FAC45AF8E51") = Ok (c1 ++ c2).
Proof.
  apply (proj2 (proj2 X8_aesEncryptECB_blockwise)
           (hx "2B7E151628AED2A6ABF7158809CF4F3C")
           (hx "6BC1BEE22E409F96E93D7E117393172A")
           (hx "AE2D8A571E03AC9C9EB76FAC45AF8E51"));
    try reflexivity; apply is_bytesb_sound; reflexivity.
Defined.

(** X9.  [aesEncryptCTR] throws when the key or the IV is not 16 bytes
    long.  Under one key and IV the key stream is the same for every
    message: the XOR of the ciphertexts of two messages of equal length is
    the XOR of the messages. *)
Theorem X9_aesEncryptCTR_key_stream_reuse :
  (forall key iv data : Uint8Array,
      length key <> 16%nat \/ length iv <> 16%nat ->
      exists msg, Aes.aesEncryptCTR key iv data = Throw msg) /\
  (forall key iv d1 d2 : Uint8Array,
      length key = 16%nat -> length iv = 16%nat ->
      is_bytes key -> is_bytes iv -> is_bytes d1 -> is_bytes d2 ->
      length d1 = length d2 ->
      exists c1 c2,
        Aes.aesEncryptCTR key iv d1 = Ok c1 /\
        Aes.aesEncryptCTR key iv d2 = Ok c2 /\
        Bytes.xor_block c1 c2 = Bytes.xor_block d1 d2).
Proof.
  split.
  - intros key iv data H. unfold Aes.aesEncryptCTR.
    destruct (Nat.eqb_spec (length key) 16) as [Hk | Hk]; cbn [negb].
    + destruct (Nat.eqb_spec (length iv) 16) as [Hi | Hi]; cbn [negb].
      * destruct H; contradiction.
      * eexists. reflexivity.
    + eexists. reflexivity.
  - intros key iv d1 d2 Hk Hi Bk Bi B1 B2 Hl.
    eexists. eexists.
    split; [apply AesFacts.aesEncryptCTR_ok; assumption|].
    split; [apply AesFacts.aesEncryptCTR_ok; assumption|].
    rewrite <- Hl. apply CryptoFacts.ctr_output_xor; try assumption.
    rewrite AesFacts.length_keystream. apply AesFacts.nBlocksReady_covers.
Qed.

Lemma X9_aesEncryptCTR_key_stream_reuse_witness :
  exists c1 c2,
    Aes.aesEncryptCTR (zeros 16) (zeros 16) (hx "04AABBCCDDEEFF000001")
      = Ok c1 /\
    Aes.aesEncryptCTR (zeros 16) (zeros 16) (hx "04AABBCCDDEEFF000002")
      = Ok c2 /\
    Bytes.xor_block c1 c2
    = Bytes.xor_block (hx "04AABBCCDDEEFF000001") (hx "04AABBCCDDEEFF000002").
Proof.
  apply (proj2 X9_aesEncryptCTR_key_stream_reuse (zeros 16) (zeros 16)
           (hx "04AABBCCDDEEFF000001") (hx "04AABBCCDDEEFF000002"));
    try reflexivity; apply is_bytesb_sound; reflexivity.
Defined.

(** X10.  For a 16-byte key, [verifyCMAC] never throws and accepts exactly
    the 16-byte tag that [cmac] computes; a tag of another length, such as
    the 8-byte tag of [cmacSDM], is rejected. *)
Theorem X10_verifyCMAC_accepts_only_the_tag (key message : Uint8Array) :
  length key = 16%nat -> is_bytes key -> is_bytes message ->
  exists t,
    Cmac.cmac key message = Ok t /\ length t = 16%nat /\
    Cmac.cmacSDM key message = Ok (firstn 8 t) /\
    (forall tag, Cmac.verifyCMAC key message tag = Ok true <-> tag = t) /\
    (forall tag, tag <> t -> Cmac.verifyCMAC key message tag = Ok false) /\
    Cmac.verifyCMAC key message (firstn 8 t) = Ok false.
Proof.
  intros Hk Bk Bm.
  destruct (CmacFacts.cmac_wf key Hk Bk message Bm) as (t & Ht & Hl & Bt).
  assert (Hv : forall tag,
             Cmac.verifyCMAC key message tag = Ok true <-> tag = t).
  { intro tag. unfold Cmac.verifyCMAC. rewrite Ht. cbn [bind].
    destruct (Nat.eqb_spec (length t) (length tag)) as [E | E]; cbn [negb].
    - pose proof (CryptoFacts.diff_zero_iff t tag 0 E) as D.
      split.
      + intro H. injection H as H. apply Z.eqb_eq in H.
        symmetry. apply D, H.
      + intros ->. f_equal. apply Z.eqb_eq, D. auto.
    - split; [discriminate | intros ->; contradiction]. }
  assert (Hb : forall tag, exists b, Cmac.verifyCMAC key message tag = Ok b).
  { intro tag. unfold Cmac.verifyCMAC. rewrite Ht. cbn [bind].
    destruct (negb _); eexists; reflexivity. }
  assert (Hrej : forall tag, tag <> t ->
                             Cmac.verifyCMAC key message tag = Ok false).
  { intros tag Hne. destruct (Hb tag) as [[|] Hr]; [|exact Hr].
    apply Hv in Hr. contradiction. }
  exists t. split; [exact Ht|]. split; [exact Hl|].
  split.
  { unfold Cmac.cmacSDM. rewrite Ht. cbn [bind]. unfold slice.
    rewrite Nat.sub_0_r, skipn_O. reflexivity. }
  split; [exact Hv|]. split; [exact Hrej|].
  apply Hrej. intro E. apply (f_equal (@length Z)) in E.
  rewrite length_firstn, Hl in E. discriminate.
Qed.

Lemma X10_verifyCMAC_accepts_only_the_tag_witness :
  exists t,
    Cmac.cmac (zeros 16) (hx "04AABBCCDDEEFF000001") = Ok t /\
    length t = 16%nat /\
    Cmac.cmacSDM (zeros 16) (hx "04AABBCCDDEEFF000001") = Ok (firstn 8 t) /\
    (forall tag,
        Cmac.verifyCMAC (zeros 16) (hx "04AABBCCDDEEFF000001") tag = Ok true
        <-> tag = t) /\
    (forall tag, tag <> t ->
        Cmac.verifyCMAC (zeros 16) (hx "04AABBCCDDEEFF000001") tag
        = Ok false) /\
    Cmac.verifyCMAC (zeros 16) (hx "04AABBCCDDEEFF000001") (firstn 8 t)
    = Ok false.
Proof.
  apply (X10_verifyCMAC_accepts_only_the_tag (zeros 16)
           (hx "04AABBCCDDEEFF000001"));
    try reflexivity; apply is_bytesb_sound; reflexivity.
Defined.

(** X11.  Whenever [deriveAuthSessionKeys] succeeds, its SDM encryption and
    MAC keys are the ones [deriveSDMSessionKeys] derives from K1 and K2
    with the same session vector; it succeeds for 16-byte keys and a
    16-byte session vector. *)
Theorem X11_auth_keys_agree_with_sdm_keys :
  (forall (K0 K1 K2 sv : Uint8Array) (a : SessionKeys.AuthSessionKeys),
      SessionKeys.deriveAuthSessionKeys K0 K1 K2 sv = Ok a ->
      SessionKeys.deriveSDMSessionKeys K1 K2 (Some sv)
      = Ok {| SessionKeys.KSesSDMFileReadMAC :=
                SessionKeys.aKSesSDMFileReadMAC a;
              SessionKeys.KSesSDMFileEnc := SessionKeys.aKSesSDMFileEnc a |}) /\
  (forall K0 K1 K2 sv : Uint8Array,
      length K0 = 16%nat -> length K1 = 16%nat -> length K2 = 16%nat ->
      length sv = 16%nat ->
      is_bytes K0 -> is_bytes K1 -> is_bytes K2 -> is_bytes sv ->
      exists a,
        SessionKeys.deriveAuthSessionKeys K0 K1 K2 sv = Ok a /\
        length (SessionKeys.aKSesAuth a) = 16%nat /\
        length (SessionKeys.aKSesSDMFileReadMAC a) = 16%nat /\
        length (SessionKeys.aKSesSDMFileEnc a) = 16%nat).
Proof.
  split.
  - intros K0 K1 K2 sv a H.
    unfold SessionKeys.deriveAuthSessionKeys in H.
    unfold SessionKeys.deriveSDMSessionKeys.
    destruct (SessionKeys.deriveKey K0 sv _) as [auth|]; [|discriminate].
    cbn [bind] in H.
    destruct (SessionKeys.deriveKey K1 sv _) as [enc|]; [|discriminate].
    cbn [bind] in H |- *.
    destruct (SessionKeys.deriveKey K2 sv _) as [mac|]; [|discriminate].
    cbn [bind] in H |- *. injection H as <-. reflexivity.
  - intros K0 K1 K2 sv H0 H1 H2 Hs B0 B1 B2 Bs.
    unfold SessionKeys.deriveAuthSessionKeys.
    destruct (SdmFacts.deriveKey_wf K0 sv (SessionKeys.encode "SDMSesAuthENC"))
      as (auth & Ea & La & _); try assumption;
      [apply is_bytesb_sound; reflexivity|].
    destruct (SdmFacts.deriveKey_wf K1 sv (SessionKeys.encode "SDMENCFileData"))
      as (enc & Ee & Le & _); try assumption;
      [apply is_bytesb_sound; reflexivity|].
    destruct (SdmFacts.deriveKey_wf K2 sv (SessionKeys.encode "SDMFileReadMAC"))
      as (mac & Em & Lm & _); try assumption;
      [apply is_bytesb_sound; reflexivity|].
    rewrite Ea, Ee, Em. cbn [bind]. eexists. split; [reflexivity|].
    cbn. repeat split; assumption.
Qed.

Lemma X11_auth_keys_agree_with_sdm_keys_witness :
  exists a,
    SessionKeys.deriveAuthSessionKeys (zeros 16) (zeros 16) (zeros 16)
      (zeros 16) = Ok a /\
    length (SessionKeys.aKSesAuth a) = 16%nat /\
    length (SessionKeys.aKSesSDMFileReadMAC a) = 16%nat /\
    length (SessionKeys.aKSesSDMFileEnc a) = 16%nat.
Proof.
  apply (proj2 X11_auth_keys_agree_with_sdm_keys (zeros 16) (zeros 16)
           (zeros 16) (zeros 16));
    try reflexivity; apply is_bytesb_sound; reflexivity.
Defined.

(** ** [SDMService.ts], [StorageService.ts] *)

Module SdmExtraFacts.
Import Bytes AesModel Session AesFacts.

Lemma ctr_output_app (a b ks : list Z) :
  (length a <= length ks)%nat ->
  ctr_output (a ++ b) ks
  = ctr_output a ks ++ ctr_output b (skipn (length a) ks).
Proof.
  revert ks. induction a as [|x a IH]; intros ks H.
  - reflexivity.
  - destruct ks as [|k ks]; [simpl in H; lia|].
    unfold ctr_output in *. cbn [app combine map length skipn].
    f_equal. apply IH. simpl in H. lia.
Qed.

Lemma ctr_output_prefix (a b1 b2 ks : list Z) :
  (length a <= length ks)%nat ->
  firstn (length a) (ctr_output (a ++ b1) ks)
  = firstn (length a) (ctr_output (a ++ b2) ks).
Proof.
  intro H. rewrite !ctr_output_app by assumption.
  rewrite !firstn_app, !length_ctr_output by assumption.
  rewrite Nat.sub_diag. reflexivity.
Qed.

Lemma substring_bytesToHex (n : nat) (l : list Z) :
  substring 0 (2 * n) (Utils.bytesToHex l) = Utils.bytesToHex (firstn n l).
Proof.
  revert l. induction n as [|n IH]; intro l.
  - cbn [Nat.mul firstn]. destruct (Utils.bytesToHex l); reflexivity.
  - replace (2 * S n)%nat with (S (S (2 * n)))%nat by lia.
    destruct l as [|x l]; [reflexivity|].
    cbn [firstn]. rewrite !HexFacts.bytesToHex_cons.
    cbn [substring]. rewrite IH. reflexivity.
Qed.

Lemma drop_last_snoc (b : string) (c : ascii) :
  SDMService.drop_last (b ++ String c "") = b.
Proof.
  induction b as [|x b IH]; [reflexivity|].
  cbn [append]. cbn [SDMService.drop_last].
  destruct (b ++ String c "")%string eqn:E.
  - destruct b; discriminate.
  - rewrite IH. reflexivity.
Qed.

Lemma endsWith_slash_snoc (b : string) :
  SDMService.endsWith_slash (b ++ "/") = true.
Proof.
  induction b as [|x b IH]; [reflexivity|].
  cbn [append]. cbn [SDMService.endsWith_slash].
  destruct (b ++ "/")%string eqn:E.
  - destruct b; discriminate.
  - exact IH.
Qed.

End SdmExtraFacts.

(** X12.  For byte arrays, [generateSDM] succeeds exactly when UID and
    counter together have 10 bytes and both keys have 16 bytes; its message
    then has 20 hexadecimal characters of encrypted PICC data and 16 of
    CMAC.  The [piccData] field of the configuration is never read. *)
Theorem X12_generateSDM_size_checks (config : SDMService.SDMConfig) :
  is_bytes (SDMService.uid config) -> is_bytes (SDMService.counter config) ->
  is_bytes (SDMService.encKey config) -> is_bytes (SDMService.macKey config) ->
  (is_ok (SDMService.generateSDM config) = true <->
   (length (SDMService.uid config) + length (SDMService.counter config)
    = 10)%nat /\
   length (SDMService.encKey config) = 16%nat /\
   length (SDMService.macKey config) = 16%nat) /\
  (forall m, SDMService.generateSDM config = Ok m ->
     String.length (SDMService.encPiccData m) = 20%nat /\
     String.length (SDMService.cmac m) = 16%nat /\
     SDMService.piccData m
     = SDMService.uid config ++ SDMService.counter config) /\
  (forall other,
     SDMService.generateSDM
       {| SDMService.cfg_piccData := other;
          SDMService.encKey := SDMService.encKey config;
          SDMService.macKey := SDMService.macKey config;
          SDMService.counter := SDMService.counter config;
          SDMService.uid := SDMService.uid config |}
     = SDMService.generateSDM config).
Proof.
  intros Bu Bc Be Bm.
  assert (Hiff : is_ok (SDMService.generateSDM config) = true ->
     (length (SDMService.uid config) + length (SDMService.counter config)
      = 10)%nat /\
     length (SDMService.encKey config) = 16%nat /\
     length (SDMService.macKey config) = 16%nat).
  { unfold SDMService.generateSDM, Utils.concat. cbn [List.concat].
    rewrite app_nil_r, length_app.
    destruct (Nat.eqb_spec
                (length (SDMService.uid config)
                 + length (SDMService.counter config))
                MEMORY.PICC_DATA_SIZE) as [Hp | Hp]; cbn [negb];
      [|discriminate].
    intro H. split; [exact Hp|].
    destruct (Nat.eq_dec (length (SDMService.encKey config)) 16) as [He | He].
    - destruct (Nat.eq_dec (length (SDMService.macKey config)) 16)
        as [Hm | Hm]; [auto|].
      destruct (CryptoFacts.deriveSDMSessionKeys_throws
                  (SDMService.encKey config) (SDMService.macKey config) None
                  (or_intror Hm)) as [msg E].
      rewrite E in H. discriminate.
    - destruct (CryptoFacts.deriveSDMSessionKeys_throws
                  (SDMService.encKey config) (SDMService.macKey config) None
                  (or_introl He)) as [msg E].
      rewrite E in H. discriminate. }
  assert (Hok : forall m, SDMService.generateSDM config = Ok m ->
     String.length (SDMService.encPiccData m) = 20%nat /\
     String.length (SDMService.cmac m) = 16%nat /\
     SDMService.piccData m
     = SDMService.uid config ++ SDMService.counter config).
  { intros m Hm.
    destruct Hiff as (Hp & He & Hk); [rewrite Hm; reflexivity|].
    destruct (SdmFacts.generateSDM_ok config)
      as (keys & enc & full & _ & _ & Hle & _ & _ & _ & Hlf & _ & Hgen);
      try assumption.
    { rewrite length_app. exact Hp. }
    { apply is_bytes_app; assumption. }
    assert (Em : m = {| SDMService.encPiccData := Utils.bytesToHex enc;
                        SDMService.cmac := Utils.bytesToHex (firstn 8 full);
                        SDMService.piccData :=
                          SDMService.uid config ++ SDMService.counter config |})
      by congruence.
    rewrite Em.
    cbn [SDMService.encPiccData SDMService.cmac SDMService.piccData].
    rewrite !HexFacts.length_bytesToHex, length_firstn, Hle, Hlf.
    repeat split; reflexivity. }
  split; [split; [exact Hiff|] | split; [exact Hok|]].
  - intros (Hp & He & Hk).
    destruct (SdmFacts.generateSDM_ok config)
      as (keys & enc & full & _ & _ & _ & _ & _ & _ & _ & _ & Hgen);
      try assumption.
    { rewrite length_app. exact Hp. }
    { apply is_bytes_app; assumption. }
    rewrite Hgen. reflexivity.
  - intro other. reflexivity.
Qed.

Lemma X12_generateSDM_size_checks_witness :
  let config :=
    {| SDMService.cfg_piccData := [];
       SDMService.encKey := zeros 16; SDMService.macKey := zeros 16;
       SDMService.counter := [0; 0; 1];
       SDMService.uid := hx "04AABBCCDDEEFF" |} in
  (is_ok (SDMService.generateSDM config) = true <->
   (length (SDMService.uid config) + length (SDMService.counter config)
    = 10)%nat /\
   length (SDMService.encKey config) = 16%nat /\
   length (SDMService.macKey config) = 16%nat) /\
  (forall m, SDMService.generateSDM config = Ok m ->
     String.length (SDMService.encPiccData m) = 20%nat /\
     String.length (SDMService.cmac m) = 16%nat /\
     SDMService.piccData m
     = SDMService.uid config ++ SDMService.counter config) /\
  (forall other,
     SDMService.generateSDM
       {| SDMService.cfg_piccData := other;
          SDMService.encKey := SDMService.encKey config;
          SDMService.macKey := SDMService.macKey config;
          SDMService.counter := SDMService.counter config;
          SDMService.uid := SDMService.uid config |}
     = SDMService.generateSDM config).
Proof.
  intro config. apply (X12_generateSDM_size_checks config);
    apply is_bytesb_sound; reflexivity.
Defined.

(** X13.  [buildLNURL] removes one trailing slash of the base URL: a base
    and the same base followed by a slash give the same URL, in which base
    and card identifier are separated by one slash. *)
Theorem X13_buildLNURL_trailing_slash
        (base cardId : string) (m : SDMService.SDMMessage) :
  SDMService.buildLNURL (base ++ "/") cardId m
  = (base ++ "/" ++ cardId ++ "?p=" ++ SDMService.encPiccData m
          ++ "&c=" ++ SDMService.cmac m)%string /\
  (SDMService.endsWith_slash base = false ->
   SDMService.buildLNURL base cardId m
   = SDMService.buildLNURL (base ++ "/") cardId m).
Proof.
  assert (E : SDMService.buildLNURL (base ++ "/") cardId m
              = (base ++ "/" ++ cardId ++ "?p=" ++ SDMService.encPiccData m
                      ++ "&c=" ++ SDMService.cmac m)%string).
  { unfold SDMService.buildLNURL.
    rewrite SdmExtraFacts.endsWith_slash_snoc, SdmExtraFacts.drop_last_snoc.
    reflexivity. }
  split; [exact E|].
  intro H. rewrite E. unfold SDMService.buildLNURL. rewrite H. reflexivity.
Qed.

Lemma X13_buildLNURL_trailing_slash_witness :
  SDMService.buildLNURL "https://card.example/scan" "abc"
    {| SDMService.encPiccData := "00"; SDMService.cmac := "11";
       SDMService.piccData := [] |}
  = SDMService.buildLNURL ("https://card.example/scan" ++ "/") "abc"
      {| SDMService.encPiccData := "00"; SDMService.cmac := "11";
         SDMService.piccData := [] |}.
Proof.
  apply (proj2 (X13_buildLNURL_trailing_slash "https://card.example/scan"
                  "abc" _)).
  reflexivity.
Defined.

(** X14.  The key stream of [generateSDM] depends on the key only: for one
    card, the first 14 hexadecimal characters of the encrypted PICC data,
    which cover the UID, are the same for every counter. *)
Theorem X14_encrypted_uid_constant
        (uid c1 c2 K1 K2 : Uint8Array) :
  length uid = 7%nat -> is_bytes uid ->
  Session.valid_counter c1 -> Session.valid_counter c2 ->
  length K1 = 16%nat -> is_bytes K1 -> length K2 = 16%nat -> is_bytes K2 ->
  exists m1 m2,
    SDMService.generateSDM
      {| SDMService.cfg_piccData := uid ++ c1;
         SDMService.encKey := K1; SDMService.macKey := K2;
         SDMService.counter := c1; SDMService.uid := uid |} = Ok m1 /\
    SDMService.generateSDM
      {| SDMService.cfg_piccData := uid ++ c2;
         SDMService.encKey := K1; SDMService.macKey := K2;
         SDMService.counter := c2; SDMService.uid := uid |} = Ok m2 /\
    substring 0 14 (SDMService.encPiccData m1)
    = substring 0 14 (SDMService.encPiccData m2).
Proof.
  intros Hu Bu [Hc1 Bc1] [Hc2 Bc2] H1 B1 H2 B2.
  destruct (SdmFacts.deriveSDMSessionKeys_ok K1 K2 None H1 H2
              (repeat_length 0 16) B1 B2 (is_bytes_zeros 16))
    as (ke & km & Hkeys & _ & _ & Hle & Hbe & _ & _).
  assert (G : forall c, length c = 3%nat -> is_bytes c ->
    exists cm,
      SDMService.generateSDM
        {| SDMService.cfg_piccData := uid ++ c;
           SDMService.encKey := K1; SDMService.macKey := K2;
           SDMService.counter := c; SDMService.uid := uid |}
      = Ok {| SDMService.encPiccData :=
                Utils.bytesToHex
                  (AesModel.ctr_output (uid ++ c)
                     (AesModel.keystream ke (zeros 16)
                        (CryptoJS.nBlocksReady 10)));
              SDMService.cmac := cm;
              SDMService.piccData := uid ++ c |}).
  { intros c Hc Bc.
    destruct (SdmFacts.generateSDM_ok
                {| SDMService.cfg_piccData := uid ++ c;
                   SDMService.encKey := K1; SDMService.macKey := K2;
                   SDMService.counter := c; SDMService.uid := uid |})
      as (keys & enc & full & Hk & He & _ & _ & _ & _ & _ & _ & Hgen);
      cbn [SDMService.uid SDMService.counter SDMService.encKey
           SDMService.macKey]; try assumption.
    { rewrite length_app. lia. }
    { apply is_bytes_app; assumption. }
    cbn [SDMService.uid SDMService.counter SDMService.encKey
         SDMService.macKey] in Hk, He, Hgen.
    rewrite Hkeys in Hk. injection Hk as <-.
    cbn [SessionKeys.KSesSDMFileEnc] in He.
    rewrite AesFacts.aesEncryptCTR_ok in He;
      [| assumption | apply length_zeros | assumption | apply is_bytes_zeros
       | apply is_bytes_app; assumption].
    injection He as <-.
    replace (length (uid ++ c)) with 10%nat in Hgen
      by (rewrite length_app; lia).
    eexists. exact Hgen. }
  destruct (G c1 Hc1 Bc1) as [cm1 G1]. destruct (G c2 Hc2 Bc2) as [cm2 G2].
  eexists. eexists. split; [exact G1|]. split; [exact G2|].
  cbn [SDMService.encPiccData].
  change 14%nat with (2 * 7)%nat.
  rewrite !SdmExtraFacts.substring_bytesToHex. f_equal.
  rewrite <- Hu. apply SdmExtraFacts.ctr_output_prefix.
  rewrite AesFacts.length_keystream, Hu.
  pose proof (AesFacts.nBlocksReady_covers 10). lia.
Qed.

Lemma X14_encrypted_uid_constant_witness :
  exists m1 m2,
    SDMService.generateSDM
      {| SDMService.cfg_piccData := hx "04AABBCCDDEEFF" ++ [0; 0; 1];
         SDMService.encKey := zeros 16; SDMService.macKey := zeros 16;
         SDMService.counter := [0; 0; 1];
         SDMService.uid := hx "04AABBCCDDEEFF" |} = Ok m1 /\
    SDMService.generateSDM
      {| SDMService.cfg_piccData := hx "04AABBCCDDEEFF" ++ [0; 0; 2];
         SDMService.encKey := zeros 16; SDMService.macKey := zeros 16;
         SDMService.counter := [0; 0; 2];
         SDMService.uid := hx "04AABBCCDDEEFF" |} = Ok m2 /\
    substring 0 14 (SDMService.encPiccData m1)
    = substring 0 14 (SDMService.encPiccData m2).
Proof.
  apply (X14_encrypted_uid_constant (hx "04AABBCCDDEEFF") [0; 0; 1]
           [0; 0; 2] (zeros 16) (zeros 16));
    try reflexivity;
    try (split; [reflexivity|]); apply is_bytesb_sound; reflexivity.
Defined.

(** X15.  After a successful [setCounter] the stored counter is the given
    value, whatever was stored before; when the configuration could be
    read, its other fields are kept.  After a successful [clearConfig],
    [getCounter] returns 0. *)
Theorem X15_setCounter_getCounter :
  (forall (load_ok save_ok : bool) (value : Z)
          (store store' : StorageService.Store),
      StorageService.setCounter load_ok save_ok value store = Ok store' ->
      StorageService.getCounter true store' = value) /\
  (forall (value : Z) (c : StorageService.AppConfig)
          (store' : StorageService.Store),
      StorageService.setCounter true true value (Some c) = Ok store' ->
      store' = Some {| StorageService.keys := StorageService.keys c;
                       StorageService.lnurlBase := StorageService.lnurlBase c;
                       StorageService.cardId := StorageService.cardId c;
                       StorageService.counter := value;
                       StorageService.enabled := StorageService.enabled c |}) /\
  (forall (ok : bool) (store' : StorageService.Store),
      StorageService.clearConfig true = Ok store' ->
      StorageService.getCounter ok store' = 0).
Proof.
  split; [| split].
  - intros lo so value store store' H.
    unfold StorageService.setCounter, StorageService.updateConfig,
      StorageService.saveConfig in H.
    destruct so; [|discriminate]. cbn [bind fst] in H. injection H as <-.
    reflexivity.
  - intros value c store' H. cbn in H. injection H as <-.
    reflexivity.
  - intros ok store' H. injection H as <-. destruct ok; reflexivity.
Qed.

Lemma X15_setCounter_getCounter_witness :
  StorageService.getCounter true (Some (scenario_config 41)) = 41.
Proof.
  apply (proj1 X15_setCounter_getCounter true true 41
           (Some (scenario_config 7)) (Some (scenario_config 41))).
  reflexivity.
Defined.

(** X16.  [loadConfig] turns a failed read into [null], so an
    [updateConfig] whose read fails and whose write succeeds stores the
    defaults overridden by the update: the stored keys, base URL and card
    identifier are lost.  For [incrementCounter] this leaves the default
    configuration with only the new counter. *)
Theorem X16_failed_read_resets_configuration :
  (forall (partial : StorageService.PartialConfig)
          (store : StorageService.Store),
      StorageService.updateConfig false true partial store
      = StorageService.updateConfig true true partial None) /\
  (forall (first_read_ok : bool) (c : StorageService.AppConfig),
      StorageService.incrementCounter
        {| StorageService.load_ok := first_read_ok;
           StorageService.reload_ok := false;
           StorageService.save_ok := true |} (Some c)
      = let n := (if first_read_ok then StorageService.counter c else 0) + 1 in
        Ok (Some {| StorageService.keys := None;
                    StorageService.lnurlBase :=
                      StorageService.lnurlBase StorageService.DEFAULT_CONFIG;
                    StorageService.cardId := "";
                    StorageService.counter := n;
                    StorageService.enabled := false |}, n)).
Proof.
  split.
  - intros partial store. reflexivity.
  - intros [|] c; reflexivity.
Qed.

(** X17.  As long as the stored counter stays within 2^53, where the
    [+ 1] of the code on a JS number is exact, [n] successive
    [incrementCounter] calls whose storage calls all succeed add [n] to the
    stored counter, with no reduction modulo 2^24, and keep the other
    fields of a stored configuration. *)
Theorem X17_increments_add (n : nat) (store : StorageService.Store) :
  - 2 ^ 53 <= StorageService.getCounter true store ->
  StorageService.getCounter true store + Z.of_nat n <= 2 ^ 53 ->
  exists store',
    Extra.increments n store = Ok store' /\
    StorageService.getCounter true store'
    = StorageService.getCounter true store + Z.of_nat n /\
    forall c, store = Some c ->
      exists c',
        store' = Some c' /\
        StorageService.keys c' = StorageService.keys c /\
        StorageService.lnurlBase c' = StorageService.lnurlBase c /\
        StorageService.cardId c' = StorageService.cardId c /\
        StorageService.enabled c' = StorageService.enabled c.
Proof.
  intros _ _.
  revert store. induction n as [|n IH]; intro store.
  - exists store. split; [reflexivity|]. split.
    + cbn [Z.of_nat]. lia.
    + intros c ->. exists c. auto.
  - cbn [Extra.increments].
    set (next := StorageService.merge store
                   (StorageService.counter_only
                      (StorageService.getCounter true store + 1))).
    assert (E : StorageService.incrementCounter StorageService.all_ok store
                = Ok (Some next,
                      StorageService.getCounter true store + 1))
      by reflexivity.
    rewrite E. cbn [bind fst].
    destruct (IH (Some next)) as (store' & Hrun & Hcount & Hkeep).
    exists store'. split; [exact Hrun|]. split.
    + rewrite Hcount.
      change (StorageService.getCounter true (Some next))
        with (StorageService.getCounter true store + 1).
      lia.
    + intros c ->. destruct (Hkeep next eq_refl) as (c' & -> & K & L & I & B).
      exists c'. split; [reflexivity|].
      rewrite K, L, I, B. repeat split; reflexivity.
Qed.

Lemma X17_increments_add_witness :
  exists store',
    Extra.increments 3 (Some (scenario_config 16777214)) = Ok store' /\
    StorageService.getCounter true store'
    = StorageService.getCounter true (Some (scenario_config 16777214))
      + Z.of_nat 3 /\
    forall c, Some (scenario_config 16777214) = Some c ->
      exists c',
        store' = Some c' /\
        StorageService.keys c' = StorageService.keys c /\
        StorageService.lnurlBase c' = StorageService.lnurlBase c /\
        StorageService.cardId c' = StorageService.cardId c /\
        StorageService.enabled c' = StorageService.enabled c.
Proof.
  apply (X17_increments_add 3 (Some (scenario_config 16777214)));
    vm_compute; discriminate.
Defined.


(** ** [APDUParser.ts], [APDUBuilder.ts], [commands.ts],
       [constants/apdu.ts] *)

Module ApduFacts.
Import Apdu.

Lemma to_uint8_byte (b : Z) : is_byte b -> to_uint8 b = b.
Proof. intro H. apply Z.mod_small. exact H. Qed.

Lemma map_to_uint8_bytes (l : list Z) : is_bytes l -> map to_uint8 l = l.
Proof.
  induction 1 as [|x l Hx _ IH]; [reflexivity|].
  cbn [map]. rewrite IH, to_uint8_byte by assumption. reflexivity.
Qed.

(** A command with a data field: [Lc], the data, and the byte after the
    data as [Le]; what follows is not read. *)
Lemma parseAPDU_with_data (cla ins p1 p2 : Z) (d rest : list Z) :
  (0 < length d)%nat ->
  parseAPDU (cla :: ins :: p1 :: p2 :: Z.of_nat (length d) :: d ++ rest)
  = Ok {| CLA := cla; INS := ins; P1 := p1; P2 := p2;
          Lc := Some (Z.of_nat (length d)); data := Some d;
          Le := match rest with [] => None | le :: _ => Some le end |}.
Proof.
  intro Hd. unfold parseAPDU, byte_at.
  set (bytes := cla :: ins :: p1 :: p2 :: Z.of_nat (length d) :: d ++ rest).
  assert (Hl : length bytes = (5 + length d + length rest)%nat).
  { unfold bytes. cbn [length]. rewrite length_app. lia. }
  change (nth 0 bytes 0) with cla. change (nth 1 bytes 0) with ins.
  change (nth 2 bytes 0) with p1. change (nth 3 bytes 0) with p2.
  change (nth 4 bytes 0) with (Z.of_nat (length d)).
  rewrite Nat2Z.id.
  destruct (Nat.ltb_spec (length bytes) 4) as [H | _]; [lia|].
  destruct (Nat.eqb_spec (length bytes) 4) as [H | _]; [lia|].
  destruct (Nat.eqb_spec (length bytes) 5) as [H | _]; [lia|].
  destruct (Nat.ltb_spec (length bytes) (5 + length d)) as [H | _]; [lia|].
  destruct (Z.ltb_spec 0 (Z.of_nat (length d))) as [_ | H]; [|lia].
  assert (Es : slice bytes 5 (5 + length d) = d).
  { unfold slice, bytes.
    replace (5 + length d - 5)%nat with (length d) by lia.
    cbn [skipn].
    rewrite firstn_app, Nat.sub_diag, firstn_O, app_nil_r.
    apply firstn_all. }
  assert (En : nth (5 + length d) bytes 0
               = match rest with [] => 0 | le :: _ => le end).
  { unfold bytes. cbn [Nat.add nth].
    rewrite app_nth2 by lia. rewrite Nat.sub_diag. destruct rest; reflexivity. }
  rewrite Es, En.
  destruct (Nat.ltb_spec (5 + length d) (length bytes)) as [H | H];
    destruct rest as [|le rest]; cbn [length] in Hl; try lia; reflexivity.
Qed.

Lemma status_word_low_16 (sw : Z) :
  Z.lor (Z.shiftl (Z.land (Z.shiftr sw 8) 255) 8) (Z.land sw 255)
  = Z.land sw 65535.
Proof.
  rewrite UtilsFacts.lor_shift_byte by apply land_255_is_byte.
  rewrite !CounterFacts.land_255_mod, CounterFacts.shiftr_8_div.
  change 65535 with (Z.ones 16). rewrite Z.land_ones by lia.
  change (2 ^ 16) with (256 * 256).
  rewrite Z.rem_mul_r by lia. ring.
Qed.

Lemma bytesEqual_iff (a b : Uint8Array) : bytesEqual a b = true <-> a = b.
Proof.
  unfold bytesEqual. split.
  - destruct (Nat.eqb_spec (length a) (length b)) as [E | E]; cbn [negb];
      [|discriminate].
    revert b E. induction a as [|x a IH]; intros [|y b] E; try discriminate.
    + reflexivity.
    + cbn [combine forallb fst snd]. intro H.
      apply andb_true_iff in H as [Hxy Hr]. apply Z.eqb_eq in Hxy.
      f_equal; [exact Hxy | apply IH; [simpl in E; lia | exact Hr]].
  - intros <-. rewrite Nat.eqb_refl. cbn [negb].
    induction a as [|x a IH]; [reflexivity|].
    cbn [combine forallb fst snd]. rewrite Z.eqb_refl. exact IH.
Qed.

End ApduFacts.

(** X18.  [parseAPDU] throws on fewer than four bytes, with a message that
    gives their number, reads back every well-formed command that
    [serializeAPDU] wrote, and does not read what follows the [Le] byte of
    a command with data. *)
Theorem X18_parseAPDU_serializeAPDU :
  (forall bytes : Uint8Array,
      (length bytes < 4)%nat ->
      Apdu.parseAPDU bytes
      = Throw ("Invalid APDU: too short ("
               ++ Apdu.decimal (Z.of_nat (length bytes)) ++ " bytes)")) /\
  (forall command : Apdu.APDUCommand,
      Extra.well_formed command ->
      Apdu.parseAPDU (Apdu.serializeAPDU command) = Ok command) /\
  (forall (cla ins p1 p2 le : Z) (d ignored : Uint8Array),
      (0 < length d)%nat ->
      Apdu.parseAPDU (cla :: ins :: p1 :: p2 :: Z.of_nat (length d)
                          :: d ++ le :: ignored)
      = Apdu.parseAPDU (cla :: ins :: p1 :: p2 :: Z.of_nat (length d)
                            :: d ++ [le])).
Proof.
  split; [| split].
  - intros bytes H. unfold Apdu.parseAPDU.
    destruct (Nat.ltb_spec (length bytes) 4); [reflexivity | lia].
  - intros [cla ins p1 p2 lc d le] (Hc & Hi & H1 & H2 & Hd & Hle).
    cbn [Apdu.CLA Apdu.INS Apdu.P1 Apdu.P2 Apdu.Lc Apdu.data Apdu.Le]
      in Hc, Hi, H1, H2, Hd, Hle.
    unfold Apdu.serializeAPDU.
    cbn [Apdu.CLA Apdu.INS Apdu.P1 Apdu.P2 Apdu.Lc Apdu.data Apdu.Le].
    destruct d as [d|].
    + destruct Hd as (Hlen & Bd & ->).
      destruct (Nat.ltb_spec 0 (length d)) as [_ | H]; [|lia].
      cbn [app map]. rewrite map_app, (ApduFacts.map_to_uint8_bytes d Bd).
      rewrite !ApduFacts.to_uint8_byte
        by (assumption || (unfold is_byte; lia)).
      rewrite ApduFacts.parseAPDU_with_data by lia.
      destruct le as [le|]; cbn [map].
      * rewrite ApduFacts.to_uint8_byte by assumption. reflexivity.
      * reflexivity.
    + subst lc. cbn [app map].
      rewrite !ApduFacts.to_uint8_byte by assumption.
      destruct le as [le|]; cbn [map].
      * rewrite ApduFacts.to_uint8_byte by assumption. reflexivity.
      * reflexivity.
  - intros cla ins p1 p2 le d ignored Hd.
    rewrite !ApduFacts.parseAPDU_with_data by assumption. reflexivity.
Qed.

Lemma X18_parseAPDU_serializeAPDU_witness :
  let select_ndef :=
    {| Apdu.CLA := 0; Apdu.INS := 0xA4; Apdu.P1 := 0; Apdu.P2 := 0;
       Apdu.Lc := Some 2; Apdu.data := Some [0x00; 0x02];
       Apdu.Le := Some 0 |} in
  Apdu.parseAPDU [0x00; 0xB0; 0x00]
  = Throw "Invalid APDU: too short (3 bytes)" /\
  Apdu.parseAPDU (Apdu.serializeAPDU select_ndef) = Ok select_ndef.
Proof.
  intro select_ndef. split.
  - apply (proj1 X18_parseAPDU_serializeAPDU [0x00; 0xB0; 0x00]).
    cbn [length]. lia.
  - apply (proj1 (proj2 X18_parseAPDU_serializeAPDU) select_ndef).
    unfold Extra.well_formed, is_byte. cbn.
    repeat split; try lia; try reflexivity.
    repeat constructor; unfold is_byte; lia.
Defined.

(** X19.  [parseResponse] throws on fewer than two bytes and reads back
    what [serializeResponse] wrote, an empty data field read back as
    absent.  The status word of a built response, put together again by
    [getStatusWord] or [bytesToStatusWord], is the low 16 bits of the given
    number, and [serializeResponse] of an error response is
    [statusWordToBytes]. *)
Theorem X19_response_round_trip :
  (forall bytes : Uint8Array,
      (length bytes < 2)%nat ->
      Apdu.parseResponse bytes = Throw "Invalid APDU response: too short") /\
  (forall r : Apdu.APDUResponse,
      is_byte (Apdu.SW1 r) -> is_byte (Apdu.SW2 r) ->
      Apdu.parseResponse (Apdu.serializeResponse r)
      = Ok (Extra.without_empty_data r)) /\
  (forall (d : option Uint8Array) (sw : Z),
      Apdu.getStatusWord (Apdu.buildResponse d sw) = Z.land sw 65535 /\
      Apdu.getStatusWord (Apdu.buildErrorResponse sw) = Z.land sw 65535 /\
      Apdu.bytesToStatusWord (nth 0 (Apdu.statusWordToBytes sw) 0)
                             (nth 1 (Apdu.statusWordToBytes sw) 0)
      = Z.land sw 65535 /\
      Apdu.serializeResponse (Apdu.buildErrorResponse sw)
      = Apdu.statusWordToBytes sw).
Proof.
  split; [| split].
  - intros bytes H. unfold Apdu.parseResponse.
    destruct (Nat.ltb_spec (length bytes) 2); [reflexivity | lia].
  - intros [d sw1 sw2] H1 H2. cbn [Apdu.SW1 Apdu.SW2] in H1, H2.
    unfold Apdu.serializeResponse, Extra.without_empty_data.
    cbn [Apdu.rdata Apdu.SW1 Apdu.SW2].
    rewrite !ApduFacts.to_uint8_byte by assumption.
    destruct d as [[|x d]|]; try reflexivity.
    cbn [length Nat.ltb Nat.leb].
    unfold Apdu.parseResponse, Apdu.byte_at.
    rewrite length_app. cbn [length].
    destruct (Nat.ltb_spec (S (length d) + 2) 2) as [H | _]; [lia|].
    destruct (Nat.ltb_spec 2 (S (length d) + 2)) as [_ | H]; [|lia].
    replace (S (length d) + 2 - 2)%nat with (length (x :: d))
      by (cbn [length]; lia).
    replace (S (length d) + 2 - 1)%nat with (S (length (x :: d)))
      by (cbn [length]; lia).
    rewrite !app_nth2 by lia.
    replace (S (length (x :: d)) - length (x :: d))%nat with 1%nat by lia.
    rewrite Nat.sub_diag. cbn [nth].
    unfold slice. rewrite Nat.sub_0_r, skipn_O.
    rewrite firstn_app, Nat.sub_diag, firstn_O, app_nil_r, firstn_all.
    reflexivity.
  - intros d sw.
    unfold Apdu.getStatusWord, Apdu.bytesToStatusWord, Apdu.statusWordToBytes,
      Apdu.buildResponse, Apdu.buildErrorResponse, Apdu.serializeResponse.
    cbn [Apdu.SW1 Apdu.SW2 Apdu.rdata nth].
    rewrite !ApduFacts.to_uint8_byte by apply land_255_is_byte.
    rewrite ApduFacts.status_word_low_16. auto.
Qed.

Lemma X19_response_round_trip_witness :
  Apdu.parseResponse
    (Apdu.serializeResponse (Apdu.buildSuccessResponse (Some [1; 2; 3])))
  = Ok (Extra.without_empty_data (Apdu.buildSuccessResponse (Some [1; 2; 3]))).
Proof.
  apply (proj1 (proj2 X19_response_round_trip)
           (Apdu.buildSuccessResponse (Some [1; 2; 3])));
    unfold is_byte; cbn; lia.
Defined.

(** X20.  [bytesEqual] is equality of byte arrays. *)
Theorem X20_bytesEqual_is_equality (a b : Uint8Array) :
  Apdu.bytesEqual a b = true <-> a = b.
Proof. apply ApduFacts.bytesEqual_iff. Qed.

(** ** [NTAG424Service.ts], [SelectHandler.ts], [ReadHandler.ts],
       [CryptoService.ts] *)

Module ServiceExtraFacts.
Import Apdu NTAG424Service Session.

Lemma success_ends_with_status (d : option Uint8Array) :
  Extra.ends_with_status (serializeResponse (buildSuccessResponse d)).
Proof.
  unfold serializeResponse, buildSuccessResponse. cbn [rdata SW1 SW2].
  destruct d as [[|x d]|].
  - exists [], [0x90; 0x00]. split; [reflexivity | cbn; tauto].
  - exists (x :: d), [0x90; 0x00]. split; [reflexivity | cbn; tauto].
  - exists [], [0x90; 0x00]. split; [reflexivity | cbn; tauto].
Qed.

Lemma error_ends_with_status (sw : Z) :
  In sw [SW.SECURITY_STATUS_NOT_SATISFIED; SW.FILE_NOT_FOUND;
         SW.WRONG_PARAMETERS; SW.INSTRUCTION_NOT_SUPPORTED;
         SW.UNKNOWN_ERROR] ->
  Extra.ends_with_status (serializeResponse (buildErrorResponse sw)).
Proof.
  intro H. exists [], (serializeResponse (buildErrorResponse sw)).
  split; [reflexivity|].
  cbn [In] in H.
  destruct H as [<- | [<- | [<- | [<- | [<- | []]]]]]; cbn; tauto.
Qed.

Lemma handleSelect_ends_with_status
      {S : Type} (command : APDUCommand) (f : option (Z -> S -> S)) (st : S) :
  Extra.ends_with_status
    (serializeResponse (snd (Handlers.handleSelect command f st))).
Proof.
  unfold Handlers.handleSelect.
  destruct (getSelectAID command) as [aid|]; cbn [snd].
  - unfold Handlers.handleSelectByAID. destruct (bytesEqual aid NTAG424_AID).
    + apply success_ends_with_status.
    + apply error_ends_with_status. cbn; tauto.
  - destruct (getSelectFileID command) as [fileId|]; cbn [snd].
    + unfold Handlers.handleSelectByFileID. destruct (negb _).
      * apply error_ends_with_status. cbn; tauto.
      * apply success_ends_with_status.
    + apply error_ends_with_status. cbn; tauto.
Qed.

Lemma read_portion_ends_with_status (file : Uint8Array) (offset len : Z) :
  Extra.ends_with_status
    (serializeResponse (Handlers.read_portion file offset len)).
Proof.
  unfold Handlers.read_portion.
  destruct (_ <=? _); apply success_ends_with_status.
Qed.

Lemma handleReadBinary_ends_with_status
      {S : Type} (command : APDUCommand) (sel : option Z)
      (g : S -> result Uint8Array) (inc : option (S -> S)) (st : S) :
  match snd (Handlers.handleReadBinary command sel g inc st) with
  | Ok r => Extra.ends_with_status (serializeResponse r)
  | Throw _ => True
  end.
Proof.
  unfold Handlers.handleReadBinary.
  destruct sel as [fileId|]; cbn [snd];
    [| apply error_ends_with_status; cbn; tauto].
  destruct (getReadOffset command) as [offset|]; cbn [snd]; [|exact I].
  destruct (getReadLength command) as [len|]; cbn [snd]; [|exact I].
  destruct (fileId =? FILE_ID.CC); cbn [snd];
    [apply read_portion_ends_with_status|].
  destruct (fileId =? FILE_ID.NDEF); cbn [snd];
    [| apply error_ends_with_status; cbn; tauto].
  unfold Handlers.handleReadNDEF.
  destruct (g _); cbn [bind]; [apply read_portion_ends_with_status | exact I].
Qed.

(** [parseAPDU] reads the class byte into [CLA] and nothing else. *)
Lemma parseAPDU_cla (cla : Z) (rest : list Z) :
  parseAPDU (cla :: rest)
  = match parseAPDU (0 :: rest) with
    | Ok c => Ok {| CLA := cla; INS := INS c; P1 := P1 c; P2 := P2 c;
                    Lc := Lc c; data := data c; Le := Le c |}
    | Throw m => Throw m
    end.
Proof.
  unfold parseAPDU.
  change (length (cla :: rest)) with (length (0 :: rest)).
  destruct (Nat.ltb (length (0 :: rest)) 4); [reflexivity|].
  destruct (Nat.eqb (length (0 :: rest)) 4); [reflexivity|].
  destruct (Nat.eqb (length (0 :: rest)) 5); [reflexivity|].
  change (byte_at (cla :: rest) 4) with (byte_at (0 :: rest) 4).
  destruct (Nat.ltb (length (0 :: rest))
                    (5 + Z.to_nat (byte_at (0 :: rest) 4))); reflexivity.
Qed.

Lemma parseAPDU_4 (cla ins p1 p2 : Z) :
  parseAPDU [cla; ins; p1; p2]
  = Ok {| CLA := cla; INS := ins; P1 := p1; P2 := p2;
          Lc := None; data := None; Le := None |}.
Proof. reflexivity. Qed.

Lemma parseAPDU_5 (cla ins p1 p2 le : Z) :
  parseAPDU [cla; ins; p1; p2; le]
  = Ok {| CLA := cla; INS := ins; P1 := p1; P2 := p2;
          Lc := None; data := None; Le := Some le |}.
Proof. reflexivity. Qed.

Lemma read_not_select (command : APDUCommand) :
  INS command = 0xB0 ->
  isSelectCommand command = false /\ isReadBinaryCommand command = true.
Proof.
  intro H. unfold isSelectCommand, isReadBinaryCommand. rewrite H.
  split; reflexivity.
Qed.

(** [processAPDU] on a READ BINARY while the capability container is
    selected. *)
Lemma processAPDU_read_cc (w : World) (bytes : Uint8Array) (offset len : Z) :
  selectedFileId (state w) = Some FILE_ID.CC ->
  reads_at bytes = Some (offset, len) ->
  processAPDU w bytes
  = (w, serializeResponse (Handlers.read_portion Handlers.cc offset len)).
Proof.
  intros Hsel Hread.
  destruct (ServiceFacts.reads_at_inv bytes offset len Hread)
    as (command & Hp & Hr & Hs & Ho & Hl).
  unfold processAPDU. rewrite Hp, Hs, Hr.
  unfold handleReadCommand, Handlers.handleReadBinary.
  rewrite Hsel, Ho, Hl. reflexivity.
Qed.

Lemma generateSDM_throws (config : SDMService.SDMConfig) :
  length (SDMService.encKey config) <> 16%nat \/
  length (SDMService.macKey config) <> 16%nat ->
  exists msg, SDMService.generateSDM config = Throw msg.
Proof.
  intro H. unfold SDMService.generateSDM.
  destruct (negb _); [eexists; reflexivity|].
  destruct (CryptoFacts.deriveSDMSessionKeys_throws
              (SDMService.encKey config) (SDMService.macKey config) None H)
    as [msg E].
  rewrite E. eexists. reflexivity.
Qed.

End ServiceExtraFacts.

(** X21.  Every response of [processAPDU] ends with one of the status words
    9000, 6982, 6A82, 6A86, 6D00 and 6F00, whatever the input and the
    state. *)
Theorem X21_processAPDU_status_words
        (w : NTAG424Service.World) (bytes : Uint8Array) :
  exists data sw,
    snd (NTAG424Service.processAPDU w bytes) = data ++ sw /\
    In sw Extra.service_status_words.
Proof.
  change (Extra.ends_with_status (snd (NTAG424Service.processAPDU w bytes))).
  assert (F : Extra.ends_with_status
                (Apdu.serializeResponse
                   (Apdu.buildErrorResponse SW.UNKNOWN_ERROR)))
    by (apply ServiceExtraFacts.error_ends_with_status; cbn; tauto).
  unfold NTAG424Service.processAPDU.
  destruct (Apdu.parseAPDU bytes) as [command|]; [|exact F].
  destruct (Apdu.isSelectCommand command).
  - pose proof (ServiceExtraFacts.handleSelect_ends_with_status command
                  (Some NTAG424Service.select_file) w) as A.
    unfold NTAG424Service.handleSelectCommand.
    destruct (Handlers.handleSelect command _ w) as [w' r]. exact A.
  - destruct (Apdu.isReadBinaryCommand command).
    + pose proof (ServiceExtraFacts.handleReadBinary_ends_with_status command
                    (NTAG424Service.selectedFileId (NTAG424Service.state w))
                    NTAG424Service.generateNDEFData
                    (Some NTAG424Service.handleCounterIncrement) w) as A.
      unfold NTAG424Service.handleReadCommand.
      destruct (Handlers.handleReadBinary command _ _ _ w) as [w' [r|m]];
        [exact A | exact F].
    + apply ServiceExtraFacts.error_ends_with_status. cbn; tauto.
Qed.

(** X22.  [processAPDU] never changes the keys, the base URL, the card
    identifier, the authentication flag or the store.  It starts at most
    one persistence task, and the counter in memory changes only together
    with a started task, to its successor. *)
Theorem X22_processAPDU_leaves_configuration
        (w : NTAG424Service.World) (bytes : Uint8Array) :
  let w' := fst (NTAG424Service.processAPDU w bytes) in
  NTAG424Service.keys w' = NTAG424Service.keys w /\
  NTAG424Service.lnurlBase w' = NTAG424Service.lnurlBase w /\
  NTAG424Service.cardId w' = NTAG424Service.cardId w /\
  NTAG424Service.store w' = NTAG424Service.store w /\
  NTAG424Service.authenticated (NTAG424Service.state w')
  = NTAG424Service.authenticated (NTAG424Service.state w) /\
  ((NTAG424Service.pending w' = NTAG424Service.pending w /\
    NTAG424Service.counter (NTAG424Service.state w')
    = NTAG424Service.counter (NTAG424Service.state w)) \/
   (NTAG424Service.pending w' = S (NTAG424Service.pending w) /\
    NTAG424Service.counter (NTAG424Service.state w')
    = Utils.incrementCounter
        (NTAG424Service.counter (NTAG424Service.state w)))).
Proof.
  intro w'. subst w'. unfold NTAG424Service.processAPDU.
  destruct (Apdu.parseAPDU bytes) as [command|]; [|cbn [fst]; auto 10].
  destruct (Apdu.isSelectCommand command).
  - unfold NTAG424Service.handleSelectCommand, Handlers.handleSelect.
    destruct (Apdu.getSelectAID command); [cbn [fst]; auto 10|].
    destruct (Apdu.getSelectFileID command); [|cbn [fst]; auto 10].
    destruct (_ && _); cbn; auto 10.
  - destruct (Apdu.isReadBinaryCommand command); [|cbn [fst]; auto 10].
    unfold NTAG424Service.handleReadCommand, Handlers.handleReadBinary.
    destruct (NTAG424Service.selectedFileId (NTAG424Service.state w))
      as [fileId|]; [|cbn [fst]; auto 10].
    destruct (Apdu.getReadOffset command) as [offset|]; [|cbn [fst]; auto 10].
    destruct (Apdu.getReadLength command) as [len|]; [|cbn [fst]; auto 10].
    destruct (fileId =? FILE_ID.CC); [cbn [fst]; auto 10|].
    destruct (fileId =? FILE_ID.NDEF); [|cbn [fst]; auto 10].
    destruct (offset =? 0);
      destruct (Handlers.handleReadNDEF offset len _ _);
      cbn [fst]; try (auto 10; fail);
      (repeat split; try reflexivity; right; split; reflexivity).
Qed.

(** X23.  The error paths of [processAPDU] leave the state as it is: input
    that [parseAPDU] rejects is answered 6F00, an instruction other than
    SELECT and READ BINARY 6D00, a READ BINARY with no file selected 6982,
    and a READ BINARY of a selected file other than the capability
    container and the NDEF file 6A82. *)
Theorem X23_processAPDU_error_paths
        (w : NTAG424Service.World) (bytes : Uint8Array) :
  ((length bytes < 4)%nat ->
   NTAG424Service.processAPDU w bytes = (w, [0x6F; 0x00])) /\
  (forall msg, Apdu.parseAPDU bytes = Throw msg ->
   NTAG424Service.processAPDU w bytes = (w, [0x6F; 0x00])) /\
  (forall c, Apdu.parseAPDU bytes = Ok c ->
   Apdu.INS c <> 0xA4 -> Apdu.INS c <> 0xB0 ->
   NTAG424Service.processAPDU w bytes = (w, [0x6D; 0x00])) /\
  (forall c, Apdu.parseAPDU bytes = Ok c -> Apdu.INS c = 0xB0 ->
   NTAG424Service.selectedFileId (NTAG424Service.state w) = None ->
   NTAG424Service.processAPDU w bytes = (w, [0x69; 0x82])) /\
  (forall c fileId, Apdu.parseAPDU bytes = Ok c -> Apdu.INS c = 0xB0 ->
   NTAG424Service.selectedFileId (NTAG424Service.state w) = Some fileId ->
   fileId <> FILE_ID.CC -> fileId <> FILE_ID.NDEF ->
   NTAG424Service.processAPDU w bytes = (w, [0x6A; 0x82])).
Proof.
  assert (T : forall msg, Apdu.parseAPDU bytes = Throw msg ->
              NTAG424Service.processAPDU w bytes = (w, [0x6F; 0x00])).
  { intros msg H. unfold NTAG424Service.processAPDU. rewrite H. reflexivity. }
  split; [| split; [exact T | split; [| split]]].
  - intro H.
    apply (T ("Invalid APDU: too short ("
              ++ Apdu.decimal (Z.of_nat (length bytes)) ++ " bytes)")%string).
    unfold Apdu.parseAPDU.
    destruct (Nat.ltb_spec (length bytes) 4); [reflexivity | lia].
  - intros c Hp Hs Hr. unfold NTAG424Service.processAPDU. rewrite Hp.
    unfold Apdu.isSelectCommand, Apdu.isReadBinaryCommand.
    destruct (Z.eqb_spec (Apdu.INS c) INS.SELECT); [contradiction|].
    destruct (Z.eqb_spec (Apdu.INS c) INS.READ_BINARY); [contradiction|].
    reflexivity.
  - intros c Hp Hi Hsel. unfold NTAG424Service.processAPDU. rewrite Hp.
    destruct (ServiceExtraFacts.read_not_select c Hi) as [-> ->].
    unfold NTAG424Service.handleReadCommand, Handlers.handleReadBinary.
    rewrite Hsel. reflexivity.
  - intros c fileId Hp Hi Hsel Hcc Hnd.
    unfold NTAG424Service.processAPDU. rewrite Hp.
    destruct (ServiceExtraFacts.read_not_select c Hi) as [Hs Hr].
    rewrite Hs, Hr.
    unfold NTAG424Service.handleReadCommand, Handlers.handleReadBinary.
    rewrite Hsel. unfold Apdu.getReadOffset, Apdu.getReadLength.
    rewrite Hr. cbn [negb].
    destruct (Z.eqb_spec fileId FILE_ID.CC); [contradiction|].
    destruct (Z.eqb_spec fileId FILE_ID.NDEF); [contradiction|].
    reflexivity.
Qed.

Lemma X23_processAPDU_error_paths_witness :
  NTAG424Service.processAPDU (scenario_world 5) [0x00; 0xB0; 0x00]
  = (scenario_world 5, [0x6F; 0x00]).
Proof.
  apply (proj1 (X23_processAPDU_error_paths (scenario_world 5)
                  [0x00; 0xB0; 0x00])).
  cbn [length]. lia.
Defined.

(** X24.  The class byte of a command is not looked at: two inputs that
    differ in their first byte only get the same response and lead to the
    same state. *)
Theorem X24_class_byte_ignored
        (w : NTAG424Service.World) (cla cla' : Z) (rest : list Z) :
  NTAG424Service.processAPDU w (cla :: rest)
  = NTAG424Service.processAPDU w (cla' :: rest).
Proof.
  unfold NTAG424Service.processAPDU.
  rewrite (ServiceExtraFacts.parseAPDU_cla cla rest),
    (ServiceExtraFacts.parseAPDU_cla cla' rest).
  destruct (Apdu.parseAPDU (0 :: rest)) as [c|]; [|reflexivity].
  destruct c as [c0 ins p1 p2 lc d le]. reflexivity.
Qed.

Module SelectFacts.
Import Apdu NTAG424Service Session.

(** [processAPDU] on a SELECT by name with a data field. *)
Lemma processAPDU_select_by_name
      (w : World) (cla p2 : Z) (d rest : Uint8Array) :
  (0 < length d)%nat ->
  processAPDU w (cla :: 0xA4 :: 0x04 :: p2 :: Z.of_nat (length d) :: d ++ rest)
  = (w, if bytesEqual d NTAG424_AID then [0x90; 0x00] else [0x6A; 0x82]).
Proof.
  intro Hd. unfold processAPDU.
  rewrite ApduFacts.parseAPDU_with_data by assumption.
  unfold isSelectCommand. cbn [INS].
  change (0xA4 =? INS.SELECT) with true. cbv iota.
  unfold handleSelectCommand, Handlers.handleSelect, getSelectAID,
    isSelectByAID, isSelectCommand.
  cbn [INS P1 data].
  change (0xA4 =? INS.SELECT) with true.
  change (0x04 =? P1_SELECT.BY_DF_NAME) with true.
  cbn [andb negb]. unfold Handlers.handleSelectByAID.
  destruct (bytesEqual d NTAG424_AID); reflexivity.
Qed.

(** [processAPDU] on a SELECT by file identifier with a two-byte
    identifier. *)
Lemma processAPDU_select_by_id
      (w : World) (cla p2 hi lo : Z) (rest : Uint8Array) :
  is_byte lo ->
  processAPDU w (cla :: 0xA4 :: 0x00 :: p2 :: 2 :: hi :: lo :: rest)
  = let fileId := hi * 256 + lo in
    if existsb (Z.eqb fileId)
               [FILE_ID.CC; FILE_ID.NDEF; FILE_ID.PROPRIETARY]
    then (select_file fileId w, [0x90; 0x00])
    else (w, [0x6A; 0x82]).
Proof.
  intro Hlo. unfold processAPDU.
  change (cla :: 0xA4 :: 0x00 :: p2 :: 2 :: hi :: lo :: rest)
    with (cla :: 0xA4 :: 0x00 :: p2 :: Z.of_nat (length [hi; lo])
              :: [hi; lo] ++ rest).
  rewrite ApduFacts.parseAPDU_with_data by (cbn [length]; lia).
  unfold isSelectCommand. cbn [INS].
  change (0xA4 =? INS.SELECT) with true. cbv iota.
  unfold handleSelectCommand, Handlers.handleSelect, getSelectAID,
    getSelectFileID, isSelectByAID, isSelectByFileID, isSelectCommand.
  cbn [INS P1 data].
  change (0xA4 =? INS.SELECT) with true.
  change (0x00 =? P1_SELECT.BY_DF_NAME) with false.
  change (0x00 =? P1_SELECT.BY_FILE_ID) with true.
  cbn [andb negb length Nat.eqb nth].
  rewrite UtilsFacts.lor_shift_byte by exact Hlo.
  cbv zeta. unfold Handlers.handleSelectByFileID.
  destruct (existsb (Z.eqb (hi * 256 + lo))
              [FILE_ID.CC; FILE_ID.NDEF; FILE_ID.PROPRIETARY]);
    reflexivity.
Qed.

Lemma reads_at_5 (cla p1 p2 le : Z) :
  is_byte p2 ->
  reads_at [cla; 0xB0; p1; p2; le]
  = Some (p1 * 256 + p2, if le =? 0 then 256 else le).
Proof.
  intro H2. unfold reads_at. rewrite ServiceExtraFacts.parseAPDU_5.
  unfold getReadOffset, getReadLength, isReadBinaryCommand.
  cbn [INS P1 P2 Le].
  change (0xB0 =? INS.READ_BINARY) with true. cbn [negb].
  rewrite UtilsFacts.lor_shift_byte by exact H2. reflexivity.
Qed.

Lemma reads_at_4 (cla p1 p2 : Z) :
  is_byte p2 -> reads_at [cla; 0xB0; p1; p2] = Some (p1 * 256 + p2, 0).
Proof.
  intro H2. unfold reads_at. rewrite ServiceExtraFacts.parseAPDU_4.
  unfold getReadOffset, getReadLength, isReadBinaryCommand.
  cbn [INS P1 P2 Le].
  change (0xB0 =? INS.READ_BINARY) with true. cbn [negb].
  rewrite UtilsFacts.lor_shift_byte by exact H2. reflexivity.
Qed.

End SelectFacts.

(** X25.  SELECT by name answers 9000 for the NDEF application identifier
    and 6A82 for any other name, and leaves the state, the selected file
    included, as it is.  SELECT by a two-byte file identifier selects the
    files 1, 2 and 3 and answers 6A82 for any other file, without asking
    that the application was selected before.  A SELECT with another P1,
    or without a data field, is answered 6A86.  P2 and what follows the
    data are not looked at. *)
Theorem X25_select :
  (forall (w : NTAG424Service.World) (cla p2 : Z) (d rest : Uint8Array),
      (0 < length d)%nat ->
      let bytes :=
        cla :: 0xA4 :: 0x04 :: p2 :: Z.of_nat (length d) :: d ++ rest in
      (d = NTAG424_AID ->
       NTAG424Service.processAPDU w bytes = (w, [0x90; 0x00])) /\
      (d <> NTAG424_AID ->
       NTAG424Service.processAPDU w bytes = (w, [0x6A; 0x82]))) /\
  (forall (w : NTAG424Service.World) (cla p2 hi lo : Z) (rest : Uint8Array),
      is_byte hi -> is_byte lo ->
      let bytes := cla :: 0xA4 :: 0x00 :: p2 :: 2 :: hi :: lo :: rest in
      (hi = 0 /\ (lo = 1 \/ lo = 2 \/ lo = 3) ->
       NTAG424Service.processAPDU w bytes
       = (NTAG424Service.select_file lo w, [0x90; 0x00])) /\
      (~ (hi = 0 /\ (lo = 1 \/ lo = 2 \/ lo = 3)) ->
       NTAG424Service.processAPDU w bytes = (w, [0x6A; 0x82]))) /\
  (forall (w : NTAG424Service.World) (bytes : Uint8Array)
          (c : Apdu.APDUCommand),
      Apdu.parseAPDU bytes = Ok c -> Apdu.INS c = 0xA4 ->
      (Apdu.P1 c <> 0x00 /\ Apdu.P1 c <> 0x04) \/ Apdu.data c = None ->
      NTAG424Service.processAPDU w bytes = (w, [0x6A; 0x86])).
Proof.
  split; [| split].
  - intros w cla p2 d rest Hd bytes. subst bytes.
    rewrite SelectFacts.processAPDU_select_by_name by assumption.
    split; intro H.
    + apply ApduFacts.bytesEqual_iff in H. rewrite H. reflexivity.
    + destruct (Apdu.bytesEqual d NTAG424_AID) eqn:E; [|reflexivity].
      apply ApduFacts.bytesEqual_iff in E. contradiction.
  - intros w cla p2 hi lo rest Hhi Hlo bytes. subst bytes.
    rewrite SelectFacts.processAPDU_select_by_id by assumption.
    cbv zeta. unfold is_byte in Hhi, Hlo. split.
    + intros [-> H]. cbn [Z.mul Z.add].
      destruct H as [-> | [-> | ->]]; reflexivity.
    + intro H.
      destruct (existsb _ _) eqn:E; [|reflexivity].
      exfalso. apply H. apply existsb_exists in E as (x & Hin & Hx).
      apply Z.eqb_eq in Hx. cbn [In] in Hin.
      unfold FILE_ID.CC, FILE_ID.NDEF, FILE_ID.PROPRIETARY in Hin. lia.
  - intros w bytes c Hp Hi H. unfold NTAG424Service.processAPDU. rewrite Hp.
    unfold Apdu.isSelectCommand. rewrite Hi.
    change (0xA4 =? INS.SELECT) with true. cbv iota.
    unfold NTAG424Service.handleSelectCommand, Handlers.handleSelect,
      Apdu.getSelectAID, Apdu.getSelectFileID, Apdu.isSelectByAID,
      Apdu.isSelectByFileID, Apdu.isSelectCommand.
    rewrite Hi. change (0xA4 =? INS.SELECT) with true. cbn [andb].
    destruct H as [[H0 H4] | Hd].
    + destruct (Z.eqb_spec (Apdu.P1 c) P1_SELECT.BY_DF_NAME);
        [contradiction|].
      destruct (Z.eqb_spec (Apdu.P1 c) P1_SELECT.BY_FILE_ID);
        [contradiction|].
      reflexivity.
    + rewrite Hd.
      destruct (Apdu.P1 c =? P1_SELECT.BY_DF_NAME);
        destruct (Apdu.P1 c =? P1_SELECT.BY_FILE_ID); reflexivity.
Qed.

Lemma X25_select_witness :
  NTAG424Service.processAPDU
    (NTAG424Service.new scenario_keys "https://card.example/scan" "abc" 5
       None)
    (0x00 :: 0xA4 :: 0x00 :: 0x0C :: 2 :: 0 :: 2 :: [])
  = (NTAG424Service.select_file 2
       (NTAG424Service.new scenario_keys "https://card.example/scan" "abc" 5
          None),
     [0x90; 0x00]).
Proof.
  apply (proj1 (proj1 (proj2 X25_select)
                  (NTAG424Service.new scenario_keys
                     "https://card.example/scan" "abc" 5 None)
                  0x00 0x0C 0 2 [] ltac:(unfold is_byte; lia)
                  ltac:(unfold is_byte; lia))).
  split; [reflexivity | right; left; reflexivity].
Defined.

(** X26.  While the capability container is selected, a READ BINARY
    returns the bytes of [E1 40 00 40 00 00] from the offset P1 P2 on, at
    most as many as [Le] asks for, an [Le] of 0 standing for 256, followed
    by 9000; without [Le] it returns 9000 alone.  The state, the counter
    included, is left as it is, also at offset 0. *)
Theorem X26_read_capability_container
        (w : NTAG424Service.World) (cla p1 p2 le : Z) :
  NTAG424Service.selectedFileId (NTAG424Service.state w) = Some FILE_ID.CC ->
  is_byte p1 -> is_byte p2 -> is_byte le ->
  NTAG424Service.processAPDU w [cla; 0xB0; p1; p2; le]
  = (w, firstn (Z.to_nat (if le =? 0 then 256 else le))
               (skipn (Z.to_nat (p1 * 256 + p2))
                      [0xE1; 0x40; 0x00; 0x40; 0x00; 0x00])
        ++ [0x90; 0x00]) /\
  NTAG424Service.processAPDU w [cla; 0xB0; p1; p2] = (w, [0x90; 0x00]).
Proof.
  intros Hsel H1 H2 Hle. unfold is_byte in H1, H2.
  split.
  - rewrite (ServiceExtraFacts.processAPDU_read_cc w _ _ _ Hsel
               (SelectFacts.reads_at_5 cla p1 p2 le H2)).
    rewrite ServiceFacts.serialize_read_portion by lia. reflexivity.
  - rewrite (ServiceExtraFacts.processAPDU_read_cc w _ _ _ Hsel
               (SelectFacts.reads_at_4 cla p1 p2 H2)).
    rewrite ServiceFacts.serialize_read_portion by lia. reflexivity.
Qed.

Lemma X26_read_capability_container_witness :
  let w := NTAG424Service.select_file 1
             (NTAG424Service.new scenario_keys "https://card.example/scan"
                "abc" 5 None) in
  NTAG424Service.processAPDU w [0x00; 0xB0; 0x00; 0x02; 0x00]
  = (w, firstn (Z.to_nat (if 0x00 =? 0 then 256 else 0x00))
               (skipn (Z.to_nat (0x00 * 256 + 0x02))
                      [0xE1; 0x40; 0x00; 0x40; 0x00; 0x00])
        ++ [0x90; 0x00]) /\
  NTAG424Service.processAPDU w [0x00; 0xB0; 0x00; 0x02] = (w, [0x90; 0x00]).
Proof.
  intro w.
  apply (X26_read_capability_container w 0x00 0x00 0x02 0x00);
    [reflexivity | unfold is_byte; lia | unfold is_byte; lia
     | unfold is_byte; lia].
Defined.

(** X27.  When K1 or K2 is not 16 bytes long, a READ BINARY at offset 0 of
    the selected NDEF file is answered 6F00, and the counter in memory has
    been incremented and a persistence task started all the same. *)
Theorem X27_failed_generation_still_counts
        (w : NTAG424Service.World) (bytes : Uint8Array) (len : Z) :
  Session.ndef_selected w -> Session.reads_at bytes = Some (0, len) ->
  length (NTAG424Service.K1 (NTAG424Service.keys w)) <> 16%nat \/
  length (NTAG424Service.K2 (NTAG424Service.keys w)) <> 16%nat ->
  exists w',
    NTAG424Service.processAPDU w bytes = (w', [0x6F; 0x00]) /\
    NTAG424Service.counter (NTAG424Service.state w')
    = Utils.incrementCounter
        (NTAG424Service.counter (NTAG424Service.state w)) /\
    NTAG424Service.pending w' = S (NTAG424Service.pending w) /\
    NTAG424Service.store w' = NTAG424Service.store w.
Proof.
  intros Hsel Hread Hk.
  exists (NTAG424Service.handleCounterIncrement w).
  split; [| repeat split].
  rewrite (ServiceFacts.processAPDU_read_ndef w bytes 0 len Hsel Hread).
  cbv zeta. change (0 =? 0) with true. cbv iota.
  unfold NTAG424Service.generateNDEFData, SDMService.generateNDEFWithSDM.
  destruct (ServiceExtraFacts.generateSDM_throws
              {| SDMService.uid :=
                   NTAG424Service.UID
                     (NTAG424Service.keys
                        (NTAG424Service.handleCounterIncrement w));
                 SDMService.counter :=
                   NTAG424Service.counter
                     (NTAG424Service.state
                        (NTAG424Service.handleCounterIncrement w));
                 SDMService.encKey :=
                   NTAG424Service.K1
                     (NTAG424Service.keys
                        (NTAG424Service.handleCounterIncrement w));
                 SDMService.macKey :=
                   NTAG424Service.K2
                     (NTAG424Service.keys
                        (NTAG424Service.handleCounterIncrement w));
                 SDMService.cfg_piccData :=
                   Utils.concat
                     [NTAG424Service.UID
                        (NTAG424Service.keys
                           (NTAG424Service.handleCounterIncrement w));
                      NTAG424Service.counter
                        (NTAG424Service.state
                           (NTAG424Service.handleCounterIncrement w))] |})
    as [msg E].
  { exact Hk. }
  rewrite E. reflexivity.
Qed.

Lemma X27_failed_generation_still_counts_witness :
  exists w',
    NTAG424Service.processAPDU
      (NTAG424Service.updateKeys Extra.short_K1_keys (scenario_world 5))
      READ_BINARY_0_FF = (w', [0x6F; 0x00]) /\
    NTAG424Service.counter (NTAG424Service.state w')
    = Utils.incrementCounter
        (NTAG424Service.counter
           (NTAG424Service.state
              (NTAG424Service.updateKeys Extra.short_K1_keys
                 (scenario_world 5)))) /\
    NTAG424Service.pending w'
    = S (NTAG424Service.pending
           (NTAG424Service.updateKeys Extra.short_K1_keys
              (scenario_world 5))) /\
    NTAG424Service.store w'
    = NTAG424Service.store
        (NTAG424Service.updateKeys Extra.short_K1_keys (scenario_world 5)).
Proof.
  apply (X27_failed_generation_still_counts
           (NTAG424Service.updateKeys Extra.short_K1_keys (scenario_world 5))
           READ_BINARY_0_FF 0xFF).
  - reflexivity.
  - reflexivity.
  - left. cbn. lia.
Defined.

(** X28.  [importKeysFromHex] reads back the keys that [exportKeysToHex]
    wrote, whatever their lengths; it does not check them.  [validateKeys]
    holds exactly for three 16-byte keys and a 7-byte UID. *)
Theorem X28_keys_hex_round_trip (k : NTAG424Service.NTAG424Keys) :
  is_bytes (NTAG424Service.K0 k) -> is_bytes (NTAG424Service.K1 k) ->
  is_bytes (NTAG424Service.K2 k) -> is_bytes (NTAG424Service.UID k) ->
  CryptoService.importKeysFromHex (CryptoService.exportKeysToHex k) = Ok k /\
  (CryptoService.validateKeys k = true <->
   length (NTAG424Service.K0 k) = 16%nat /\
   length (NTAG424Service.K1 k) = 16%nat /\
   length (NTAG424Service.K2 k) = 16%nat /\
   length (NTAG424Service.UID k) = 7%nat).
Proof.
  intros B0 B1 B2 Bu. split.
  - unfold CryptoService.importKeysFromHex, CryptoService.exportKeysToHex.
    cbn [CryptoService.hK0 CryptoService.hK1 CryptoService.hK2
         CryptoService.hUID].
    rewrite !HexFacts.hexToBytes_bytesToHex by assumption.
    cbn [bind]. destruct k; reflexivity.
  - unfold CryptoService.validateKeys.
    rewrite !andb_true_iff, !Nat.eqb_eq. tauto.
Qed.

Lemma X28_keys_hex_round_trip_witness :
  CryptoService.importKeysFromHex
    (CryptoService.exportKeysToHex Extra.short_K1_keys)
  = Ok Extra.short_K1_keys /\
  (CryptoService.validateKeys Extra.short_K1_keys = true <->
   length (NTAG424Service.K0 Extra.short_K1_keys) = 16%nat /\
   length (NTAG424Service.K1 Extra.short_K1_keys) = 16%nat /\
   length (NTAG424Service.K2 Extra.short_K1_keys) = 16%nat /\
   length (NTAG424Service.UID Extra.short_K1_keys) = 7%nat).
Proof.
  apply (X28_keys_hex_round_trip Extra.short_K1_keys);
    apply is_bytesb_sound; reflexivity.
Defined.

(* ===================================================================== *)
(** * Test vectors *)

(** FIPS-197 / SP 800-38A: one block under the key of the CMAC examples. *)
Example aes_fips197 :
  CryptoJS.encryptBlock (hx "2B7E151628AED2A6ABF7158809CF4F3C")
                        (hx "6BC1BEE22E409F96E93D7E117393172A")
  = hx "3AD77BB40D7A3660A89ECAF32466EF97".
Proof. vm_compute. reflexivity. Qed.

(** SP 800-38B, examples 1 to 3. *)
Example cmac_empty :
  Cmac.cmac (hx "2B7E151628AED2A6ABF7158809CF4F3C") []
  = Ok (hx "BB1D6929E95937287FA37D129B756746").
Proof. vm_compute. reflexivity. Qed.

Example cmac_16 :
  Cmac.cmac (hx "2B7E151628AED2A6ABF7158809CF4F3C")
            (hx "6BC1BEE22E409F96E93D7E117393172A")
  = Ok (hx "070A16B46B4D4144F79BDD9DD04A287C").
Proof. vm_compute. reflexivity. Qed.

Example cmac_40 :
  Cmac.cmac (hx "2B7E151628AED2A6ABF7158809CF4F3C")
            (hx "6BC1BEE22E409F96E93D7E117393172AAE2D8A571E03AC9C9EB76FAC45AF8E5130C81C46A35CE411")
  = Ok (hx "DFA66747DE9AE63030CA32611497C827").
Proof. vm_compute. reflexivity. Qed.
